(** * Device-control firmware of the peptide synthesiser (Arduino Opta)

    A shallow embedding of the two controller sketches

      - [integrated_opta_controller.ino]            (serial transport, module [Serial])
      - [integrated_opta_controller_ethernet.ino]   (TCP transport, module [Ethernet])

    The relay and the VICI valve classes are the same in both sketches and
    are embedded once; the Masterflex pump, the device manager, the parser
    and the command handler differ and are embedded per sketch.

    Modelling conventions.

      - C strings are values of [string]: the characters before the
        terminating NUL.  Buffers filled from the bus hold raw bytes and
        are turned into a C string by [cstr].
      - [size_t] quantities are [N]; the one subtraction that can wrap is
        written with [size_sub] (32 bit).
      - The hardware is a record [World] that is threaded through every
        operation by the state monad [M].
      - A polling loop that reads the bus until a deadline is embedded as a
        scan over the bytes [RS485.read()] hands out before that deadline:
        field [rs485_rx] lists, for each coming response window, those
        bytes; when the list is used up the line stays silent.  Bytes a
        reader leaves unread belong to the window and are dropped with it
        (the next transaction drains the receiver).
      - [atof] and the [%f] conversions are not computed; they are the
        fields of a [FloatFormat] that the pump code takes as a parameter.
      - Memory the code reads without having written it (the bytes behind
        a token that [strncpy] copied without a terminator) is a
        parameter of the command handlers, [Stray]; a statement about a
        handler holds for whatever it is.
      - An argument for a [uint8_t] parameter is taken modulo 256
        ([uint8]). *)

From Stdlib Require Import PeanoNat NArith Bool List Lia.
From Stdlib.Strings Require Import Ascii String Byte.
From Stdlib Require Import DecimalString.
Import ListNotations.
Local Open Scope string_scope.
Local Open Scope N_scope.

(* ===================================================================== *)
(** ** C strings and libc                                                 *)
(* ===================================================================== *)

Definition CR : ascii := "013"%char.
Definition LF : ascii := "010"%char.
Definition CRLF : string := String CR (String LF "").

Fixpoint strlen (s : string) : N :=
  match s with
  | "" => 0
  | String _ s' => N.succ (strlen s')
  end.

(** The first [n] characters of [s]: what [strncpy (dst, s, n)] leaves in a
    buffer whose byte [n] is NUL, and what [strncat] appends. *)
Fixpoint take (n : N) (s : string) : string :=
  match s with
  | "" => ""
  | String c s' => if n =? 0 then "" else String c (take (N.pred n) s')
  end.

(** [snprintf (buf, size, fmt, ...)]: the formatted text [s] clipped to
    [size - 1] characters. *)
Definition snprintf (size : N) (s : string) : string := take (size - 1) s.

Definition strncat (dst src : string) (n : N) : string := dst ++ take n src.

(** [strlcat (dst, src, size)]: nothing is appended once [dst] fills
    [size]. *)
Definition strlcat (dst src : string) (size : N) : string :=
  if size <=? strlen dst then dst else dst ++ take (size - strlen dst - 1) src.

(** Subtraction on [size_t]. *)
Definition size_sub (a b : N) : N := (a + 2 ^ 32 - b mod 2 ^ 32) mod 2 ^ 32.

Definition tolower (c : ascii) : ascii :=
  let n := N_of_ascii c in
  if (65 <=? n) && (n <=? 90) then ascii_of_N (n + 32) else c.

(** [strcasecmp (a, b) == 0] *)
Fixpoint strcaseeq (a b : string) : bool :=
  match a, b with
  | "", "" => true
  | String x a', String y b' => Ascii.eqb (tolower x) (tolower y) && strcaseeq a' b'
  | _, _ => false
  end.

(** [strncmp (s, p, strlen p) == 0] *)
Fixpoint has_prefix (p s : string) : bool :=
  match p, s with
  | "", _ => true
  | String x p', String y s' => Ascii.eqb x y && has_prefix p' s'
  | _, _ => false
  end.

(** [strstr (s, p) != NULL] *)
Fixpoint strstr (s p : string) : bool :=
  has_prefix p s ||
  match s with
  | "" => false
  | String _ s' => strstr s' p
  end.

Definition isspace (c : ascii) : bool :=
  let n := N_of_ascii c in (n =? 32) || ((9 <=? n) && (n <=? 13)).

Fixpoint ltrim (s : string) : string :=
  match s with
  | "" => ""
  | String c s' => if isspace c then ltrim s' else s
  end.

Fixpoint rtrim (s : string) : string :=
  match s with
  | "" => ""
  | String c s' =>
      match rtrim s' with
      | "" => if isspace c then "" else String c ""
      | t => String c t
      end
  end.

(** Arduino [String::trim]. *)
Definition trim (s : string) : string := rtrim (ltrim s).

(** Arduino [String::equalsIgnoreCase]. *)
Definition equalsIgnoreCase (a b : string) : bool := strcaseeq a b.

(** The successive results of [strtok (s, ":")], [strtok (NULL, ":")], ...:
    the maximal runs of characters other than [:]; [acc] is the run being
    read. *)
Fixpoint strtok (s acc : string) : list string :=
  match s with
  | "" => match acc with "" => [] | _ => [acc] end
  | String c s' =>
      if Ascii.eqb c ":"
      then match acc with "" => strtok s' "" | _ => acc :: strtok s' "" end
      else strtok s' (acc ++ String c "")
  end.

(** The C string held by a byte buffer: the characters before the first
    NUL. *)
Fixpoint cstr (buf : list byte) : string :=
  match buf with
  | [] => ""
  | b :: buf' => if Byte.eqb b x00 then "" else String (ascii_of_byte b) (cstr buf')
  end.

Definition bytes (s : string) : list byte := list_byte_of_string s.

Definition blen (l : list byte) : N := N.of_nat (List.length l).

(* ===================================================================== *)
(** ** The hardware                                                       *)
(* ===================================================================== *)

Inductive Pin := D0 | D1 | D2 | D3 | LED_D0 | LED_D1 | LED_D2 | LED_D3.

Definition Pin_eqb (p q : Pin) : bool :=
  match p, q with
  | D0, D0 | D1, D1 | D2, D2 | D3, D3
  | LED_D0, LED_D0 | LED_D1, LED_D1 | LED_D2, LED_D2 | LED_D3, LED_D3 => true
  | _, _ => false
  end.

Inductive PinMode := INPUT | OUTPUT.

(** The parameters of the shared RS485 line. *)
Inductive BusConfig :=
| BusClosed                 (* after [RS485.end ()] *)
| Bus9600_8N1               (* [RS485.begin (9600)] *)
| Bus4800_7O1.              (* [RS485.begin (4800, SERIAL_7O1)] *)

Record World := mkWorld {
  rs485_cfg : BusConfig;
  rs485_rx : list (list byte);             (* bytes of the coming response windows *)
  rs485_tx : list (BusConfig * list byte); (* what was written, oldest first *)
  gpio_mode : Pin -> PinMode;
  gpio_level : Pin -> bool;
  serial_out : string;                     (* everything printed on [Serial] *)
  tcp_out : string                         (* everything printed on the TCP client *)
}.

Definition M (A : Type) : Type := World -> A * World.

Definition ret {A} (a : A) : M A := fun w => (a, w).

Definition bind {A B} (c : M A) (k : A -> M B) : M B :=
  fun w => let (a, w') := c w in k a w'.

Declare Scope fw_scope.
Delimit Scope fw_scope with fw.
Notation "x <- c ;; k" := (bind c (fun x => k))
  (at level 61, c at next level, right associativity) : fw_scope.
Notation "' pat <- c ;; k" := (bind c (fun x => match x with pat => k end))
  (at level 61, pat pattern, c at next level, right associativity) : fw_scope.
Notation "c ;; k" := (bind c (fun _ => k))
  (at level 61, right associativity) : fw_scope.
Local Open Scope fw_scope.

Definition pinMode (p : Pin) (m : PinMode) : M unit := fun w =>
  (tt, mkWorld (rs485_cfg w) (rs485_rx w) (rs485_tx w)
         (fun q => if Pin_eqb q p then m else gpio_mode w q)
         (gpio_level w) (serial_out w) (tcp_out w)).

Definition digitalWrite (p : Pin) (v : bool) : M unit := fun w =>
  (tt, mkWorld (rs485_cfg w) (rs485_rx w) (rs485_tx w) (gpio_mode w)
         (fun q => if Pin_eqb q p then v else gpio_level w q)
         (serial_out w) (tcp_out w)).

Definition HIGH : bool := true.
Definition LOW : bool := false.

Definition Serial_print (s : string) : M unit := fun w =>
  (tt, mkWorld (rs485_cfg w) (rs485_rx w) (rs485_tx w) (gpio_mode w)
         (gpio_level w) (serial_out w ++ s) (tcp_out w)).

Definition Serial_println (s : string) : M unit := Serial_print (s ++ CRLF).

Definition client_println (s : string) : M unit := fun w =>
  (tt, mkWorld (rs485_cfg w) (rs485_rx w) (rs485_tx w) (gpio_mode w)
         (gpio_level w) (serial_out w) (tcp_out w ++ s ++ CRLF)).

Definition set_cfg (c : BusConfig) : M unit := fun w =>
  (tt, mkWorld c (rs485_rx w) (rs485_tx w) (gpio_mode w) (gpio_level w)
         (serial_out w) (tcp_out w)).

Definition RS485_end : M unit := set_cfg BusClosed.
Definition RS485_begin (c : BusConfig) : M unit := set_cfg c.

(** Switching the transceiver between receive and transmit, flushing and
    the delays leave no trace in [World]. *)
Definition RS485_receive : M unit := ret tt.
Definition RS485_noReceive : M unit := ret tt.
Definition RS485_beginTransmission : M unit := ret tt.
Definition RS485_endTransmission : M unit := ret tt.
Definition RS485_flush : M unit := ret tt.
Definition delay (ms : N) : M unit := ret tt.
Definition delayMicroseconds (us : N) : M unit := ret tt.

Definition RS485_write (frame : list byte) : M unit := fun w =>
  (tt, mkWorld (rs485_cfg w) (rs485_rx w)
         (rs485_tx w ++ [(rs485_cfg w, frame)])%list
         (gpio_mode w) (gpio_level w) (serial_out w) (tcp_out w)).

(** [while (RS485.available ()) (void) RS485.read ();] before a
    transmission: stale bytes are not part of [rs485_rx]. *)
Definition drain : M unit := ret tt.

(** The bytes the receiver hands out during the next response window. *)
Definition rx_window : M (list byte) := fun w =>
  match rs485_rx w with
  | [] => ([], w)
  | r :: rest =>
      (r, mkWorld (rs485_cfg w) rest (rs485_tx w) (gpio_mode w)
            (gpio_level w) (serial_out w) (tcp_out w))
  end.

(* ===================================================================== *)
(** ** Devices                                                            *)
(* ===================================================================== *)

Inductive DeviceType := DEVICE_RELAY | DEVICE_VICI | DEVICE_MASTERFLEX.

Inductive CommandResult := CMD_OK | CMD_ERROR | CMD_DATA.

Definition MAX_DEVICES : nat := 16.

(** An argument passed for a [uint8_t] parameter arrives modulo 256. *)
Definition uint8 (n : N) : N := n mod 256.

(** [char id[12]] filled by [strncpy (id, deviceId, sizeof (id) - 1)]. *)
Definition copy_id (deviceId : string) : string := take 11 deviceId.

(* --------------------------------------------------------------------- *)
(** *** Relay                                                             *)
(* --------------------------------------------------------------------- *)

Record RelayDevice := mkRelay {
  relay_id : string;
  relay_enabled : bool;
  pin : Pin;
  ledPin : Pin;
  state : bool
}.

Module Relay.

Definition new (deviceId : string) (relayNum : N) : RelayDevice :=
  let '(p, l) :=
    match uint8 relayNum with
    | 1 => (D0, LED_D0)
    | 2 => (D1, LED_D1)
    | 3 => (D2, LED_D2)
    | 4 => (D3, LED_D3)
    | _ => (D0, LED_D0)
    end in
  mkRelay (copy_id deviceId) false p l false.

Definition initialize (d : RelayDevice) : M (bool * RelayDevice) :=
  pinMode (pin d) OUTPUT ;;
  pinMode (ledPin d) OUTPUT ;;
  digitalWrite (pin d) LOW ;;
  digitalWrite (ledPin d) LOW ;;
  ret (true, mkRelay (relay_id d) true (pin d) (ledPin d) false).

Definition set_state (d : RelayDevice) (s : bool) : RelayDevice :=
  mkRelay (relay_id d) (relay_enabled d) (pin d) (ledPin d) s.

Definition processCommand (d : RelayDevice) (command : string)
    (param1 param2 : option string) (responseSize : N)
  : M (CommandResult * string * RelayDevice) :=
  if strcaseeq command "ON" then
    digitalWrite (pin d) HIGH ;;
    digitalWrite (ledPin d) HIGH ;;
    ret (CMD_OK, snprintf responseSize ("Relay " ++ relay_id d ++ " ON"),
         set_state d true)
  else if strcaseeq command "OFF" then
    digitalWrite (pin d) LOW ;;
    digitalWrite (ledPin d) LOW ;;
    ret (CMD_OK, snprintf responseSize ("Relay " ++ relay_id d ++ " OFF"),
         set_state d false)
  else if strcaseeq command "TOGGLE" then
    let s := negb (state d) in
    digitalWrite (pin d) s ;;
    digitalWrite (ledPin d) s ;;
    ret (CMD_OK,
         snprintf responseSize
           ("Relay " ++ relay_id d ++ " " ++ (if s then "ON" else "OFF")),
         set_state d s)
  else
    ret (CMD_ERROR,
         snprintf responseSize ("Unknown relay command: " ++ command), d).

Definition getStatus (d : RelayDevice) (statusSize : N) : M (bool * string) :=
  ret (true,
       snprintf statusSize
         (relay_id d ++ ":" ++ (if state d then "ON" else "OFF"))).

End Relay.

(* --------------------------------------------------------------------- *)
(** *** VICI valve                                                        *)
(* --------------------------------------------------------------------- *)

Record ViciDevice := mkVici {
  vici_id : string;
  vici_enabled : bool;
  viciId : ascii
}.

Module Vici.

Definition new (deviceId : string) (valveId : ascii) : ViciDevice :=
  mkVici (copy_id deviceId) false valveId.

(** The serial sketch lets the line settle for 50 ms, the Ethernet sketch
    for 30 ms. *)
Definition setupViciRS485 : M unit :=
  RS485_end ;; RS485_begin Bus9600_8N1 ;; RS485_receive ;; delay 50.

Definition drainRx : M unit := drain.

(** [frame] is 64 bytes wide; every [core] the class passes is at most
    15 characters long, so the text is never clipped and the length
    [snprintf] returns is the length of what [frame] holds. *)
Definition sendFrame (d : ViciDevice) (core : string) : M unit :=
  let frame := snprintf 64 ("/" ++ String (viciId d) core ++ String CR "") in
  RS485_noReceive ;;
  RS485_beginTransmission ;;
  RS485_write (bytes frame) ;;
  RS485_flush ;;
  delayMicroseconds 1200 ;;
  RS485_endTransmission ;;
  RS485_receive.

(** The scan of [readLine] over the bytes [rx] of the window; [out] is
    the buffer filled so far ([i] is its length).  The loop ends on a
    carriage return, or when the bytes stop coming (gap or total
    time-out): both return [i > 0]. *)
Fixpoint readLine_scan (rx : list byte) (max : N) (out : list byte)
  : bool * list byte :=
  match rx with
  | [] => (0 <? blen out, out)
  | b :: rx' =>
      if Byte.eqb b x0d then (0 <? blen out, out)
      else if Byte.eqb b x0a then readLine_scan rx' max out
      else if blen out + 1 <? max then readLine_scan rx' max (out ++ [b])%list
      else readLine_scan rx' max out
  end.

Definition readLine (max totalTO gapTO : N) : M (bool * string) :=
  rx <- rx_window ;;
  let '(ok, out) := readLine_scan rx max [] in
  ret (ok, cstr out).

(** [resp] is [None] for the calls without a response buffer, else the
    size of the buffer. *)
Definition sendCommand (d : ViciDevice) (core : string) (resp : option N)
  : M (bool * string) :=
  setupViciRS485 ;;
  drainRx ;;
  sendFrame d core ;;
  match resp with
  | None => ret (true, "")
  | Some respMax =>
      if respMax =? 0 then ret (true, "") else readLine respMax 600 80
  end.

Definition initialize (d : ViciDevice) : M (bool * ViciDevice) :=
  ret (true, mkVici (vici_id d) true (viciId d)).

Definition failed (command : string) (responseSize : N) : CommandResult * string :=
  (CMD_ERROR, snprintf responseSize ("VICI command failed or unknown: " ++ command)).

Definition processCommand (d : ViciDevice) (command : string)
    (param1 param2 : option string) (responseSize : N)
  : M (CommandResult * string) :=
  match (if strcaseeq command "GOTO" then param1 else None) with
  | Some p1 =>
      let gotoCmd := snprintf 16 ("GO" ++ p1) in
      '(ok, _) <- sendCommand d gotoCmd None ;;
      if ok
      then ret (CMD_OK, snprintf responseSize ("VICI " ++ vici_id d ++ " moved to " ++ p1))
      else ret (failed command responseSize)
  | None =>
      if strcaseeq command "TOGGLE" then
        '(ok, _) <- sendCommand d "TO" None ;;
        if ok
        then ret (CMD_OK, snprintf responseSize ("VICI " ++ vici_id d ++ " toggled"))
        else ret (failed command responseSize)
      else if strcaseeq command "HOME" then
        '(ok, _) <- sendCommand d "HM" None ;;
        if ok
        then ret (CMD_OK, snprintf responseSize ("VICI " ++ vici_id d ++ " homed"))
        else ret (failed command responseSize)
      else if strcaseeq command "POSITION" then
        '(ok, viciResponse) <- sendCommand d "CP" (Some 128) ;;
        if ok
        then ret (CMD_DATA,
                  snprintf responseSize
                    ("VICI " ++ vici_id d ++ " position: " ++ viciResponse))
        else ret (failed command responseSize)
      else if strcaseeq command "STATUS" then
        '(ok, viciResponse) <- sendCommand d "STAT" (Some 128) ;;
        if ok
        then ret (CMD_DATA,
                  snprintf responseSize
                    ("VICI " ++ vici_id d ++ " status: " ++ viciResponse))
        else ret (failed command responseSize)
      else if strcaseeq command "CW" then
        '(ok, _) <- sendCommand d "CW" None ;;
        if ok
        then ret (CMD_OK, snprintf responseSize ("VICI " ++ vici_id d ++ " moved CW"))
        else ret (failed command responseSize)
      else if strcaseeq command "CCW" then
        '(ok, _) <- sendCommand d "CC" None ;;
        if ok
        then ret (CMD_OK, snprintf responseSize ("VICI " ++ vici_id d ++ " moved CCW"))
        else ret (failed command responseSize)
      else ret (failed command responseSize)
  end.

Definition getStatus (d : ViciDevice) (statusSize : N) : M (bool * string) :=
  '(ok, pos) <- sendCommand d "CP" (Some 32) ;;
  if ok
  then ret (true, snprintf statusSize (vici_id d ++ ":POS_" ++ pos))
  else ret (true, snprintf statusSize (vici_id d ++ ":UNKNOWN")).

End Vici.

(* --------------------------------------------------------------------- *)
(** *** Masterflex pump: what both sketches share                         *)
(* --------------------------------------------------------------------- *)

Record MasterflexDevice := mkMflex {
  mflex_id : string;
  mflex_enabled : bool;
  pumpId : string;
  initialized : bool
}.

Inductive ResponseType := RESP_NONE | RESP_LINE | RESP_ACK | RESP_NAK.

Definition ResponseType_eqb (a b : ResponseType) : bool :=
  match a, b with
  | RESP_NONE, RESP_NONE | RESP_LINE, RESP_LINE
  | RESP_ACK, RESP_ACK | RESP_NAK, RESP_NAK => true
  | _, _ => false
  end.

(** [Serial.print ((int) respType)] *)
Definition print_int (r : ResponseType) : string :=
  match r with
  | RESP_NONE => "0"
  | RESP_LINE => "1"
  | RESP_ACK => "2"
  | RESP_NAK => "3"
  end.

Definition STX : ascii := "002"%char.

(** [atof] and the floating-point conversions of [snprintf], as functions
    of the parameter text. *)
Record FloatFormat := mkFloatFormat {
  ge_1000 : string -> bool;      (* abs (atof (p)) >= 1000 *)
  fmt_04d : string -> string;    (* "%04d",   (int) atof (p) *)
  fmt_06_1f : string -> string;  (* "%06.1f", atof (p) *)
  fmt_1f : string -> string;     (* "%.1f",   atof (p) *)
  fmt_08_2f : string -> string;  (* "%08.2f", atof (p) *)
  fmt_2f : string -> string      (* "%.2f",   atof (p) *)
}.

Definition set_initialized (d : MasterflexDevice) (b : bool) : MasterflexDevice :=
  mkMflex (mflex_id d) (mflex_enabled d) (pumpId d) b.

(** [char pumpId[4]] filled by [strncpy (pumpId, id, sizeof (pumpId) - 1)]. *)
Definition new_Masterflex (deviceId masterflexId : string) : MasterflexDevice :=
  mkMflex (copy_id deviceId) false (take 3 masterflexId) false.

Definition setupMasterflexRS485 (settle : N) : M unit :=
  RS485_end ;; RS485_begin Bus4800_7O1 ;; RS485_receive ;; delay settle.

Definition drainRS485 : M unit := drain.

(** [frame] is 64 bytes wide: [pumpId] has at most 3 characters and every
    [command] the class passes at most 31, so the text is never clipped. *)
Definition sendMasterflexFrame (d : MasterflexDevice) (command : string) : M unit :=
  let frame := snprintf 64 (String STX ("P" ++ pumpId d ++ command ++ String CR "")) in
  drainRS485 ;;
  RS485_noReceive ;;
  RS485_beginTransmission ;;
  RS485_write (bytes frame) ;;
  RS485_flush ;;
  delayMicroseconds 2000 ;;
  RS485_endTransmission ;;
  RS485_receive.

(** The three kinds of device behind the [Device] interface. *)
Inductive Device :=
| DevRelay (r : RelayDevice)
| DevVici (v : ViciDevice)
| DevMflex (m : MasterflexDevice).

Definition Device_id (d : Device) : string :=
  match d with
  | DevRelay r => relay_id r
  | DevVici v => vici_id v
  | DevMflex m => mflex_id m
  end.

Definition Device_type (d : Device) : DeviceType :=
  match d with
  | DevRelay _ => DEVICE_RELAY
  | DevVici _ => DEVICE_VICI
  | DevMflex _ => DEVICE_MASTERFLEX
  end.

Definition Device_enabled (d : Device) : bool :=
  match d with
  | DevRelay r => relay_enabled r
  | DevVici v => vici_enabled v
  | DevMflex m => mflex_enabled m
  end.

(** [Device* devices[MAX_DEVICES]; uint8_t deviceCount;] a null pointer is
    [None].  The objects are reachable through the manager only, so a slot
    holds the object itself. *)
Record DeviceManager := mkManager {
  devices : list (option Device);
  deviceCount : nat
}.

Definition new_DeviceManager : DeviceManager :=
  mkManager (repeat None MAX_DEVICES) 0.

(** [devices[i] = x] *)
Fixpoint store (i : nat) (x : option Device) (l : list (option Device))
  : list (option Device) :=
  match l, i with
  | [], _ => []
  | _ :: l', O => x :: l'
  | y :: l', S i' => y :: store i' x l'
  end.

(** The slots [devices[0]] ... [devices[deviceCount - 1]] a [for] loop
    visits. *)
Definition slots (dm : DeviceManager) : list (option Device) :=
  firstn (deviceCount dm) (devices dm).

(** The loop of [findDevice]; the result is the slot number together with
    the object found there. *)
Fixpoint find_loop (l : list (option Device)) (i : nat) (deviceId : string)
  : option (nat * Device) :=
  match l with
  | [] => None
  | Some d :: l' =>
      if strcaseeq (Device_id d) deviceId then Some (i, d)
      else find_loop l' (S i) deviceId
  | None :: l' => find_loop l' (S i) deviceId
  end.

Definition findDevice (dm : DeviceManager) (deviceId : string)
  : option (nat * Device) :=
  find_loop (slots dm) 0%nat deviceId.

Definition prefix (r : CommandResult) : string :=
  match r with
  | CMD_OK => "OK: "
  | CMD_DATA => "DATA: "
  | CMD_ERROR => "ERROR: "
  end.

Definition nth_token (n : nat) (l : list string) : string := nth n l "".

(** The arrays [deviceId], [command] (16 bytes), [param1] and [param2]
    (32 bytes) of the command handlers are not initialised, and
    [parseCommand] clears only their first byte before it copies the
    tokens with [strncpy (dst, token, 15)] and [strncpy (dst, token, 31)].
    [strncpy] pads a token shorter than its count with NULs, so such a
    token arrives whole.  Of a longer one it copies that many characters
    and writes no terminator: the string in [dst] then runs on into the
    bytes the memory held before.  [Stray] names those bytes, up to their
    first NUL, for each of the four arrays. *)
Record Stray := mkStray {
  stray_deviceId : string;
  stray_command : string;
  stray_param1 : string;
  stray_param2 : string
}.

(** The string in [dst] after [dst[0] = 0; if (token) strncpy (dst, token, n);]
    where a missing token is written as the empty one. *)
Definition strncpy_into (n : N) (token after : string) : string :=
  if strlen token <? n then token else take n token ++ after.

Definition is_eol (c : ascii) : bool := Ascii.eqb c LF || Ascii.eqb c CR.

(** [String::operator+= (char)]: a NUL character adds nothing. *)
Definition String_add (s : string) (c : ascii) : string :=
  if Ascii.eqb c zero then s else s ++ String c "".

(** [Serial.println (n)] for a [uint8_t]. *)
Definition print_nat (n : nat) : string := NilEmpty.string_of_uint (Nat.to_uint n).

Definition invalid_format : string :=
  "ERROR: Invalid command format. Use DEVICE_ID:COMMAND[:PARAM1[:PARAM2]]".

(* ===================================================================== *)
(** ** integrated_opta_controller.ino (serial transport)                  *)
(* ===================================================================== *)

Module Serial.
Section Sketch.

Variable ff : FloatFormat.

(** What the memory holds behind the tokens that [parseCommand] copies
    (see [Stray]). *)
Variable stray : Stray.

(** The scan of [readMasterflexResponse] over the bytes [rx] of the
    window; [buffer] is what was stored so far ([index] is its length).
    When the bytes stop coming the time-out ends the loop.  After an ACK
    or a NAK the buffer is left without a terminator; no caller reads it
    then. *)
Fixpoint readMasterflexResponse_scan (rx : list byte) (maxLen : N)
    (buffer : list byte) : ResponseType * list byte :=
  match rx with
  | [] => (if 0 <? blen buffer then RESP_LINE else RESP_NONE, buffer)
  | b :: rx' =>
      if Byte.eqb b x06 then (RESP_ACK, buffer)
      else if Byte.eqb b x15 then (RESP_NAK, buffer)
      else if Byte.eqb b x0d
      then (if 0 <? blen buffer then RESP_LINE else RESP_NONE, buffer)
      else if blen buffer + 1 <? maxLen
      then readMasterflexResponse_scan rx' maxLen (buffer ++ [b])%list
      else readMasterflexResponse_scan rx' maxLen buffer
  end.

Definition readMasterflexResponse (maxLen timeout : N)
  : M (ResponseType * string) :=
  rx <- rx_window ;;
  let '(r, buffer) := readMasterflexResponse_scan rx maxLen [] in
  ret (r, cstr buffer).

Definition Masterflex_initialize (d : MasterflexDevice)
  : M (bool * MasterflexDevice) :=
  ret (true, mkMflex (mflex_id d) true (pumpId d) (initialized d)).

Definition initializePump (d : MasterflexDevice) : M (bool * MasterflexDevice) :=
  Serial_print "Initializing Masterflex pump " ;;
  Serial_print (mflex_id d) ;;
  Serial_println "..." ;;
  setupMasterflexRS485 50 ;;
  drainRS485 ;;
  RS485_noReceive ;;
  RS485_beginTransmission ;;
  RS485_write [x05] ;;
  RS485_flush ;;
  delayMicroseconds 2000 ;;
  RS485_endTransmission ;;
  RS485_receive ;;
  '(respType, response) <- readMasterflexResponse 96 1200 ;;
  Serial_print "Init response type: " ;;
  Serial_print (print_int respType) ;;
  if ResponseType_eqb respType RESP_LINE then
    Serial_print ", content: " ;;
    Serial_println response ;;
    if strstr response "P?" then
      Serial_print "Pump requesting ID assignment for ID " ;;
      Serial_println (pumpId d) ;;
      let assignFrame := snprintf 16 (String STX ("P" ++ pumpId d ++ String CR "")) in
      drainRS485 ;;
      RS485_noReceive ;;
      RS485_beginTransmission ;;
      RS485_write (bytes assignFrame) ;;
      RS485_flush ;;
      delayMicroseconds 2000 ;;
      RS485_endTransmission ;;
      RS485_receive ;;
      '(ackType, _) <- readMasterflexResponse 96 800 ;;
      Serial_print "ACK response type: " ;;
      Serial_println (print_int ackType) ;;
      if ResponseType_eqb ackType RESP_ACK then
        Serial_print "Pump " ;;
        Serial_print (mflex_id d) ;;
        Serial_println " ID assigned successfully" ;;
        ret (true, set_initialized d true)
      else
        Serial_print "Failed to assign pump ID (no ACK), got type: " ;;
        Serial_println (print_int ackType) ;;
        ret (false, d)
    else
      Serial_print "Expected P? response, got: " ;;
      Serial_println response ;;
      ret (false, d)
  else
    Serial_println "No response to ENQ" ;;
    ret (false, d).

Definition Masterflex_failed (command : string) (responseSize : N)
  : CommandResult * string :=
  (CMD_ERROR,
   snprintf responseSize ("Masterflex command failed or unknown: " ++ command)).

(** A command that sends [core] and succeeds on an ACK. *)
Definition ack_command (d : MasterflexDevice) (core : string)
    (command success : string) (responseSize : N)
  : M (CommandResult * string * MasterflexDevice) :=
  sendMasterflexFrame d core ;;
  '(respType, _) <- readMasterflexResponse 128 800 ;;
  if ResponseType_eqb respType RESP_ACK
  then ret (CMD_OK, snprintf responseSize success, d)
  else ret (Masterflex_failed command responseSize, d).

Definition Masterflex_processCommand (d : MasterflexDevice) (command : string)
    (param1 param2 : option string) (responseSize : N)
  : M (CommandResult * string * MasterflexDevice) :=
  if strcaseeq command "INIT" then
    '(ok, d') <- initializePump d ;;
    if ok
    then ret (CMD_OK,
              snprintf responseSize
                ("Masterflex " ++ mflex_id d ++ " initialized successfully"),
              d')
    else ret (CMD_ERROR,
              snprintf responseSize
                ("Failed to initialize Masterflex " ++ mflex_id d
                 ++ " - check serial output for details"),
              d')
  else if negb (initialized d) then
    ret (CMD_ERROR,
         snprintf responseSize ("Masterflex " ++ mflex_id d ++ " not initialized"),
         d)
  else
    setupMasterflexRS485 50 ;;
    match (if strcaseeq command "SPEED" then param1 else None) with
    | Some p1 =>
        let direction : ascii :=
          match param2 with
          | Some (String c _) => if Ascii.eqb c "-" then "-"%char else "+"%char
          | _ => "+"%char
          end in
        let speedCmd :=
          if ge_1000 ff p1
          then snprintf 32 ("S" ++ String direction (fmt_04d ff p1))
          else snprintf 32 ("S" ++ String direction (fmt_06_1f ff p1)) in
        ack_command d speedCmd command
          ("Masterflex " ++ mflex_id d ++ " speed set to "
           ++ String direction (fmt_1f ff p1) ++ " RPM")
          responseSize
    | None =>
        if strcaseeq command "START" || strcaseeq command "GO" then
          ack_command d "G" command
            ("Masterflex " ++ mflex_id d ++ " started") responseSize
        else if strcaseeq command "STOP" || strcaseeq command "HALT" then
          ack_command d "H" command
            ("Masterflex " ++ mflex_id d ++ " stopped") responseSize
        else
          match (if strcaseeq command "REV" then param1 else None) with
          | Some p1 =>
              let revCmd := snprintf 32 ("V" ++ fmt_08_2f ff p1) in
              ack_command d revCmd command
                ("Masterflex " ++ mflex_id d ++ " revolutions set to "
                 ++ fmt_2f ff p1)
                responseSize
          | None =>
              if strcaseeq command "STATUS" then
                sendMasterflexFrame d "I" ;;
                '(respType, mfResponse) <- readMasterflexResponse 128 800 ;;
                if ResponseType_eqb respType RESP_LINE
                then ret (CMD_DATA,
                          snprintf responseSize
                            ("Masterflex " ++ mflex_id d ++ " status: " ++ mfResponse),
                          d)
                else ret (Masterflex_failed command responseSize, d)
              else if strcaseeq command "REMOTE" then
                ack_command d "R" command
                  ("Masterflex " ++ mflex_id d ++ " remote mode enabled")
                  responseSize
              else if strcaseeq command "LOCAL" then
                ack_command d "L" command
                  ("Masterflex " ++ mflex_id d ++ " local mode enabled")
                  responseSize
              else ret (Masterflex_failed command responseSize, d)
          end
    end.

Definition Masterflex_getStatus (d : MasterflexDevice) (statusSize : N)
  : M (bool * string) :=
  if negb (initialized d) then
    ret (true, snprintf statusSize (mflex_id d ++ ":NOT_INIT"))
  else
    setupMasterflexRS485 50 ;;
    sendMasterflexFrame d "I" ;;
    '(respType, _) <- readMasterflexResponse 128 800 ;;
    if ResponseType_eqb respType RESP_LINE
    then ret (true, snprintf statusSize (mflex_id d ++ ":ACTIVE"))
    else ret (true, snprintf statusSize (mflex_id d ++ ":UNKNOWN")).

(** Virtual dispatch. *)
Definition initialize (d : Device) : M (bool * Device) :=
  match d with
  | DevRelay r => '(ok, r') <- Relay.initialize r ;; ret (ok, DevRelay r')
  | DevVici v => '(ok, v') <- Vici.initialize v ;; ret (ok, DevVici v')
  | DevMflex m => '(ok, m') <- Masterflex_initialize m ;; ret (ok, DevMflex m')
  end.

Definition processCommand (d : Device) (command : string)
    (param1 param2 : option string) (responseSize : N)
  : M (CommandResult * string * Device) :=
  match d with
  | DevRelay r =>
      '(res, msg, r') <- Relay.processCommand r command param1 param2 responseSize ;;
      ret (res, msg, DevRelay r')
  | DevVici v =>
      '(res, msg) <- Vici.processCommand v command param1 param2 responseSize ;;
      ret (res, msg, DevVici v)
  | DevMflex m =>
      '(res, msg, m') <- Masterflex_processCommand m command param1 param2 responseSize ;;
      ret (res, msg, DevMflex m')
  end.

Definition getStatus (d : Device) (statusSize : N) : M (bool * string) :=
  match d with
  | DevRelay r => Relay.getStatus r statusSize
  | DevVici v => Vici.getStatus v statusSize
  | DevMflex m => Masterflex_getStatus m statusSize
  end.

(** Device manager. *)
Definition addDevice (dm : DeviceManager) (device : Device)
  : M (bool * DeviceManager) :=
  if Nat.leb MAX_DEVICES (deviceCount dm) then ret (false, dm)
  else
    '(ok, device') <- initialize device ;;
    ret (ok, mkManager (store (deviceCount dm) (Some device') (devices dm))
               (S (deviceCount dm))).

(** The body of the loop of [getAllStatus], folded over the visited
    slots. *)
Fixpoint getAllStatus_loop (l : list (option Device)) (bufferSize : N)
    (statusBuffer : string) : M string :=
  match l with
  | [] => ret statusBuffer
  | Some d :: l' =>
      if Device_enabled d then
        '(ok, deviceStatus) <- getStatus d 64 ;;
        if ok then
          let sb1 :=
            if 0 <? strlen statusBuffer
            then strncat statusBuffer ", "
                   (size_sub (size_sub bufferSize (strlen statusBuffer)) 1)
            else statusBuffer in
          let sb2 :=
            strncat sb1 deviceStatus
              (size_sub (size_sub bufferSize (strlen sb1)) 1) in
          getAllStatus_loop l' bufferSize sb2
        else getAllStatus_loop l' bufferSize statusBuffer
      else getAllStatus_loop l' bufferSize statusBuffer
  | None :: l' => getAllStatus_loop l' bufferSize statusBuffer
  end.

Definition getAllStatus (dm : DeviceManager) (bufferSize : N) : M string :=
  getAllStatus_loop (slots dm) bufferSize "".

(** [deviceId] and [command] are 16 bytes wide and [param1], [param2] 32;
    [strncpy] copies at most 15 and 31 characters.  A token of that length
    or more leaves the array without a terminator, and what the handler
    reads from it goes on with the bytes [stray] has for the array. *)
Definition parseCommand (input : string) : string * string * string * string :=
  let tokens := strtok input "" in
  (strncpy_into 15 (nth_token 0 tokens) (stray_deviceId stray),
   strncpy_into 15 (nth_token 1 tokens) (stray_command stray),
   strncpy_into 31 (nth_token 2 tokens) (stray_param1 stray),
   strncpy_into 31 (nth_token 3 tokens) (stray_param2 stray)).

Definition help_text : list string :=
  [ "OK: Available commands:";
    "  STATUS - Get all device statuses";
    "  DEVICE_ID:COMMAND[:PARAM1[:PARAM2]]";
    "  Examples:";
    "    REL_01:ON";
    "    VICI_01:GOTO:A";
    "    MFLEX_01:SPEED:100.0:+" ].

Fixpoint println_all (l : list string) : M unit :=
  match l with
  | [] => ret tt
  | s :: l' => Serial_println s ;; println_all l'
  end.

Definition processSerialCommand (commandStr : string) (dm : DeviceManager)
  : M DeviceManager :=
  let commandStr := trim commandStr in
  if equalsIgnoreCase commandStr "STATUS" then
    allStatus <- getAllStatus dm 512 ;;
    Serial_print "DATA: " ;;
    Serial_println allStatus ;;
    ret dm
  else if equalsIgnoreCase commandStr "HELP" then
    println_all help_text ;;
    ret dm
  else
    let '(deviceId, command, param1, param2) := parseCommand commandStr in
    if (strlen deviceId =? 0) || (strlen command =? 0) then
      Serial_println invalid_format ;;
      ret dm
    else
      match findDevice dm deviceId with
      | None =>
          Serial_print "ERROR: Device not found: " ;;
          Serial_println deviceId ;;
          ret dm
      | Some (i, device) =>
          '(result, response, device') <-
            processCommand device command (Some param1) (Some param2) 256 ;;
          Serial_print (prefix result) ;;
          Serial_println response ;;
          ret (mkManager (store i (Some device') (devices dm)) (deviceCount dm))
      end.

(** [snprintf (relayId, sizeof (relayId), "REL_%02d", i)] for the four
    relays of [setup ()]. *)
Definition relayId (i : N) : string :=
  snprintf 8 ("REL_0" ++ String (ascii_of_N (48 + i)) "").

Definition setup_relay (i : N) (dm : DeviceManager) : M DeviceManager :=
  '(ok, dm') <- addDevice dm (DevRelay (Relay.new (relayId i) i)) ;;
  (if ok then Serial_print "Initialized: " ;; Serial_println (relayId i)
   else ret tt) ;;
  ret dm'.

(** [setup ()], run on the manager as constructed. *)
Definition setup : M DeviceManager :=
  Serial_println (String LF "=== Integrated Arduino Opta Controller ===") ;;
  Serial_println "Universal Device Controller v1.0" ;;
  Serial_println "Supported: Relay, VICI Valve, Masterflex Pump" ;;
  Serial_println "==========================================" ;;
  dm <- setup_relay 1 new_DeviceManager ;;
  dm <- setup_relay 2 dm ;;
  dm <- setup_relay 3 dm ;;
  dm <- setup_relay 4 dm ;;
  '(ok, dm) <- addDevice dm (DevVici (Vici.new "VICI_01" "3")) ;;
  (if ok then Serial_println "Initialized: VICI_01" else ret tt) ;;
  '(ok, dm) <- addDevice dm (DevMflex (new_Masterflex "MFLEX_01" "01")) ;;
  (if ok then Serial_println "Initialized: MFLEX_01" else ret tt) ;;
  Serial_print "Total devices initialized: " ;;
  Serial_println (print_nat (deviceCount dm)) ;;
  Serial_println (String LF "Send HELP for command list") ;;
  Serial_println "Ready for commands..." ;;
  ret dm.

(** One character of the loop of [loop ()]. *)
Definition loop_char (c : ascii) (serialBuffer : string) (dm : DeviceManager)
  : M (string * DeviceManager) :=
  if is_eol c then
    if 0 <? strlen serialBuffer then
      dm' <- processSerialCommand serialBuffer dm ;;
      ret ("", dm')
    else ret (serialBuffer, dm)
  else ret (String_add serialBuffer c, dm).

End Sketch.
End Serial.

(* ===================================================================== *)
(** ** integrated_opta_controller_ethernet.ino (TCP transport)            *)
(* ===================================================================== *)

Module Ethernet.
Section Sketch.

Variable ff : FloatFormat.

(** What the memory holds behind the tokens that [parseCommand] copies
    (see [Stray]). *)
Variable stray : Stray.

(** The scan of [readMasterflexResponse]: line feeds are skipped, and a
    window that ends without a carriage return gives [RESP_NONE] whatever
    was stored. *)
Fixpoint readMasterflexResponse_scan (rx : list byte) (maxLen : N)
    (buffer : list byte) : ResponseType * list byte :=
  match rx with
  | [] => (RESP_NONE, buffer)
  | b :: rx' =>
      if Byte.eqb b x06 then (RESP_ACK, [])
      else if Byte.eqb b x15 then (RESP_NAK, [])
      else if Byte.eqb b x0d
      then (if 0 <? blen buffer then RESP_LINE else RESP_NONE, buffer)
      else if Byte.eqb b x0a then readMasterflexResponse_scan rx' maxLen buffer
      else if blen buffer + 1 <? maxLen
      then readMasterflexResponse_scan rx' maxLen (buffer ++ [b])%list
      else readMasterflexResponse_scan rx' maxLen buffer
  end.

Definition readMasterflexResponse (maxLen timeout : N)
  : M (ResponseType * string) :=
  rx <- rx_window ;;
  let '(r, buffer) := readMasterflexResponse_scan rx maxLen [] in
  ret (r, cstr buffer).

Definition Masterflex_initialize (d : MasterflexDevice)
  : M (bool * MasterflexDevice) :=
  ret (true, mkMflex (mflex_id d) true (pumpId d) false).

Definition Masterflex_failed (command : string) (responseSize : N)
  : CommandResult * string :=
  (CMD_ERROR,
   snprintf responseSize ("Masterflex command failed or unknown: " ++ command)).

(** A command that sends [core] and succeeds on an ACK. *)
Definition ack_command (d : MasterflexDevice) (core : string)
    (command success : string) (responseSize : N)
  : M (CommandResult * string * MasterflexDevice) :=
  sendMasterflexFrame d core ;;
  '(r, _) <- readMasterflexResponse 128 800 ;;
  if ResponseType_eqb r RESP_ACK
  then ret (CMD_OK, snprintf responseSize success, d)
  else ret (Masterflex_failed command responseSize, d).

Definition Masterflex_processCommand (d : MasterflexDevice) (command : string)
    (param1 param2 : option string) (responseSize : N)
  : M (CommandResult * string * MasterflexDevice) :=
  setupMasterflexRS485 30 ;;
  if strcaseeq command "INIT" then
    RS485_noReceive ;;
    RS485_beginTransmission ;;
    RS485_write [x05] ;;
    RS485_flush ;;
    delayMicroseconds 1200 ;;
    RS485_endTransmission ;;
    RS485_receive ;;
    '(r, mfResp) <- readMasterflexResponse 128 1500 ;;
    let init_failed :=
      (CMD_ERROR,
       snprintf responseSize ("Masterflex " ++ mflex_id d ++ " init failed"), d) in
    if ResponseType_eqb r RESP_LINE && has_prefix "P?" mfResp then
      let idFrame := snprintf 8 ("I" ++ pumpId d) in
      sendMasterflexFrame d idFrame ;;
      '(r, _) <- readMasterflexResponse 128 800 ;;
      if ResponseType_eqb r RESP_ACK
      then ret (CMD_OK,
                snprintf responseSize ("Masterflex " ++ mflex_id d ++ " initialized"),
                set_initialized d true)
      else ret init_failed
    else ret init_failed
  else
    match (if strcaseeq command "SPEED" then param1 else None) with
    | Some p1 =>
        let dir : ascii :=
          match param2 with
          | Some (String c _) => c
          | _ => "+"%char
          end in
        let speedCmd :=
          if ge_1000 ff p1
          then snprintf 32 ("S" ++ String dir (fmt_04d ff p1))
          else snprintf 32 ("S" ++ String dir (fmt_06_1f ff p1)) in
        ack_command d speedCmd command
          ("Masterflex " ++ mflex_id d ++ " speed set to "
           ++ String dir (fmt_1f ff p1) ++ " RPM")
          responseSize
    | None =>
        if strcaseeq command "START" || strcaseeq command "GO" then
          ack_command d "G" command
            ("Masterflex " ++ mflex_id d ++ " started") responseSize
        else if strcaseeq command "STOP" || strcaseeq command "HALT" then
          ack_command d "H" command
            ("Masterflex " ++ mflex_id d ++ " stopped") responseSize
        else
          match (if strcaseeq command "REV" then param1 else None) with
          | Some p1 =>
              let revCmd := snprintf 32 ("V" ++ fmt_08_2f ff p1) in
              ack_command d revCmd command
                ("Masterflex " ++ mflex_id d ++ " revolutions set to "
                 ++ fmt_2f ff p1)
                responseSize
          | None =>
              if strcaseeq command "STATUS" then
                sendMasterflexFrame d "I" ;;
                '(r, mfResp) <- readMasterflexResponse 128 800 ;;
                if ResponseType_eqb r RESP_LINE
                then ret (CMD_DATA,
                          snprintf responseSize
                            ("Masterflex " ++ mflex_id d ++ " status: " ++ mfResp),
                          d)
                else ret (Masterflex_failed command responseSize, d)
              else if strcaseeq command "REMOTE" then
                ack_command d "R" command
                  ("Masterflex " ++ mflex_id d ++ " remote mode enabled")
                  responseSize
              else if strcaseeq command "LOCAL" then
                ack_command d "L" command
                  ("Masterflex " ++ mflex_id d ++ " local mode enabled")
                  responseSize
              else ret (Masterflex_failed command responseSize, d)
          end
    end.

Definition Masterflex_getStatus (d : MasterflexDevice) (statusSize : N)
  : M (bool * string) :=
  if negb (initialized d) then
    ret (true, snprintf statusSize (mflex_id d ++ ":NOT_INIT"))
  else
    setupMasterflexRS485 30 ;;
    sendMasterflexFrame d "I" ;;
    '(r, _) <- readMasterflexResponse 64 800 ;;
    if ResponseType_eqb r RESP_LINE
    then ret (true, snprintf statusSize (mflex_id d ++ ":ACTIVE"))
    else ret (true, snprintf statusSize (mflex_id d ++ ":UNKNOWN")).

(** Virtual dispatch. *)
Definition initialize (d : Device) : M (bool * Device) :=
  match d with
  | DevRelay r => '(ok, r') <- Relay.initialize r ;; ret (ok, DevRelay r')
  | DevVici v => '(ok, v') <- Vici.initialize v ;; ret (ok, DevVici v')
  | DevMflex m => '(ok, m') <- Masterflex_initialize m ;; ret (ok, DevMflex m')
  end.

Definition processCommand (d : Device) (command : string)
    (param1 param2 : option string) (responseSize : N)
  : M (CommandResult * string * Device) :=
  match d with
  | DevRelay r =>
      '(res, msg, r') <- Relay.processCommand r command param1 param2 responseSize ;;
      ret (res, msg, DevRelay r')
  | DevVici v =>
      '(res, msg) <- Vici.processCommand v command param1 param2 responseSize ;;
      ret (res, msg, DevVici v)
  | DevMflex m =>
      '(res, msg, m') <- Masterflex_processCommand m command param1 param2 responseSize ;;
      ret (res, msg, DevMflex m')
  end.

Definition getStatus (d : Device) (statusSize : N) : M (bool * string) :=
  match d with
  | DevRelay r => Relay.getStatus r statusSize
  | DevVici v => Vici.getStatus v statusSize
  | DevMflex m => Masterflex_getStatus m statusSize
  end.

(** Device manager. *)
Definition addDevice (dm : DeviceManager) (d : Device) : M (bool * DeviceManager) :=
  if Nat.leb MAX_DEVICES (deviceCount dm) then ret (false, dm)
  else
    '(ok, d') <- initialize d ;;
    ret (ok, mkManager (store (deviceCount dm) (Some d') (devices dm))
               (S (deviceCount dm))).

(** The body of the loop of [allStatus] from slot [i] on. *)
Fixpoint allStatus_loop (l : list (option Device)) (i : nat) (max : N)
    (out : string) : M string :=
  match l with
  | [] => ret out
  | None :: l' => allStatus_loop l' (S i) max out
  | Some d :: l' =>
      let out1 := if Nat.ltb 0 i then strlcat out ", " max else out in
      '(_, buf) <- getStatus d 96 ;;
      allStatus_loop l' (S i) max (strlcat out1 buf max)
  end.

Definition allStatus (dm : DeviceManager) (max : N) : M string :=
  allStatus_loop (slots dm) 0%nat max "".

(** The text up to the first carriage return or line feed, which the
    sketch overwrites with NUL before it tokenizes. *)
Fixpoint cut_eol (s : string) : string :=
  match s with
  | "" => ""
  | String c s' => if is_eol c then "" else String c (cut_eol s')
  end.

Definition parseCommand (input : string) : string * string * string * string :=
  let tokens := strtok (cut_eol input) "" in
  (strncpy_into 15 (nth_token 0 tokens) (stray_deviceId stray),
   strncpy_into 15 (nth_token 1 tokens) (stray_command stray),
   strncpy_into 31 (nth_token 2 tokens) (stray_param1 stray),
   strncpy_into 31 (nth_token 3 tokens) (stray_param2 stray)).

Definition help_line : string :=
  "OK: Commands -> STATUS; DEVICE_ID:COMMAND[:PARAM1[:PARAM2]] e.g. REL_01:ON, VICI_01:GOTO:A, MFLEX_01:SPEED:100.0:+".

Definition handleCommandString (commandStr : string) (dm : DeviceManager)
  : M (string * DeviceManager) :=
  let cmd := trim commandStr in
  if equalsIgnoreCase cmd "STATUS" then
    all <- allStatus dm 512 ;;
    ret ("DATA: " ++ all, dm)
  else if equalsIgnoreCase cmd "HELP" then
    ret (help_line, dm)
  else
    let '(deviceId, command, p1, p2) := parseCommand cmd in
    if (strlen deviceId =? 0) || (strlen command =? 0) then
      ret (invalid_format, dm)
    else
      match findDevice dm deviceId with
      | None => ret ("ERROR: Device not found: " ++ deviceId, dm)
      | Some (i, dev) =>
          '(res, response, dev') <-
            processCommand dev command (Some p1) (Some p2) 256 ;;
          ret (prefix res ++ response,
               mkManager (store i (Some dev') (devices dm)) (deviceCount dm))
      end.

(** The device registrations of [setup ()]. *)
Definition relayId (i : N) : string :=
  snprintf 8 ("REL_0" ++ String (ascii_of_N (48 + i)) "").

Definition setup_devices : M DeviceManager :=
  '(_, dm) <- addDevice new_DeviceManager (DevRelay (Relay.new (relayId 1) 1)) ;;
  '(_, dm) <- addDevice dm (DevRelay (Relay.new (relayId 2) 2)) ;;
  '(_, dm) <- addDevice dm (DevRelay (Relay.new (relayId 3) 3)) ;;
  '(_, dm) <- addDevice dm (DevRelay (Relay.new (relayId 4) 4)) ;;
  '(_, dm) <- addDevice dm (DevVici (Vici.new "VICI_01" "3")) ;;
  '(_, dm) <- addDevice dm (DevMflex (new_Masterflex "MFLEX_01" "01")) ;;
  ret dm.

(** One character of the loop of [handleEthernetClient]. *)
Definition client_char (c : ascii) (cmd : string) (dm : DeviceManager)
  : M (string * DeviceManager) :=
  if is_eol c then
    if 0 <? strlen cmd then
      '(resp, dm') <- handleCommandString cmd dm ;;
      client_println resp ;;
      ret ("", dm')
    else ret (cmd, dm)
  else ret (String_add cmd c, dm).

(** One character of the serial side of [loop ()]. *)
Definition loop_char (c : ascii) (serialBuffer : string) (dm : DeviceManager)
  : M (string * DeviceManager) :=
  if is_eol c then
    if 0 <? strlen serialBuffer then
      '(resp, dm') <- handleCommandString serialBuffer dm ;;
      Serial_println resp ;;
      ret ("", dm')
    else ret (serialBuffer, dm)
  else ret (String_add serialBuffer c, dm).

End Sketch.
End Ethernet.


(* ===================================================================== *)
(** ** Sample hardware and devices                                        *)
(* ===================================================================== *)

(** A [FloatFormat] that echoes the parameter text. *)
Definition echo_format : FloatFormat :=
  mkFloatFormat (fun _ => false) (fun p => p) (fun p => p) (fun p => p)
    (fun p => p) (fun p => p).

(** The controller after reset, with the answers [rx] waiting on the bus. *)
Definition power_on (rx : list (list byte)) : World :=
  mkWorld BusClosed rx [] (fun _ => INPUT) (fun _ => false) "" "".

(** Memory that holds a NUL behind every token, and memory that does
    not. *)
Definition no_stray : Stray := mkStray "" "" "" "".
Definition some_stray : Stray := mkStray "#" "@" "!" "?".

Definition REL_01 : RelayDevice := Relay.new "REL_01" 1.
Definition VICI_01 : ViciDevice := Vici.new "VICI_01" "3".
Definition MFLEX_01 : MasterflexDevice := new_Masterflex "MFLEX_01" "01".

(** A manager whose sixteen slots are taken. *)
Definition full_manager : DeviceManager :=
  mkManager (repeat (Some (DevRelay (mkRelay "REL_01" true D0 LED_D0 false))) MAX_DEVICES)
    MAX_DEVICES.

(* ===================================================================== *)
(** ** Properties in the words of the specification                       *)
(* ===================================================================== *)

(** The valve's motion commands: the core command put on the bus and the
    confirmation text. *)
Definition vici_motion (d : ViciDevice) (command : string) (param1 : option string)
  : option (string * string) :=
  if strcaseeq command "GOTO" then
    match param1 with
    | Some p => Some (snprintf 16 ("GO" ++ p), "VICI " ++ vici_id d ++ " moved to " ++ p)
    | None => None
    end
  else if strcaseeq command "TOGGLE" then Some ("TO", "VICI " ++ vici_id d ++ " toggled")
  else if strcaseeq command "HOME" then Some ("HM", "VICI " ++ vici_id d ++ " homed")
  else if strcaseeq command "CW" then Some ("CW", "VICI " ++ vici_id d ++ " moved CW")
  else if strcaseeq command "CCW" then Some ("CC", "VICI " ++ vici_id d ++ " moved CCW")
  else None.

(** The valve's queries: the core command and the label of the answer. *)
Definition vici_query (command : string) : option (string * string) :=
  if strcaseeq command "POSITION" then Some ("CP", " position: ")
  else if strcaseeq command "STATUS" then Some ("STAT", " status: ")
  else None.



(** The bytes of the [k]-th coming response window. *)
Definition window (k : nat) (w : World) : list byte := nth k (rs485_rx w) [].

(** How the pump reader of either sketch classifies the bytes of a
    window. *)
Definition Serial_classify (maxLen : N) (rx : list byte) : ResponseType :=
  fst (Serial.readMasterflexResponse_scan rx maxLen []).

Definition Ethernet_classify (maxLen : N) (rx : list byte) : ResponseType :=
  fst (Ethernet.readMasterflexResponse_scan rx maxLen []).

(** The bytes that end the pump reader's scan. *)
Definition pump_control_byte (b : byte) : bool :=
  Byte.eqb b x06 || Byte.eqb b x15 || Byte.eqb b x0d.

Definition plain (b : byte) : bool := negb (pump_control_byte b).

Definition is_lf (b : byte) : bool := Byte.eqb b x0a.

Definition is_nil (l : list byte) : bool :=
  match l with [] => true | _ => false end.

(** The response classification as the specification words it: ACK exactly
    for a single 0x06, NAK exactly for a single 0x15, a data line exactly
    for a carriage-return-terminated line with payload, none exactly when
    nothing is received. *)
Definition classification_as_specified (classify : list byte -> ResponseType) : Prop :=
  forall rx,
    (classify rx = RESP_ACK <-> rx = [x06])
    /\ (classify rx = RESP_NAK <-> rx = [x15])
    /\ (classify rx = RESP_LINE <->
        exists payload, payload <> [] /\ forallb plain payload = true
                        /\ rx = (payload ++ [x0d])%list)
    /\ (classify rx = RESP_NONE <-> rx = []).

(** The condition under which the INIT handshake of each sketch goes
    through, on the answers to the ENQ byte and to the assignment frame. *)
Definition Serial_handshake (w : World) : bool :=
  let '(r, buffer) := Serial.readMasterflexResponse_scan (window 0 w) 96 [] in
  ResponseType_eqb r RESP_LINE && strstr (cstr buffer) "P?"
  && ResponseType_eqb (Serial_classify 96 (window 1 w)) RESP_ACK.

Definition Ethernet_handshake (w : World) : bool :=
  let '(r, buffer) := Ethernet.readMasterflexResponse_scan (window 0 w) 128 [] in
  ResponseType_eqb r RESP_LINE && has_prefix "P?" (cstr buffer)
  && ResponseType_eqb (Ethernet_classify 128 (window 1 w)) RESP_ACK.

(** The handshake as the specification words it, for a reader [scan] with
    a buffer of [maxLen] bytes: the answer to ENQ is a data line that
    begins with the marker, and the next answer is an ACK. *)
Definition handshake_as_specified
    (scan : list byte -> N -> list byte -> ResponseType * list byte)
    (maxLen : N) (w : World) : bool :=
  let '(r, buffer) := scan (window 0 w) maxLen [] in
  ResponseType_eqb r RESP_LINE && has_prefix "P?" (cstr buffer)
  && ResponseType_eqb (fst (scan (window 1 w) maxLen [])) RESP_ACK.

Definition init_as_specified
    (process : MasterflexDevice -> string -> option string -> option string -> N
               -> M (CommandResult * string * MasterflexDevice))
    (scan : list byte -> N -> list byte -> ResponseType * list byte)
    (maxLen : N) : Prop :=
  forall d w n,
    initialized d = false ->
    let '(res, _, d', _) := process d "INIT" (Some "") (Some "") n w in
    if handshake_as_specified scan maxLen w
    then res = CMD_OK /\ initialized d' = true
    else res = CMD_ERROR /\ initialized d' = false.

(** The hardware after [s] went out on [Serial]. *)
Definition printed (s : string) (w : World) : World := snd (Serial_print s w).

(** The lines of [l], each with its terminator. *)
Fixpoint lines (l : list string) : string :=
  match l with
  | [] => ""
  | s :: l' => s ++ CRLF ++ lines l'
  end.

Fixpoint count_lf (s : string) : nat :=
  match s with
  | "" => 0%nat
  | String c s' => ((if Ascii.eqb c LF then 1 else 0) + count_lf s')%nat
  end.

(** One response line: a prefix, a message without line feed, the line
    terminator. *)
Definition response_line (text : string) : Prop :=
  exists r msg, text = prefix r ++ msg ++ CRLF /\ count_lf msg = 0%nat.

(** The serial command server as the specification words it: whatever the
    line, what it prints is one response line. *)
Definition one_line_per_command (ff : FloatFormat) (stray : Stray) : Prop :=
  forall line dm w,
    exists text,
      serial_out (snd (Serial.processSerialCommand ff stray line dm w))
      = serial_out w ++ text
      /\ response_line text.

(** The one command that prints a trace on [Serial] besides its answer. *)
Definition pump_INIT (d : Device) (command : string) : bool :=
  match d with
  | DevMflex _ => strcaseeq command "INIT"
  | _ => false
  end.

(** An operation that prints nothing, neither on [Serial] nor on the TCP
    client. *)
Definition quiet {A : Type} (m : M A) : Prop :=
  forall w, serial_out (snd (m w)) = serial_out w /\ tcp_out (snd (m w)) = tcp_out w.

(** A manager with one relay registered. *)
Definition one_relay : DeviceManager :=
  mkManager
    (Some (DevRelay (mkRelay "REL_01" true D0 LED_D0 false)) :: repeat None 15)
    1.

(** The aggregate status in the words of the specification: the status
    texts of the enabled devices in registration order, joined by a comma
    and a blank, clipped to the buffer. *)
Definition slot_device (s : option Device) : list Device :=
  match s with
  | Some d => [d]
  | None => []
  end.

Definition registered (dm : DeviceManager) : list Device :=
  flat_map slot_device (slots dm).

Fixpoint join (sep : string) (l : list string) : string :=
  match l with
  | [] => ""
  | s :: l' =>
      match l' with
      | [] => s
      | _ => s ++ sep ++ join sep l'
      end
  end.

Fixpoint status_strings (getStatus : Device -> N -> M (bool * string)) (size : N)
    (ds : list Device) : M (list string) :=
  match ds with
  | [] => ret []
  | d :: ds' =>
      '(_, s) <- getStatus d size ;;
      l <- status_strings getStatus size ds' ;;
      ret (s :: l)
  end.

Definition aggregateStatus (getStatus : Device -> N -> M (bool * string)) (size : N)
    (dm : DeviceManager) (bufferSize : N) : M string :=
  l <- status_strings getStatus size (filter Device_enabled (registered dm)) ;;
  ret (take (bufferSize - 1) (join ", " l)).

(** What holds of every manager the sketches build: the visited slots are
    all taken, by enabled devices. *)
Definition slot_ok (s : option Device) : bool :=
  match s with
  | Some d => Device_enabled d
  | None => false
  end.

Definition manager_ok (dm : DeviceManager) : Prop :=
  List.length (devices dm) = MAX_DEVICES
  /\ (deviceCount dm <= MAX_DEVICES)%nat
  /\ forallb slot_ok (slots dm) = true.

(** Every result of the operation satisfies [P]. *)
Definition returns {A : Type} (P : A -> Prop) (m : M A) : Prop :=
  forall w, P (fst (m w)).

(** A result that leaves the [enabled] flag of the device as it is in
    [d]. *)
Definition keeps_enabled {R : Type} (d : Device) (x : R * Device) : Prop :=
  Device_enabled (snd x) = Device_enabled d.


(** The fields of a command line as the grammar
    [DEVICE_ID:COMMAND[:PARAM1[:PARAM2]]] has them: the texts between the
    colons, the empty ones among them; [acc] is the field being read. *)
Fixpoint colon_fields (s acc : string) : list string :=
  match s with
  | "" => [acc]
  | String c s' =>
      if Ascii.eqb c ":" then acc :: colon_fields s' ""
      else colon_fields s' (acc ++ String c "")
  end.

Definition is_empty (s : string) : bool :=
  match s with "" => true | _ => false end.

Fixpoint blank (s : string) : bool :=
  match s with
  | "" => true
  | String c s' => isspace c && blank s'
  end.

(** Field [k] of the line is blank (empty, or white space only) or
    missing. *)
Definition blank_or_missing (k : nat) (line : string) : bool :=
  blank (nth k (colon_fields line "") "").

(** The format error as the specification words it: a line, other than
    the two keywords, whose device-id field or command field is blank or
    missing is [rejected]: answered with the format error, with the
    manager and the hardware as they were. *)
Definition format_error_as_specified {R : Type}
    (handle : string -> DeviceManager -> World -> R)
    (rejected : DeviceManager -> World -> R) : Prop :=
  forall line dm w,
    equalsIgnoreCase (trim line) "STATUS" = false ->
    equalsIgnoreCase (trim line) "HELP" = false ->
    blank_or_missing 0 (trim line) = true \/ blank_or_missing 1 (trim line) = true ->
    handle line dm w = rejected dm w.

(** What the two handlers do when they turn a line down. *)
Definition Serial_rejected (dm : DeviceManager) (w : World) : DeviceManager * World :=
  (dm, snd (Serial_println invalid_format w)).

Definition Ethernet_rejected (dm : DeviceManager) (w : World)
  : string * DeviceManager * World :=
  (invalid_format, dm, w).


(* ===================================================================== *)
(** ** Further properties: what they speak about                          *)
(* ===================================================================== *)

(** The slot holds a device that answers to [deviceId]. *)
Definition answers_to (deviceId : string) (s : option Device) : bool :=
  match s with
  | Some d => strcaseeq (Device_id d) deviceId
  | None => false
  end.

Fixpoint no_colon (s : string) : bool :=
  match s with
  | "" => true
  | String c s' => negb (Ascii.eqb c ":") && no_colon s'
  end.

Fixpoint no_eol (s : string) : bool :=
  match s with
  | "" => true
  | String c s' => negb (is_eol c) && no_eol s'
  end.

Fixpoint all_space (s : string) : bool :=
  match s with
  | "" => true
  | String c s' => isspace c && all_space s'
  end.

(** A field of a command line: not empty, without a colon. *)
Definition is_field (f : string) : Prop := f <> "" /\ no_colon f = true.

(** The first four of a list of tokens, a missing one being empty: what
    [parseCommand] hands out when every copy is terminated. *)
Definition parsed (tokens : list string) : string * string * string * string :=
  (nth_token 0 tokens, nth_token 1 tokens, nth_token 2 tokens, nth_token 3 tokens).

(** The first four tokens are shorter than the counts of the copies, so
    that each array holds its token and a terminator. *)
Definition short_tokens (tokens : list string) : bool :=
  (strlen (nth_token 0 tokens) <? 15) && (strlen (nth_token 1 tokens) <? 15)
  && (strlen (nth_token 2 tokens) <? 31) && (strlen (nth_token 3 tokens) <? 31).

(** The operation leaves the part [f] of the hardware as it was. *)
Definition preserves {X A : Type} (f : World -> X) (m : M A) : Prop :=
  forall w, f (snd (m w)) = f w.

(** The output and the indicator of the relay show its recorded state. *)
Definition relay_mirrors (d : RelayDevice) (w : World) : Prop :=
  gpio_level w (pin d) = state d /\ gpio_level w (ledPin d) = state d.

(** The pump commands that are confirmed by an ACK, with the core command
    put on the bus. *)
Definition pump_ack_core (command : string) : option string :=
  if strcaseeq command "START" || strcaseeq command "GO" then Some "G"
  else if strcaseeq command "STOP" || strcaseeq command "HALT" then Some "H"
  else if strcaseeq command "REMOTE" then Some "R"
  else if strcaseeq command "LOCAL" then Some "L"
  else None.

(** The frame of a pump command as it appears on the bus. *)
Definition pump_frame (d : MasterflexDevice) (core : string) : BusConfig * list byte :=
  (Bus4800_7O1, bytes (String STX ("P" ++ pumpId d ++ core ++ String CR ""))).

Definition is_some {A : Type} (o : option A) : bool :=
  match o with Some _ => true | None => false end.

(** The commands the pump class has a branch for. *)
Definition pump_known (command : string) (param1 : option string) : bool :=
  strcaseeq command "INIT"
  || (strcaseeq command "SPEED" && is_some param1)
  || strcaseeq command "START" || strcaseeq command "GO"
  || strcaseeq command "STOP" || strcaseeq command "HALT"
  || (strcaseeq command "REV" && is_some param1)
  || strcaseeq command "STATUS" || strcaseeq command "REMOTE"
  || strcaseeq command "LOCAL".

(** The hardware with the bus switched to [c]. *)
Definition with_cfg (c : BusConfig) (w : World) : World :=
  mkWorld c (rs485_rx w) (rs485_tx w) (gpio_mode w) (gpio_level w)
    (serial_out w) (tcp_out w).

(** The hardware after one pump transaction: the bus is on the pump's
    parameters, [frame] went out, one response window was used up. *)
Definition after_pump_transaction (frame : BusConfig * list byte) (w : World) : World :=
  mkWorld Bus4800_7O1 (tl (rs485_rx w)) (rs485_tx w ++ [frame])%list
    (gpio_mode w) (gpio_level w) (serial_out w) (tcp_out w).

(** The pump record after a command: as it was, or marked initialized. *)
Definition pump_step (d d' : MasterflexDevice) : Prop :=
  d' = d \/ d' = set_initialized d true.

(** An entry of the transmit log that is a valve frame sent at 9600 8N1,
    or a pump frame (or the ENQ byte) sent at 4800 7O1. *)
Definition valve_entry (e : BusConfig * list byte) : Prop :=
  fst e = Bus9600_8N1 /\ hd_error (snd e) = Some x2f.

Definition pump_entry (e : BusConfig * list byte) : Prop :=
  fst e = Bus4800_7O1 /\ (hd_error (snd e) = Some x02 \/ snd e = [x05]).

Definition bus_entry (e : BusConfig * list byte) : Prop :=
  valve_entry e \/ pump_entry e.

(** Between [w] and [w'] the transmit log grew by entries that satisfy
    [P], and lost nothing. *)
Definition sent_since (P : BusConfig * list byte -> Prop) (w w' : World) : Prop :=
  exists new, rs485_tx w' = (rs485_tx w ++ new)%list /\ Forall P new.

(** Whatever the state of the bus, the operation transmits entries that
    satisfy [P] only. *)
Definition emits {A : Type} (P : BusConfig * list byte -> Prop) (m : M A) : Prop :=
  forall w, sent_since P w (snd (m w)).

(** The same for an operation that starts with the bus on [c], and leaves
    it there. *)
Definition emits_on {A : Type} (c : BusConfig) (P : BusConfig * list byte -> Prop)
    (m : M A) : Prop :=
  forall w, rs485_cfg w = c ->
            rs485_cfg (snd (m w)) = c /\ sent_since P w (snd (m w)).


(** What a device of each class may put on the bus. *)
Definition device_entry (d : Device) (e : BusConfig * list byte) : Prop :=
  match d with
  | DevRelay _ => False
  | DevVici _ => valve_entry e
  | DevMflex _ => pump_entry e
  end.


Fixpoint no_nul (s : string) : bool :=
  match s with
  | "" => true
  | String c s' => negb (Ascii.eqb c zero) && no_nul s'
  end.

Fixpoint only_eol (s : string) : bool :=
  match s with
  | "" => true
  | String c s' => is_eol c && only_eol s'
  end.

(** The [while (Serial.available ())] loop of [loop ()] in the serial
    sketch, with the characters [input] waiting on [Serial]; [stray] is
    what the handler finds in memory when it is called. *)
Fixpoint Serial_read_all (ff : FloatFormat) (stray : Stray) (input serialBuffer : string)
    (dm : DeviceManager) : M (string * DeviceManager) :=
  match input with
  | "" => ret (serialBuffer, dm)
  | String c rest =>
      '(sb, dm') <- Serial.loop_char ff stray c serialBuffer dm ;;
      Serial_read_all ff stray rest sb dm'
  end.

Definition Serial_loop (ff : FloatFormat) (stray : Stray) (input serialBuffer : string)
    (dm : DeviceManager) : M (string * DeviceManager) :=
  r <- Serial_read_all ff stray input serialBuffer dm ;;
  RS485_receive ;;
  ret r.

(** The loops of [handleEthernetClient], for a client that sends [input]
    and disconnects. *)
Fixpoint client_read_all (ff : FloatFormat) (stray : Stray) (input cmd : string)
    (dm : DeviceManager) : M (string * DeviceManager) :=
  match input with
  | "" => ret (cmd, dm)
  | String c rest =>
      '(cmd', dm') <- Ethernet.client_char ff stray c cmd dm ;;
      client_read_all ff stray rest cmd' dm'
  end.

Definition handleEthernetClient (ff : FloatFormat) (stray : Stray) (input : string)
    (dm : DeviceManager) : M DeviceManager :=
  '(_, dm') <- client_read_all ff stray input "" dm ;;
  ret dm'.


(** What the manager knows a device by: its class, its id and its
    [enabled] flag. *)
Definition identity (d : Device) : DeviceType * string * bool :=
  (Device_type d, Device_id d, Device_enabled d).

(** The registry as a lookup sees it: who sits in which slot, and how many
    slots are in use. *)
Definition registry (dm : DeviceManager)
  : list (option (DeviceType * string * bool)) * nat :=
  (map (option_map identity) (devices dm), deviceCount dm).


(** The line is one of the two keywords the handlers answer themselves. *)
Definition is_keyword (line : string) : bool :=
  equalsIgnoreCase (trim line) "STATUS" || equalsIgnoreCase (trim line) "HELP".

(** The device the first token of the line names is a pump. *)
Definition addresses_pump (dm : DeviceManager) (line : string) : bool :=
  match findDevice dm (nth_token 0 (strtok (trim line) "")) with
  | Some (_, DevMflex _) => true
  | _ => false
  end.


(** The text the pump reader of either sketch hands back for the bytes of
    a window. *)
Definition Serial_payload (maxLen : N) (rx : list byte) : string :=
  cstr (snd (Serial.readMasterflexResponse_scan rx maxLen [])).

Definition Ethernet_payload (maxLen : N) (rx : list byte) : string :=
  cstr (snd (Ethernet.readMasterflexResponse_scan rx maxLen [])).


(** The bytes of a window before its first carriage return. *)
Fixpoint before_cr (rx : list byte) : list byte :=
  match rx with
  | [] => []
  | b :: rx' => if Byte.eqb b x0d then [] else b :: before_cr rx'
  end.

Definition drop_lf (l : list byte) : list byte :=
  filter (fun b => negb (Byte.eqb b x0a)) l.

(** What a buffer of [max] bytes holds of a text: [max - 1] bytes, the
    last byte being kept for the terminator. *)
Definition clip (max : N) (l : list byte) : list byte :=
  firstn (N.to_nat (max - 1)) l.


(** The devices [setup ()] registers, in the order of their slots. *)
Definition boot_identities : list (DeviceType * string * bool) :=
  [ (DEVICE_RELAY, "REL_01", true); (DEVICE_RELAY, "REL_02", true);
    (DEVICE_RELAY, "REL_03", true); (DEVICE_RELAY, "REL_04", true);
    (DEVICE_VICI, "VICI_01", true); (DEVICE_MASTERFLEX, "MFLEX_01", true) ].

(** A device as it is before any command: a relay off, a pump not
    initialized. *)
Definition at_rest (d : Device) : bool :=
  match d with
  | DevRelay r => negb (state r)
  | DevVici _ => true
  | DevMflex m => negb (initialized m)
  end.


(** [d] is what one of the three constructors builds for the name. *)
Definition constructed (name : string) (d : Device) : Prop :=
  (exists relayNum, d = DevRelay (Relay.new name relayNum))
  \/ (exists valveId, d = DevVici (Vici.new name valveId))
  \/ (exists masterflexId, d = DevMflex (new_Masterflex name masterflexId)).

(* ===================================================================== *)
(** ** Strings                                                            *)
(* ===================================================================== *)

Lemma strlen_nil_iff (s : string) : strlen s = 0 <-> s = "".
Proof.
  destruct s as [|c s]; simpl; split; intro H; try reflexivity; try discriminate.
  exfalso. lia.
Qed.

Lemma strlen_app (a b : string) : strlen (a ++ b) = strlen a + strlen b.
Proof.
  induction a as [|c a IH]; simpl; [reflexivity|]. rewrite IH. lia.
Qed.

Lemma take_0 (s : string) : take 0 s = "".
Proof. destruct s; reflexivity. Qed.

Lemma take_all (n : N) (s : string) : strlen s <= n -> take n s = s.
Proof.
  revert n. induction s as [|c s IH]; intros n H; simpl in *; [reflexivity|].
  destruct (N.eqb_spec n 0) as [->|Hn]; [lia|].
  f_equal. apply IH. lia.
Qed.

Lemma strlen_take (n : N) (s : string) : strlen (take n s) = N.min n (strlen s).
Proof.
  revert n. induction s as [|c s IH]; intros n; simpl; [lia|].
  destruct (N.eqb_spec n 0) as [->|Hn]; simpl; [lia|].
  rewrite IH. lia.
Qed.

Lemma take_app (n : N) (a b : string) :
  take n (a ++ b) = take n a ++ take (n - strlen (take n a)) b.
Proof.
  revert n. induction a as [|c a IH]; intros n; simpl.
  - destruct b; simpl; rewrite ?N.sub_0_r; reflexivity.
  - destruct (N.eqb_spec n 0) as [->|Hn]; simpl.
    + now rewrite take_0.
    + rewrite IH. f_equal. f_equal. f_equal. lia.
Qed.

(** Lengths of texts built from literals and variables. *)
Ltac strlen_lit :=
  repeat match goal with
  | |- context [strlen (String ?c ?s)] =>
      let v := eval vm_compute in (strlen (String c s)) in
      change (strlen (String c s)) with v
  end.

Ltac strlen_lia := rewrite ?strlen_app; strlen_lit; lia.

Lemma snprintf_fits (size : N) (s : string) :
  strlen s < size -> snprintf size s = s.
Proof. intro H. apply take_all. lia. Qed.

Lemma strlen_snprintf (size : N) (s : string) :
  0 < size -> strlen (snprintf size s) < size.
Proof. intro H. unfold snprintf. rewrite strlen_take. lia. Qed.

Lemma has_prefix_app (p s : string) : has_prefix p (p ++ s) = true.
Proof.
  induction p as [|c p IH]; simpl; [reflexivity|].
  now rewrite Ascii.eqb_refl, IH.
Qed.

Lemma has_prefix_refl (p : string) : has_prefix p p = true.
Proof.
  induction p as [|c p IH]; simpl; [reflexivity|].
  now rewrite Ascii.eqb_refl, IH.
Qed.

Lemma strstr_prefix (s p : string) : has_prefix p s = true -> strstr s p = true.
Proof. intro H. destruct s; simpl; rewrite H; reflexivity. Qed.

Lemma strstr_app (a p b : string) : strstr (a ++ p ++ b) p = true.
Proof.
  induction a as [|c a IH]; simpl.
  - apply strstr_prefix, has_prefix_app.
  - rewrite IH. apply orb_true_r.
Qed.

Lemma strlen_copy_id (deviceId : string) : strlen (copy_id deviceId) <= 11.
Proof. unfold copy_id. rewrite strlen_take. lia. Qed.

(* ===================================================================== *)
(** ** Relay                                                              *)
(* ===================================================================== *)

Lemma Pin_eqb_refl (p : Pin) : Pin_eqb p p = true.
Proof. destruct p; reflexivity. Qed.

(** What the two [digitalWrite] calls of a relay command leave behind. *)
Lemma relay_drive (d : RelayDevice) (v : bool) (w : World) :
  let w' := snd (digitalWrite (ledPin d) v (snd (digitalWrite (pin d) v w))) in
  gpio_level w' (pin d) = v /\ gpio_level w' (ledPin d) = v
  /\ rs485_tx w' = rs485_tx w /\ rs485_rx w' = rs485_rx w
  /\ serial_out w' = serial_out w.
Proof.
  simpl. rewrite !Pin_eqb_refl.
  destruct (Pin_eqb (pin d) (ledPin d)); repeat split; reflexivity.
Qed.

Lemma relay_ON (d : RelayDevice) (command : string) (p1 p2 : option string)
    (n : N) (w : World) :
  strcaseeq command "ON" = true ->
  Relay.processCommand d command p1 p2 n w
  = (CMD_OK, snprintf n ("Relay " ++ relay_id d ++ " ON"), Relay.set_state d true,
     snd (digitalWrite (ledPin d) HIGH (snd (digitalWrite (pin d) HIGH w)))).
Proof. intro H. unfold Relay.processCommand. rewrite H. reflexivity. Qed.

Lemma strcaseeq_len (a b : string) : strcaseeq a b = true -> strlen a = strlen b.
Proof.
  revert b. induction a as [|x a IH]; intros [|y b]; simpl; try discriminate.
  - reflexivity.
  - intro H. apply andb_true_iff in H as [_ H]. now rewrite (IH b H).
Qed.

Lemma strcaseeq_other (a b c : string) :
  strlen b <> strlen c -> strcaseeq a b = true -> strcaseeq a c = false.
Proof.
  intros Hn Hb. destruct (strcaseeq a c) eqn:Hc; [|reflexivity].
  apply strcaseeq_len in Hb, Hc. congruence.
Qed.

Lemma relay_OFF (d : RelayDevice) (command : string) (p1 p2 : option string)
    (n : N) (w : World) :
  strcaseeq command "OFF" = true ->
  Relay.processCommand d command p1 p2 n w
  = (CMD_OK, snprintf n ("Relay " ++ relay_id d ++ " OFF"), Relay.set_state d false,
     snd (digitalWrite (ledPin d) LOW (snd (digitalWrite (pin d) LOW w)))).
Proof.
  intro H. unfold Relay.processCommand.
  rewrite (strcaseeq_other command "OFF" "ON") by (try discriminate; assumption).
  rewrite H. reflexivity.
Qed.

Lemma relay_TOGGLE (d : RelayDevice) (command : string) (p1 p2 : option string)
    (n : N) (w : World) :
  strcaseeq command "TOGGLE" = true ->
  Relay.processCommand d command p1 p2 n w
  = (CMD_OK,
     snprintf n ("Relay " ++ relay_id d ++ " "
                 ++ (if negb (state d) then "ON" else "OFF")),
     Relay.set_state d (negb (state d)),
     snd (digitalWrite (ledPin d) (negb (state d))
            (snd (digitalWrite (pin d) (negb (state d)) w)))).
Proof.
  intro H. unfold Relay.processCommand.
  rewrite (strcaseeq_other command "TOGGLE" "ON") by (try discriminate; assumption).
  rewrite (strcaseeq_other command "TOGGLE" "OFF") by (try discriminate; assumption).
  rewrite H. reflexivity.
Qed.

Lemma relay_unknown (d : RelayDevice) (command : string) (p1 p2 : option string)
    (n : N) (w : World) :
  strcaseeq command "ON" = false ->
  strcaseeq command "OFF" = false ->
  strcaseeq command "TOGGLE" = false ->
  Relay.processCommand d command p1 p2 n w
  = (CMD_ERROR, snprintf n ("Unknown relay command: " ++ command), d, w).
Proof.
  intros H1 H2 H3. unfold Relay.processCommand. rewrite H1, H2, H3. reflexivity.
Qed.

(** C9.  In any state of a relay, ON switches it on, OFF switches it off
    and TOGGLE flips it (state and both outputs), each answering [CMD_OK];
    every other command answers [CMD_ERROR] with the command echoed and
    changes nothing.  So ON, OFF, TOGGLE from the off state leave the relay
    on, and its status text then contains [<id>:ON]. *)
Theorem C9_relay_commands (d : RelayDevice) (command : string)
    (p1 p2 : option string) (n : N) (w : World) :
  (let '(res, msg, d', w') := Relay.processCommand d command p1 p2 n w in
   (strcaseeq command "ON" = true ->
      res = CMD_OK /\ state d' = true
      /\ gpio_level w' (pin d) = true /\ gpio_level w' (ledPin d) = true)
   /\ (strcaseeq command "OFF" = true ->
      res = CMD_OK /\ state d' = false
      /\ gpio_level w' (pin d) = false /\ gpio_level w' (ledPin d) = false)
   /\ (strcaseeq command "TOGGLE" = true ->
      res = CMD_OK /\ state d' = negb (state d)
      /\ gpio_level w' (pin d) = negb (state d)
      /\ gpio_level w' (ledPin d) = negb (state d))
   /\ (strcaseeq command "ON" = false -> strcaseeq command "OFF" = false ->
       strcaseeq command "TOGGLE" = false ->
      res = CMD_ERROR /\ d' = d /\ w' = w
      /\ msg = snprintf n ("Unknown relay command: " ++ command)
      /\ (strlen command + 23 < n -> msg = "Unknown relay command: " ++ command)))
  /\ (state d = false ->
      let '(r1, _, d1, w1) := Relay.processCommand d "ON" p1 p2 n w in
      let '(r2, _, d2, w2) := Relay.processCommand d1 "OFF" p1 p2 n w1 in
      let '(r3, _, d3, w3) := Relay.processCommand d2 "TOGGLE" p1 p2 n w2 in
      r1 = CMD_OK /\ state d1 = true /\ r2 = CMD_OK /\ state d2 = false
      /\ r3 = CMD_OK /\ state d3 = true
      /\ forall statusSize,
           strlen (relay_id d) + 3 < statusSize ->
           let '(ok, status, _) := Relay.getStatus d3 statusSize w3 in
           ok = true /\ status = relay_id d ++ ":ON"
           /\ strstr status (relay_id d ++ ":ON") = true).
Proof.
  split.
  - destruct (Relay.processCommand d command p1 p2 n w) as [[[res msg] d'] w'] eqn:E.
    split; [|split; [|split]].
    + intro H. rewrite (relay_ON _ _ _ _ _ _ H) in E.
      injection E as <- <- <- <-.
      destruct (relay_drive d HIGH w) as (A & B & _). auto.
    + intro H. rewrite (relay_OFF _ _ _ _ _ _ H) in E.
      injection E as <- <- <- <-.
      destruct (relay_drive d LOW w) as (A & B & _). auto.
    + intro H. rewrite (relay_TOGGLE _ _ _ _ _ _ H) in E.
      injection E as <- <- <- <-.
      destruct (relay_drive d (negb (state d)) w) as (A & B & _). auto.
    + intros H1 H2 H3. rewrite (relay_unknown _ _ _ _ _ _ H1 H2 H3) in E.
      injection E as <- <- <- <-.
      repeat split.
      intro Hn. apply snprintf_fits. strlen_lia.
  - intro Hoff.
    rewrite (relay_ON d "ON") by reflexivity.
    rewrite (relay_OFF _ "OFF") by reflexivity.
    rewrite (relay_TOGGLE _ "TOGGLE") by reflexivity.
    simpl. repeat split.
    + rewrite snprintf_fits by strlen_lia. reflexivity.
    + rewrite snprintf_fits by strlen_lia.
      apply strstr_prefix, has_prefix_refl.
Qed.

Lemma C9_relay_commands_witness :
  state (snd (fst (Relay.processCommand REL_01 "TOGGLE" None None 256 (power_on []))))
  = negb (state REL_01).
Proof.
  pose proof (C9_relay_commands REL_01 "TOGGLE" None None 256 (power_on [])) as [H _].
  destruct (Relay.processCommand REL_01 "TOGGLE" None None 256 (power_on []))
    as [[[res msg] d'] w'].
  destruct H as (_ & _ & H & _).
  exact (proj1 (proj2 (H eq_refl))).
Defined.

(* ===================================================================== *)
(** ** Device manager                                                     *)
(* ===================================================================== *)

Lemma store_length (i : nat) (x : option Device) (l : list (option Device)) :
  List.length (store i x l) = List.length l.
Proof.
  revert i. induction l as [|y l IH]; intros [|i]; simpl; auto.
Qed.

Lemma store_nth (i : nat) (x : option Device) (l : list (option Device)) :
  (i < List.length l)%nat -> nth_error (store i x l) i = Some x.
Proof.
  revert i. induction l as [|y l IH]; intros [|i] H; simpl in *; try lia; auto.
  apply IH. lia.
Qed.

Lemma store_firstn_S (i : nat) (x : option Device) (l : list (option Device)) :
  (i < List.length l)%nat ->
  firstn (S i) (store i x l) = (firstn i l ++ [x])%list.
Proof.
  revert i. induction l as [|y l IH]; intros [|i] H; simpl in *; try lia.
  - reflexivity.
  - f_equal. apply IH. lia.
Qed.

Lemma initialize_variants (d : Device) (w : World) :
  fst (fst (Serial.initialize d w)) = true
  /\ fst (fst (Ethernet.initialize d w)) = true
  /\ Device_enabled (snd (fst (Serial.initialize d w))) = true
  /\ Device_enabled (snd (fst (Ethernet.initialize d w))) = true
  /\ Device_id (snd (fst (Serial.initialize d w))) = Device_id d
  /\ Device_id (snd (fst (Ethernet.initialize d w))) = Device_id d.
Proof. destruct d; repeat split; reflexivity. Qed.

Lemma Serial_addDevice_full (dm : DeviceManager) (d : Device) (w : World) :
  (MAX_DEVICES <= deviceCount dm)%nat -> Serial.addDevice dm d w = (false, dm, w).
Proof.
  intro H. unfold Serial.addDevice.
  destruct (Nat.leb_spec MAX_DEVICES (deviceCount dm)); [reflexivity | lia].
Qed.

Lemma Ethernet_addDevice_full (dm : DeviceManager) (d : Device) (w : World) :
  (MAX_DEVICES <= deviceCount dm)%nat -> Ethernet.addDevice dm d w = (false, dm, w).
Proof.
  intro H. unfold Ethernet.addDevice.
  destruct (Nat.leb_spec MAX_DEVICES (deviceCount dm)); [reflexivity | lia].
Qed.

Lemma Serial_addDevice_room (dm : DeviceManager) (d : Device) (w : World) :
  (deviceCount dm < MAX_DEVICES)%nat ->
  Serial.addDevice dm d w
  = (fst (fst (Serial.initialize d w)),
     mkManager (store (deviceCount dm) (Some (snd (fst (Serial.initialize d w))))
                  (devices dm))
       (S (deviceCount dm)),
     snd (Serial.initialize d w)).
Proof.
  intro H. unfold Serial.addDevice.
  destruct (Nat.leb_spec MAX_DEVICES (deviceCount dm)); [lia|].
  unfold bind. destruct (Serial.initialize d w) as [[ok d'] w']. reflexivity.
Qed.

Lemma Ethernet_addDevice_room (dm : DeviceManager) (d : Device) (w : World) :
  (deviceCount dm < MAX_DEVICES)%nat ->
  Ethernet.addDevice dm d w
  = (fst (fst (Ethernet.initialize d w)),
     mkManager (store (deviceCount dm) (Some (snd (fst (Ethernet.initialize d w))))
                  (devices dm))
       (S (deviceCount dm)),
     snd (Ethernet.initialize d w)).
Proof.
  intro H. unfold Ethernet.addDevice.
  destruct (Nat.leb_spec MAX_DEVICES (deviceCount dm)); [lia|].
  unfold bind. destruct (Ethernet.initialize d w) as [[ok d'] w']. reflexivity.
Qed.

(** What a successful registration does to the visited slots. *)
Lemma slots_after_add (dm : DeviceManager) (x : option Device) :
  List.length (devices dm) = MAX_DEVICES ->
  (deviceCount dm < MAX_DEVICES)%nat ->
  slots (mkManager (store (deviceCount dm) x (devices dm)) (S (deviceCount dm)))
  = (slots dm ++ [x])%list.
Proof.
  intros Hl Hc. unfold slots. simpl deviceCount. simpl devices.
  apply store_firstn_S. lia.
Qed.

(** C7.  With all 16 slots taken, registering another device answers
    [false] and leaves the manager (count, slots, the devices in them) and
    the hardware as they were; with room left, the device is stored behind
    the devices already registered, the count grows by one and the answer
    is the result of the device's [initialize ()]. *)
Theorem C7_addDevice (dm : DeviceManager) (d : Device) (w : World) :
  List.length (devices dm) = MAX_DEVICES ->
  ((MAX_DEVICES <= deviceCount dm)%nat ->
     Serial.addDevice dm d w = (false, dm, w)
     /\ Ethernet.addDevice dm d w = (false, dm, w))
  /\ ((deviceCount dm < MAX_DEVICES)%nat ->
      (let '(ok, d', w') := Serial.initialize d w in
       exists dm',
         Serial.addDevice dm d w = (ok, dm', w')
         /\ deviceCount dm' = S (deviceCount dm)
         /\ slots dm' = (slots dm ++ [Some d'])%list
         /\ List.length (devices dm') = MAX_DEVICES)
      /\ (let '(ok, d', w') := Ethernet.initialize d w in
          exists dm',
            Ethernet.addDevice dm d w = (ok, dm', w')
            /\ deviceCount dm' = S (deviceCount dm)
            /\ slots dm' = (slots dm ++ [Some d'])%list
            /\ List.length (devices dm') = MAX_DEVICES)).
Proof.
  intro Hl. split.
  - intro H. split; [apply Serial_addDevice_full | apply Ethernet_addDevice_full]; exact H.
  - intro H. split.
    + rewrite (Serial_addDevice_room dm d w H).
      destruct (Serial.initialize d w) as [[ok d'] w']. simpl.
      eexists. split; [reflexivity|]. simpl.
      repeat split; [now apply slots_after_add | now rewrite store_length].
    + rewrite (Ethernet_addDevice_room dm d w H).
      destruct (Ethernet.initialize d w) as [[ok d'] w']. simpl.
      eexists. split; [reflexivity|]. simpl.
      repeat split; [now apply slots_after_add | now rewrite store_length].
Qed.

Lemma C7_addDevice_witness :
  Serial.addDevice full_manager (DevVici VICI_01) (power_on [])
  = (false, full_manager, power_on [])
  /\ exists dm',
       Ethernet.addDevice new_DeviceManager (DevVici VICI_01) (power_on [])
       = (true, dm', power_on [])
       /\ deviceCount dm' = 1%nat.
Proof.
  split.
  - destruct (C7_addDevice full_manager (DevVici VICI_01) (power_on []) eq_refl)
      as [H _].
    apply H. apply Nat.le_refl.
  - destruct (C7_addDevice new_DeviceManager (DevVici VICI_01) (power_on []) eq_refl)
      as [_ H].
    assert (Hc : (deviceCount new_DeviceManager < MAX_DEVICES)%nat)
      by (unfold MAX_DEVICES; simpl; lia).
    destruct (H Hc) as [_ (dm' & E & Hn & _)].
    exists dm'. split; [exact E | exact Hn].
Defined.

(** C10.  [initialize ()] of a relay answers [true], makes both pins
    outputs and drives them low, records the state off and enables the
    device; so a relay that was just registered reports [<id>:OFF]. *)
Theorem C10_relay_initialize (d : RelayDevice) (w : World) :
  let '(ok, d', w') := Relay.initialize d w in
  ok = true
  /\ d' = mkRelay (relay_id d) true (pin d) (ledPin d) false
  /\ gpio_mode w' (pin d) = OUTPUT /\ gpio_mode w' (ledPin d) = OUTPUT
  /\ gpio_level w' (pin d) = false /\ gpio_level w' (ledPin d) = false
  /\ (forall (dm : DeviceManager),
        List.length (devices dm) = MAX_DEVICES ->
        (deviceCount dm < MAX_DEVICES)%nat ->
        forall statusSize,
          strlen (relay_id d) + 4 < statusSize ->
          (let '(ok, dm', w1) := Serial.addDevice dm (DevRelay d) w in
           ok = true
           /\ nth_error (devices dm') (deviceCount dm) = Some (Some (DevRelay d'))
           /\ Serial.getStatus (DevRelay d') statusSize w1
              = (true, relay_id d ++ ":OFF", w1))
          /\ (let '(ok, dm', w1) := Ethernet.addDevice dm (DevRelay d) w in
              ok = true
              /\ nth_error (devices dm') (deviceCount dm) = Some (Some (DevRelay d'))
              /\ Ethernet.getStatus (DevRelay d') statusSize w1
                 = (true, relay_id d ++ ":OFF", w1))).
Proof.
  destruct (Relay.initialize d w) as [[ok d'] w'] eqn:E.
  unfold Relay.initialize, bind in E. simpl in E.
  injection E as <- <- <-. simpl. rewrite !Pin_eqb_refl.
  repeat split; try reflexivity.
  1-2: destruct (Pin_eqb (pin d) (ledPin d)); reflexivity.
  - rewrite (Serial_addDevice_room dm (DevRelay d) w) by assumption. simpl.
    repeat split; [apply store_nth; lia|].
    unfold Relay.getStatus, ret. simpl.
    rewrite snprintf_fits by strlen_lia. reflexivity.
  - rewrite (Ethernet_addDevice_room dm (DevRelay d) w) by assumption. simpl.
    repeat split; [apply store_nth; lia|].
    unfold Relay.getStatus, ret. simpl.
    rewrite snprintf_fits by strlen_lia. reflexivity.
Qed.

Lemma C10_relay_initialize_witness :
  Serial.getStatus (DevRelay (mkRelay "REL_01" true D0 LED_D0 false)) 64
    (snd (Serial.addDevice new_DeviceManager (DevRelay REL_01) (power_on [])))
  = (true, "REL_01:OFF",
     snd (Serial.addDevice new_DeviceManager (DevRelay REL_01) (power_on []))).
Proof.
  pose proof (C10_relay_initialize REL_01 (power_on [])) as H.
  destruct (Relay.initialize REL_01 (power_on [])) as [[ok d'] w'] eqn:E.
  destruct H as (_ & Hd & _ & _ & _ & _ & H).
  assert (Hl : List.length (devices new_DeviceManager) = MAX_DEVICES) by reflexivity.
  assert (Hc : (deviceCount new_DeviceManager < MAX_DEVICES)%nat)
    by (unfold MAX_DEVICES; simpl; lia).
  assert (Hs : strlen (relay_id REL_01) + 4 < 64) by (vm_compute; reflexivity).
  destruct (H new_DeviceManager Hl Hc 64 Hs) as [H1 _].
  destruct (Serial.addDevice new_DeviceManager (DevRelay REL_01) (power_on []))
    as [[ok1 dm1] w1].
  destruct H1 as (_ & _ & H1). subst d'. exact H1.
Defined.


(* ===================================================================== *)
(** ** VICI valve                                                         *)
(* ===================================================================== *)

Lemma tolower_eqb (x y : ascii) :
  Ascii.eqb (tolower x) (tolower y) = true -> tolower x = tolower y.
Proof. apply Ascii.eqb_eq. Qed.

(** Two texts that compare equal without case compare alike with any
    third. *)
Lemma strcaseeq_same (a b : string) :
  strcaseeq a b = true -> forall c, strcaseeq a c = strcaseeq b c.
Proof.
  revert b. induction a as [|x a IH]; intros [|y b] H [|z c]; simpl in *;
    try discriminate; try reflexivity.
  apply andb_true_iff in H as [Hx Hab].
  apply tolower_eqb in Hx. rewrite Hx. f_equal. now apply IH.
Qed.

(** Decide every test of [command] against a literal, knowing the literal
    [command] matches. *)
Ltac literal_tests :=
  repeat match goal with
  | |- context [strcaseeq (String ?a ?s) (String ?b ?t)] =>
      let v := eval vm_compute in (strcaseeq (String a s) (String b t)) in
      change (strcaseeq (String a s) (String b t)) with v
  end.

Ltac command_is H := rewrite !(strcaseeq_same _ _ H); literal_tests; cbv iota.

Lemma blen_app (a b : list byte) : blen (a ++ b)%list = blen a + blen b.
Proof. unfold blen. rewrite List.length_app. lia. Qed.







Lemma strlen_snprintf_le (size : N) (s : string) : strlen (snprintf size s) <= size - 1.
Proof. unfold snprintf. rewrite strlen_take. lia. Qed.




(* ===================================================================== *)
(** ** Masterflex pump: the response reader                               *)
(* ===================================================================== *)

Lemma plain_inv (b : byte) :
  plain b = true ->
  Byte.eqb b x06 = false /\ Byte.eqb b x15 = false /\ Byte.eqb b x0d = false.
Proof.
  unfold plain, pump_control_byte. intro H. apply negb_true_iff in H.
  apply orb_false_iff in H as [H H3]. apply orb_false_iff in H as [H1 H2]. auto.
Qed.

(** Plain bytes are stored while there is room; once one was seen the
    buffer is not empty. *)
Lemma Serial_scan_plain (maxLen : N) (pre rest buffer : list byte) :
  2 <= maxLen ->
  forallb plain pre = true ->
  exists buffer',
    Serial.readMasterflexResponse_scan (pre ++ rest) maxLen buffer
    = Serial.readMasterflexResponse_scan rest maxLen buffer'
    /\ (0 <? blen buffer') = (0 <? blen buffer) || negb (is_nil pre).
Proof.
  intros Hm. revert buffer. induction pre as [|b pre IH]; intros buffer Hp; simpl.
  - exists buffer. now rewrite orb_false_r.
  - simpl in Hp. apply andb_true_iff in Hp as [Hb Hp].
    destruct (plain_inv b Hb) as (-> & -> & ->).
    destruct (N.ltb_spec (blen buffer + 1) maxLen) as [Hlt|Hge].
    + destruct (IH (buffer ++ [b])%list Hp) as (buffer' & E & Hn).
      exists buffer'. split; [exact E|]. rewrite Hn, blen_app.
      change (blen [b]) with 1. rewrite orb_true_r.
      destruct (N.ltb_spec 0 (blen buffer + 1)); [reflexivity | lia].
    + destruct (IH buffer Hp) as (buffer' & E & Hn).
      exists buffer'. split; [exact E|]. rewrite Hn, orb_true_r.
      destruct (N.ltb_spec 0 (blen buffer)); [reflexivity | lia].
Qed.

(** The same for the reader of the Ethernet sketch, which drops line
    feeds. *)
Lemma Ethernet_scan_plain (maxLen : N) (pre rest buffer : list byte) :
  2 <= maxLen ->
  forallb plain pre = true ->
  exists buffer',
    Ethernet.readMasterflexResponse_scan (pre ++ rest) maxLen buffer
    = Ethernet.readMasterflexResponse_scan rest maxLen buffer'
    /\ (0 <? blen buffer') = (0 <? blen buffer) || negb (forallb is_lf pre).
Proof.
  intros Hm. revert buffer. induction pre as [|b pre IH]; intros buffer Hp; simpl.
  - exists buffer. now rewrite orb_false_r.
  - simpl in Hp. apply andb_true_iff in Hp as [Hb Hp].
    destruct (plain_inv b Hb) as (-> & -> & ->).
    unfold is_lf at 1. destruct (Byte.eqb b x0a); simpl.
    + apply IH, Hp.
    + rewrite orb_true_r.
      destruct (N.ltb_spec (blen buffer + 1) maxLen) as [Hlt|Hge].
      * destruct (IH (buffer ++ [b])%list Hp) as (buffer' & E & Hn).
        exists buffer'. split; [exact E|]. rewrite Hn, blen_app.
        change (blen [b]) with 1.
        destruct (N.ltb_spec 0 (blen buffer + 1)); [reflexivity | lia].
      * destruct (IH buffer Hp) as (buffer' & E & Hn).
        exists buffer'. split; [exact E|]. rewrite Hn.
        destruct (N.ltb_spec 0 (blen buffer)); [reflexivity | lia].
Qed.

(** The Ethernet reader never reports a line for a window without a
    carriage return. *)
Lemma Ethernet_scan_unterminated (maxLen : N) (rx buffer : list byte) :
  forallb plain rx = true ->
  fst (Ethernet.readMasterflexResponse_scan rx maxLen buffer) = RESP_NONE.
Proof.
  revert buffer. induction rx as [|b rx IH]; intros buffer Hp; simpl; [reflexivity|].
  simpl in Hp. apply andb_true_iff in Hp as [Hb Hp].
  destruct (plain_inv b Hb) as (-> & -> & ->).
  destruct (Byte.eqb b x0a); [now apply IH|].
  destruct (blen buffer + 1 <? maxLen); now apply IH.
Qed.

(** C4, as the code has it.  The pump reader scans the bytes of the window
    up to the first 0x06, 0x15 or carriage return.  A 0x06 there gives ACK
    and a 0x15 gives NAK, whatever came before; a carriage return gives a
    data line if payload was stored before it and none otherwise.  When the
    window ends without any of the three, the serial sketch reports a data
    line if payload was stored and none otherwise, and the Ethernet sketch
    reports none.  Payload is every other byte, except that the Ethernet
    sketch drops line feeds. *)
Theorem C4_classification (maxLen : N) (pre post : list byte) :
  2 <= maxLen ->
  forallb plain pre = true ->
  (Serial_classify maxLen (pre ++ x06 :: post) = RESP_ACK
   /\ Serial_classify maxLen (pre ++ x15 :: post) = RESP_NAK
   /\ Serial_classify maxLen (pre ++ x0d :: post)
      = (if is_nil pre then RESP_NONE else RESP_LINE)
   /\ Serial_classify maxLen pre = (if is_nil pre then RESP_NONE else RESP_LINE))
  /\ (Ethernet_classify maxLen (pre ++ x06 :: post) = RESP_ACK
      /\ Ethernet_classify maxLen (pre ++ x15 :: post) = RESP_NAK
      /\ Ethernet_classify maxLen (pre ++ x0d :: post)
         = (if forallb is_lf pre then RESP_NONE else RESP_LINE)
      /\ Ethernet_classify maxLen pre = RESP_NONE).
Proof.
  intros Hm Hp. unfold Serial_classify, Ethernet_classify. split.
  - repeat split.
    + destruct (Serial_scan_plain maxLen pre (x06 :: post) [] Hm Hp) as (b' & -> & _).
      reflexivity.
    + destruct (Serial_scan_plain maxLen pre (x15 :: post) [] Hm Hp) as (b' & -> & _).
      reflexivity.
    + destruct (Serial_scan_plain maxLen pre (x0d :: post) [] Hm Hp) as (b' & -> & Hn).
      simpl. rewrite Hn. simpl. destruct pre; reflexivity.
    + destruct (Serial_scan_plain maxLen pre [] [] Hm Hp) as (b' & E & Hn).
      rewrite app_nil_r in E. rewrite E. simpl. rewrite Hn. simpl.
      destruct pre; reflexivity.
  - repeat split.
    + destruct (Ethernet_scan_plain maxLen pre (x06 :: post) [] Hm Hp) as (b' & -> & _).
      reflexivity.
    + destruct (Ethernet_scan_plain maxLen pre (x15 :: post) [] Hm Hp) as (b' & -> & _).
      reflexivity.
    + destruct (Ethernet_scan_plain maxLen pre (x0d :: post) [] Hm Hp) as (b' & -> & Hn).
      simpl. rewrite Hn. simpl. destruct (forallb is_lf pre); reflexivity.
    + now apply Ethernet_scan_unterminated.
Qed.

Lemma C4_classification_witness :
  Serial_classify 128 [x41; x06] = RESP_ACK
  /\ Serial_classify 128 [x41] = RESP_LINE
  /\ Ethernet_classify 128 [x41] = RESP_NONE
  /\ Ethernet_classify 128 [x0a; x0d] = RESP_NONE.
Proof.
  assert (Hm : 2 <= 128) by (intro H; discriminate H).
  destruct (C4_classification 128 [x41] [] Hm eq_refl)
    as [(Ha & _ & _ & Hl) [_ [_ [_ Hn]]]].
  destruct (C4_classification 128 [x0a] [] Hm eq_refl) as [_ [_ [_ [He _]]]].
  repeat split; assumption.
Defined.

(** C4 as stated fails in both sketches: a lone carriage return is
    something received, and is classified as none. *)
Lemma C4_counterexample :
  ~ classification_as_specified (Serial_classify 128)
  /\ ~ classification_as_specified (Ethernet_classify 128).
Proof.
  split; intro H; destruct (H [x0d]) as (_ & _ & _ & [Hnone _]);
    discriminate (Hnone eq_refl).
Qed.

(* ===================================================================== *)
(** ** Masterflex pump: INIT and the other commands                       *)
(* ===================================================================== *)

#[local] Arguments strstr : simpl never.
#[local] Arguments has_prefix : simpl never.
#[local] Arguments snprintf : simpl never.

Lemma ResponseType_eqb_eq (a b : ResponseType) :
  ResponseType_eqb a b = true <-> a = b.
Proof. destruct a, b; simpl; split; intro H; try reflexivity; discriminate. Qed.

(** INIT in the serial sketch: result, message and device. *)
Lemma Serial_INIT (ff : FloatFormat) (d : MasterflexDevice) (command : string)
    (p1 p2 : option string) (n : N) (w : World) :
  strcaseeq command "INIT" = true ->
  fst (Serial.Masterflex_processCommand ff d command p1 p2 n w)
  = if Serial_handshake w
    then (CMD_OK,
          snprintf n ("Masterflex " ++ mflex_id d ++ " initialized successfully"),
          set_initialized d true)
    else (CMD_ERROR,
          snprintf n ("Failed to initialize Masterflex " ++ mflex_id d
                      ++ " - check serial output for details"),
          d).
Proof.
  intro H. unfold Serial.Masterflex_processCommand. rewrite H.
  unfold Serial_handshake, Serial_classify, window.
  unfold Serial.initializePump, Serial.readMasterflexResponse, bind, rx_window.
  destruct (rs485_rx w) as [|r0 rest] eqn:Erx; simpl.
  - rewrite Erx. simpl. reflexivity.
  - rewrite Erx. simpl.
    destruct (Serial.readMasterflexResponse_scan r0 96 []) as [r buffer].
    destruct r; simpl; try reflexivity.
    destruct (strstr (cstr buffer) "P?"); simpl; [|reflexivity].
    destruct rest as [|r1 rest]; simpl; [reflexivity|].
    destruct (Serial.readMasterflexResponse_scan r1 96 []) as [r' buffer'].
    destruct r'; reflexivity.
Qed.

(** INIT in the Ethernet sketch. *)
Lemma Ethernet_INIT (ff : FloatFormat) (d : MasterflexDevice) (command : string)
    (p1 p2 : option string) (n : N) (w : World) :
  strcaseeq command "INIT" = true ->
  fst (Ethernet.Masterflex_processCommand ff d command p1 p2 n w)
  = if Ethernet_handshake w
    then (CMD_OK, snprintf n ("Masterflex " ++ mflex_id d ++ " initialized"),
          set_initialized d true)
    else (CMD_ERROR, snprintf n ("Masterflex " ++ mflex_id d ++ " init failed"), d).
Proof.
  intro H. unfold Ethernet.Masterflex_processCommand.
  unfold Ethernet_handshake, Ethernet_classify, window.
  unfold bind at 1. simpl. rewrite H.
  unfold Ethernet.readMasterflexResponse, bind, rx_window.
  destruct (rs485_rx w) as [|r0 rest] eqn:Erx; simpl.
  - reflexivity.
  - destruct (Ethernet.readMasterflexResponse_scan r0 128 []) as [r buffer].
    destruct r; simpl; try reflexivity.
    destruct (has_prefix "P?" (cstr buffer)); simpl; [|reflexivity].
    destruct rest as [|r1 rest]; simpl; [reflexivity|].
    destruct (Ethernet.readMasterflexResponse_scan r1 128 []) as [r' buffer'].
    destruct r'; reflexivity.
Qed.

(** The Ethernet sketch runs the handshake as the specification words
    it. *)
Lemma Ethernet_init_as_specified (ff : FloatFormat) :
  init_as_specified (Ethernet.Masterflex_processCommand ff)
    Ethernet.readMasterflexResponse_scan 128.
Proof.
  intros d w n Hd.
  pose proof (Ethernet_INIT ff d "INIT" (Some "") (Some "") n w eq_refl) as E.
  destruct (Ethernet.Masterflex_processCommand ff d "INIT" (Some "") (Some "") n w)
    as [[[res msg] d'] w'].
  simpl in E. change (handshake_as_specified _ 128 w) with (Ethernet_handshake w).
  destruct (Ethernet_handshake w); injection E as -> _ ->; simpl; auto.
Qed.

(** C2, as the code has it.  INIT answers [CMD_OK] and sets [initialized]
    exactly when the answer to ENQ is classified as a data line that holds
    the marker [P?] (anywhere in the line in the serial sketch, at its
    start in the Ethernet sketch) and the answer to the assignment frame is
    classified as ACK.  In every other case INIT answers [CMD_ERROR] and
    the device, [initialized] included, is as before. *)
Theorem C2_init_handshake (ff : FloatFormat) (d : MasterflexDevice)
    (command : string) (p1 p2 : option string) (n : N) (w : World) :
  strcaseeq command "INIT" = true ->
  (let '(res, _, d', _) := Serial.Masterflex_processCommand ff d command p1 p2 n w in
   if Serial_handshake w
   then res = CMD_OK /\ d' = set_initialized d true /\ initialized d' = true
   else res = CMD_ERROR /\ d' = d)
  /\ (let '(res, _, d', _) := Ethernet.Masterflex_processCommand ff d command p1 p2 n w in
      if Ethernet_handshake w
      then res = CMD_OK /\ d' = set_initialized d true /\ initialized d' = true
      else res = CMD_ERROR /\ d' = d).
Proof.
  intro H. split.
  - pose proof (Serial_INIT ff d command p1 p2 n w H) as E.
    destruct (Serial.Masterflex_processCommand ff d command p1 p2 n w)
      as [[[res msg] d'] w'].
    simpl in E. destruct (Serial_handshake w); injection E as -> _ ->; auto.
  - pose proof (Ethernet_INIT ff d command p1 p2 n w H) as E.
    destruct (Ethernet.Masterflex_processCommand ff d command p1 p2 n w)
      as [[[res msg] d'] w'].
    simpl in E. destruct (Ethernet_handshake w); injection E as -> _ ->; auto.
Qed.

Lemma C2_init_handshake_witness :
  strcaseeq "init" "INIT" = true
  /\ Serial_handshake (power_on [[x50; x3f; x30; x0d]; [x06]]) = true
  /\ (let '(res, _, d', _) :=
         Serial.Masterflex_processCommand echo_format MFLEX_01 "init" None None 256
           (power_on [[x50; x3f; x30; x0d]; [x06]]) in
       if Serial_handshake (power_on [[x50; x3f; x30; x0d]; [x06]])
       then res = CMD_OK /\ d' = set_initialized MFLEX_01 true /\ initialized d' = true
       else res = CMD_ERROR /\ d' = MFLEX_01)
  /\ (let '(res, _, d', _) :=
         Ethernet.Masterflex_processCommand echo_format MFLEX_01 "init" None None 256
           (power_on [[x50; x3f; x30; x0d]; [x06]]) in
       if Ethernet_handshake (power_on [[x50; x3f; x30; x0d]; [x06]])
       then res = CMD_OK /\ d' = set_initialized MFLEX_01 true /\ initialized d' = true
       else res = CMD_ERROR /\ d' = MFLEX_01).
Proof.
  split; [reflexivity|]. split; [reflexivity|].
  exact (C2_init_handshake echo_format MFLEX_01 "init" None None 256
           (power_on [[x50; x3f; x30; x0d]; [x06]]) eq_refl).
Defined.

(** C2 as stated fails in the serial sketch: the line [xP?0] does not
    begin with the marker, and INIT goes through. *)
Lemma C2_counterexample :
  ~ init_as_specified (Serial.Masterflex_processCommand echo_format)
      Serial.readMasterflexResponse_scan 96.
Proof.
  intro H.
  specialize (H MFLEX_01 (power_on [[x78; x50; x3f; x30; x0d]; [x06]]) 256 eq_refl).
  vm_compute in H. destruct H as [H _]. discriminate H.
Qed.

(** The guard of the serial sketch: a pump that is not initialized rejects
    everything but INIT, and the hardware is not touched. *)
Lemma Serial_not_initialized (ff : FloatFormat) (d : MasterflexDevice)
    (command : string) (p1 p2 : option string) (n : N) (w : World) :
  initialized d = false ->
  strcaseeq command "INIT" = false ->
  Serial.Masterflex_processCommand ff d command p1 p2 n w
  = (CMD_ERROR, snprintf n ("Masterflex " ++ mflex_id d ++ " not initialized"), d, w).
Proof.
  intros Hd Hc. unfold Serial.Masterflex_processCommand. rewrite Hc, Hd. reflexivity.
Qed.

(** C1 fails in the Ethernet sketch.  The pump [MFLEX_01] was never
    initialized; START goes out on the bus as the frame [<STX>P01G<CR>],
    and with an ACK for an answer the command reports [CMD_OK].  The same
    line sent to the serial sketch is refused and leaves the bus alone. *)
Theorem C1_ethernet_start_without_init :
  initialized MFLEX_01 = false
  /\ Ethernet.Masterflex_processCommand echo_format MFLEX_01 "START"
       (Some "") (Some "") 256 (power_on [[x06]])
     = (CMD_OK, "Masterflex MFLEX_01 started", MFLEX_01,
        mkWorld Bus4800_7O1 [] [(Bus4800_7O1, [x02; x50; x30; x31; x47; x0d])]
          (fun _ => INPUT) (fun _ => false) "" "")
  /\ (let '(dm, w) := Ethernet.setup_devices (power_on [[x06]]) in
      let '(resp, _, w') :=
        Ethernet.handleCommandString echo_format no_stray "MFLEX_01:START" dm w in
      resp = "OK: Masterflex MFLEX_01 started"
      /\ rs485_tx w' = [(Bus4800_7O1, [x02; x50; x30; x31; x47; x0d])])
  /\ (let '(dm, w) := Serial.setup (power_on [[x06]]) in
      let '(_, w') := Serial.processSerialCommand echo_format no_stray "MFLEX_01:START" dm w in
      serial_out w' = serial_out w ++ "ERROR: Masterflex MFLEX_01 not initialized" ++ CRLF
      /\ rs485_tx w' = []).
Proof.
  split; [reflexivity|]. split; [vm_compute; reflexivity|].
  split; vm_compute; split; reflexivity.
Qed.

(* ===================================================================== *)
(** ** Parser and command handler                                         *)
(* ===================================================================== *)

(** [strtok] never hands out an empty token: a blank field of the line is
    skipped, and the fields after it move up. *)
Lemma strtok_not_blank (s acc : string) : Forall (fun t => t <> "") (strtok s acc).
Proof.
  revert acc. induction s as [|c s IH]; intro acc; simpl.
  - destruct acc; constructor; [discriminate | constructor].
  - destruct (Ascii.eqb c ":").
    + destruct acc; [apply IH|]. constructor; [discriminate | apply IH].
    + apply IH.
Qed.

Lemma strncpy_into_nil (n : N) (after : string) :
  0 < n -> strncpy_into n "" after = "".
Proof.
  intro H. unfold strncpy_into. change (strlen "") with 0.
  destruct (N.ltb_spec 0 n); [reflexivity | lia].
Qed.

Lemma strncpy_into_nil_iff (n : N) (token after : string) :
  0 < n -> (strncpy_into n token after = "" <-> token = "").
Proof.
  intro H. split; [|intros ->; now apply strncpy_into_nil].
  unfold strncpy_into. destruct (N.ltb_spec (strlen token) n); [auto|].
  intro E. apply strlen_nil_iff in E. rewrite strlen_app, strlen_take in E. lia.
Qed.

(** The tokens of [strtok] are the fields that are not empty. *)
Lemma strtok_fields (s : string) :
  forall acc, strtok s acc = filter (fun f => negb (is_empty f)) (colon_fields s acc).
Proof.
  induction s as [|c s IH]; intro acc; simpl.
  - destruct acc; reflexivity.
  - destruct (Ascii.eqb c ":").
    + simpl. rewrite IH. destruct acc; reflexivity.
    + apply IH.
Qed.

(** C6, as the code has it.  For a line that is neither STATUS nor HELP
    the handlers look at the tokens of [strtok]: the fields of the line
    that are not empty, so that an empty field is passed over (its
    neighbour takes its place) and a field of blanks is a token like any
    other.  When there is no first or no second token, both handlers
    answer with the invalid-format error and neither the manager, nor any
    device in it, nor the bus is touched.  When there are two tokens, the
    device id and the command the handler reads are not empty, whatever
    the memory held, and the line is not turned down for its format. *)
Theorem C6_format_error (ff : FloatFormat) (stray : Stray) (line : string)
    (dm : DeviceManager) (w : World) :
  equalsIgnoreCase (trim line) "STATUS" = false ->
  equalsIgnoreCase (trim line) "HELP" = false ->
  (nth_token 0 (strtok (trim line) "") = ""
   \/ nth_token 1 (strtok (trim line) "") = "" ->
   Serial.processSerialCommand ff stray line dm w = Serial_rejected dm w)
  /\ (nth_token 0 (strtok (Ethernet.cut_eol (trim line)) "") = ""
      \/ nth_token 1 (strtok (Ethernet.cut_eol (trim line)) "") = "" ->
      Ethernet.handleCommandString ff stray line dm w = Ethernet_rejected dm w)
  /\ has_prefix (prefix CMD_ERROR) invalid_format = true
  /\ strtok (trim line) ""
     = filter (fun f => negb (is_empty f)) (colon_fields (trim line) "")
  /\ (nth_token 0 (strtok (trim line) "") <> "" ->
      nth_token 1 (strtok (trim line) "") <> "" ->
      let '(deviceId, command, _, _) := Serial.parseCommand stray (trim line) in
      (strlen deviceId =? 0) || (strlen command =? 0) = false)
  /\ (nth_token 0 (strtok (Ethernet.cut_eol (trim line)) "") <> "" ->
      nth_token 1 (strtok (Ethernet.cut_eol (trim line)) "") <> "" ->
      let '(deviceId, command, _, _) := Ethernet.parseCommand stray (trim line) in
      (strlen deviceId =? 0) || (strlen command =? 0) = false).
Proof.
  intros Hs Hh.
  assert (Hno : forall t after, t <> "" -> (strlen (strncpy_into 15 t after) =? 0) = false).
  { intros t after Ht. apply N.eqb_neq. rewrite strlen_nil_iff.
    rewrite strncpy_into_nil_iff by lia. exact Ht. }
  split; [|split; [|split; [reflexivity|split; [apply strtok_fields|split]]]].
  - intro Ht. unfold Serial.processSerialCommand. rewrite Hs, Hh.
    unfold Serial.parseCommand.
    destruct Ht as [-> | ->]; rewrite strncpy_into_nil, ?orb_true_r by lia;
      reflexivity.
  - intro Ht. unfold Ethernet.handleCommandString. rewrite Hs, Hh.
    unfold Ethernet.parseCommand.
    destruct Ht as [-> | ->]; rewrite strncpy_into_nil, ?orb_true_r by lia;
      reflexivity.
  - intros H0 H1. unfold Serial.parseCommand. cbv zeta.
    now rewrite !Hno by assumption.
  - intros H0 H1. unfold Ethernet.parseCommand. cbv zeta.
    now rewrite !Hno by assumption.
Qed.

Lemma C6_format_error_witness :
  Serial.processSerialCommand echo_format some_stray "REL_01:"
    (fst (Serial.setup (power_on []))) (snd (Serial.setup (power_on [])))
  = Serial_rejected (fst (Serial.setup (power_on []))) (snd (Serial.setup (power_on [])))
  /\ Ethernet.handleCommandString echo_format some_stray ":ON"
       (fst (Ethernet.setup_devices (power_on [])))
       (snd (Ethernet.setup_devices (power_on [])))
     = Ethernet_rejected (fst (Ethernet.setup_devices (power_on [])))
         (snd (Ethernet.setup_devices (power_on []))).
Proof.
  split.
  - apply (C6_format_error echo_format some_stray "REL_01:");
      [reflexivity | reflexivity|].
    right. reflexivity.
  - apply (C6_format_error echo_format some_stray ":ON");
      [reflexivity | reflexivity|].
    right. reflexivity.
Defined.

(** C6 as stated fails in both sketches.  In [REL_01::ON] the command
    field is empty, and the serial sketch switches the relay on; in
    [:REL_01:ON] the device-id field is empty, and the Ethernet sketch
    does the same. *)
Lemma C6_counterexample :
  ~ format_error_as_specified (Serial.processSerialCommand echo_format no_stray)
      Serial_rejected
  /\ ~ format_error_as_specified (Ethernet.handleCommandString echo_format no_stray)
        Ethernet_rejected.
Proof.
  split; intro H.
  - specialize (H "REL_01::ON" one_relay (power_on []) eq_refl eq_refl
                  (or_intror eq_refl)).
    apply (f_equal (fun r => devices (fst r))) in H.
    vm_compute in H. discriminate H.
  - specialize (H ":REL_01:ON" one_relay (power_on []) eq_refl eq_refl
                  (or_introl eq_refl)).
    apply (f_equal (fun r => devices (snd (fst r)))) in H.
    vm_compute in H. discriminate H.
Qed.

(** *** Operations that print nothing *)

Lemma quiet_ret {A : Type} (a : A) : quiet (ret a).
Proof. intro w. split; reflexivity. Qed.

Lemma quiet_bind {A B : Type} (m : M A) (k : A -> M B) :
  quiet m -> (forall a, quiet (k a)) -> quiet (bind m k).
Proof.
  intros Hm Hk w. unfold bind. destruct (m w) as [a w1] eqn:E.
  destruct (Hm w) as [H1 H2]. rewrite E in H1, H2. simpl in H1, H2.
  destruct (Hk a w1) as [H3 H4]. split; congruence.
Qed.

Lemma quiet_pinMode (p : Pin) (m : PinMode) : quiet (pinMode p m).
Proof. intro w. split; reflexivity. Qed.

Lemma quiet_digitalWrite (p : Pin) (v : bool) : quiet (digitalWrite p v).
Proof. intro w. split; reflexivity. Qed.

Lemma quiet_set_cfg (c : BusConfig) : quiet (set_cfg c).
Proof. intro w. split; reflexivity. Qed.

Lemma quiet_RS485_write (frame : list byte) : quiet (RS485_write frame).
Proof. intro w. split; reflexivity. Qed.

Lemma quiet_rx_window : quiet rx_window.
Proof. intro w. unfold rx_window. destruct (rs485_rx w); split; reflexivity. Qed.

Create HintDb quiet.
#[local] Hint Resolve quiet_ret quiet_pinMode quiet_digitalWrite quiet_set_cfg
  quiet_RS485_write quiet_rx_window : quiet.

(** Walk through a body made of [bind], [ret], tests and the operations
    known to be quiet. *)
Ltac quiet_step :=
  match goal with
  | |- quiet (ret _) => apply quiet_ret
  | |- quiet (bind _ _) => apply quiet_bind; [|intro]
  | |- quiet (match ?x with _ => _ end) => destruct x
  | |- quiet _ => solve [auto with quiet]
  end.

Ltac quiet_body := repeat quiet_step.

Lemma quiet_setupViciRS485 : quiet Vici.setupViciRS485.
Proof.
  unfold Vici.setupViciRS485, RS485_end, RS485_begin, RS485_receive, delay.
  quiet_body.
Qed.

Lemma quiet_setupMasterflexRS485 (settle : N) : quiet (setupMasterflexRS485 settle).
Proof.
  unfold setupMasterflexRS485, RS485_end, RS485_begin, RS485_receive, delay.
  quiet_body.
Qed.

Lemma quiet_Vici_sendFrame (d : ViciDevice) (core : string) :
  quiet (Vici.sendFrame d core).
Proof.
  unfold Vici.sendFrame, RS485_noReceive, RS485_beginTransmission, RS485_flush,
    delayMicroseconds, RS485_endTransmission, RS485_receive.
  quiet_body.
Qed.

Lemma quiet_sendMasterflexFrame (d : MasterflexDevice) (command : string) :
  quiet (sendMasterflexFrame d command).
Proof.
  unfold sendMasterflexFrame, drainRS485, drain, RS485_noReceive,
    RS485_beginTransmission, RS485_flush, delayMicroseconds, RS485_endTransmission,
    RS485_receive.
  quiet_body.
Qed.

#[local] Hint Resolve quiet_setupViciRS485 quiet_setupMasterflexRS485
  quiet_Vici_sendFrame quiet_sendMasterflexFrame : quiet.

Lemma quiet_Vici_sendCommand (d : ViciDevice) (core : string) (resp : option N) :
  quiet (Vici.sendCommand d core resp).
Proof.
  unfold Vici.sendCommand, Vici.drainRx, drain, Vici.readLine. quiet_body.
Qed.

#[local] Hint Resolve quiet_Vici_sendCommand : quiet.

Lemma quiet_Relay_processCommand (d : RelayDevice) (command : string)
    (p1 p2 : option string) (n : N) :
  quiet (Relay.processCommand d command p1 p2 n).
Proof. unfold Relay.processCommand. quiet_body. Qed.

Lemma quiet_Vici_processCommand (d : ViciDevice) (command : string)
    (p1 p2 : option string) (n : N) :
  quiet (Vici.processCommand d command p1 p2 n).
Proof. unfold Vici.processCommand. quiet_body. Qed.

Lemma quiet_Vici_getStatus (d : ViciDevice) (n : N) : quiet (Vici.getStatus d n).
Proof. unfold Vici.getStatus. quiet_body. Qed.

Lemma quiet_Serial_read (maxLen timeout : N) :
  quiet (Serial.readMasterflexResponse maxLen timeout).
Proof. unfold Serial.readMasterflexResponse. quiet_body. Qed.

Lemma quiet_Ethernet_read (maxLen timeout : N) :
  quiet (Ethernet.readMasterflexResponse maxLen timeout).
Proof. unfold Ethernet.readMasterflexResponse. quiet_body. Qed.

#[local] Hint Resolve quiet_Relay_processCommand quiet_Vici_processCommand
  quiet_Vici_getStatus quiet_Serial_read quiet_Ethernet_read : quiet.

Lemma quiet_Serial_ack_command (d : MasterflexDevice) (core command success : string)
    (n : N) :
  quiet (Serial.ack_command d core command success n).
Proof. unfold Serial.ack_command. quiet_body. Qed.

Lemma quiet_Ethernet_ack_command (d : MasterflexDevice) (core command success : string)
    (n : N) :
  quiet (Ethernet.ack_command d core command success n).
Proof. unfold Ethernet.ack_command. quiet_body. Qed.

#[local] Hint Resolve quiet_Serial_ack_command quiet_Ethernet_ack_command : quiet.

(** In the serial sketch every pump command but INIT is quiet. *)
Lemma quiet_Serial_Masterflex (ff : FloatFormat) (d : MasterflexDevice)
    (command : string) (p1 p2 : option string) (n : N) :
  strcaseeq command "INIT" = false ->
  quiet (Serial.Masterflex_processCommand ff d command p1 p2 n).
Proof.
  intro H. unfold Serial.Masterflex_processCommand. rewrite H. quiet_body.
Qed.

(** In the Ethernet sketch every pump command is. *)
Lemma quiet_Ethernet_Masterflex (ff : FloatFormat) (d : MasterflexDevice)
    (command : string) (p1 p2 : option string) (n : N) :
  quiet (Ethernet.Masterflex_processCommand ff d command p1 p2 n).
Proof.
  unfold Ethernet.Masterflex_processCommand, RS485_noReceive,
    RS485_beginTransmission, RS485_flush, delayMicroseconds, RS485_endTransmission,
    RS485_receive.
  quiet_body.
Qed.

Lemma quiet_Serial_processCommand (ff : FloatFormat) (d : Device) (command : string)
    (p1 p2 : option string) (n : N) :
  pump_INIT d command = false ->
  quiet (Serial.processCommand ff d command p1 p2 n).
Proof.
  intro H. destruct d as [r|v|m]; simpl in *.
  - quiet_body.
  - quiet_body.
  - apply quiet_bind; [now apply quiet_Serial_Masterflex|]. intro. quiet_body.
Qed.

Lemma quiet_Ethernet_processCommand (ff : FloatFormat) (d : Device) (command : string)
    (p1 p2 : option string) (n : N) :
  quiet (Ethernet.processCommand ff d command p1 p2 n).
Proof.
  destruct d as [r|v|m]; simpl.
  - quiet_body.
  - quiet_body.
  - apply quiet_bind; [apply quiet_Ethernet_Masterflex|]. intro. quiet_body.
Qed.

Lemma quiet_Serial_getStatus (d : Device) (n : N) : quiet (Serial.getStatus d n).
Proof.
  destruct d as [r|v|m]; simpl.
  - unfold Relay.getStatus. quiet_body.
  - quiet_body.
  - unfold Serial.Masterflex_getStatus. quiet_body.
Qed.

Lemma quiet_Ethernet_getStatus (d : Device) (n : N) : quiet (Ethernet.getStatus d n).
Proof.
  destruct d as [r|v|m]; simpl.
  - unfold Relay.getStatus. quiet_body.
  - quiet_body.
  - unfold Ethernet.Masterflex_getStatus. quiet_body.
Qed.

#[local] Hint Resolve quiet_Serial_getStatus quiet_Ethernet_getStatus : quiet.

Lemma quiet_Serial_getAllStatus (dm : DeviceManager) (bufferSize : N) :
  quiet (Serial.getAllStatus dm bufferSize).
Proof.
  unfold Serial.getAllStatus. generalize "" as sb.
  induction (slots dm) as [|s l IH]; intro sb; simpl; [apply quiet_ret|].
  destruct s as [d|]; [|apply IH].
  destruct (Device_enabled d); [|apply IH].
  apply quiet_bind; [apply quiet_Serial_getStatus|].
  intros [ok st]. destruct ok; apply IH.
Qed.

Lemma quiet_Ethernet_allStatus (dm : DeviceManager) (max : N) :
  quiet (Ethernet.allStatus dm max).
Proof.
  unfold Ethernet.allStatus. generalize "" as out. generalize 0%nat as i.
  induction (slots dm) as [|s l IH]; intros i out; simpl; [apply quiet_ret|].
  destruct s as [d|]; [|apply IH].
  apply quiet_bind; [apply quiet_Ethernet_getStatus|].
  intros [ok st]. apply IH.
Qed.

(** *** What the handlers print *)

Lemma append_assoc (a b c : string) : (a ++ b) ++ c = a ++ b ++ c.
Proof. induction a as [|x a IH]; simpl; [reflexivity | now rewrite IH]. Qed.

Lemma append_nil_r (a : string) : a ++ "" = a.
Proof. induction a as [|x a IH]; simpl; [reflexivity | now rewrite IH]. Qed.

Lemma printed_nil (w : World) : printed "" w = w.
Proof. destruct w. unfold printed. simpl. now rewrite append_nil_r. Qed.

Lemma printed_printed (a b : string) (w : World) :
  printed b (printed a w) = printed (a ++ b) w.
Proof. unfold printed. simpl. now rewrite append_assoc. Qed.

Lemma print_println (a b : string) (w : World) :
  snd (Serial_println b (snd (Serial_print a w))) = printed (a ++ b ++ CRLF) w.
Proof. apply printed_printed. Qed.

Lemma bind_run {A B : Type} (m : M A) (k : A -> M B) (w : World) (a : A) (w1 : World) :
  m w = (a, w1) -> bind m k w = k a w1.
Proof. intro E. unfold bind. now rewrite E. Qed.

Lemma print_println_ret {A : Type} (a b : string) (x : A) (w : World) :
  (Serial_print a ;; Serial_println b ;; ret x) w = (x, printed (a ++ b ++ CRLF) w).
Proof.
  unfold bind, ret. simpl. unfold printed. simpl. now rewrite append_assoc.
Qed.

Lemma println_all_lines (l : list string) (w : World) :
  Serial.println_all l w = (tt, printed (lines l) w).
Proof.
  revert w. induction l as [|s l IH]; intro w; simpl.
  - now rewrite printed_nil.
  - unfold bind.
    change (Serial_println s w) with (tt, printed (s ++ CRLF) w).
    cbv beta iota. rewrite IH, printed_printed, append_assoc. reflexivity.
Qed.

Lemma count_lf_app (a b : string) : count_lf (a ++ b) = (count_lf a + count_lf b)%nat.
Proof.
  induction a as [|x a IH]; simpl; [reflexivity|]. rewrite IH. apply Nat.add_assoc.
Qed.

Lemma quiet_Ethernet_handleCommandString (ff : FloatFormat) (stray : Stray) (cmd : string)
    (dm : DeviceManager) :
  quiet (Ethernet.handleCommandString ff stray cmd dm).
Proof.
  unfold Ethernet.handleCommandString.
  destruct (equalsIgnoreCase (trim cmd) "STATUS").
  { apply quiet_bind; [apply quiet_Ethernet_allStatus | intro; apply quiet_ret]. }
  destruct (equalsIgnoreCase (trim cmd) "HELP"); [apply quiet_ret|].
  destruct (Ethernet.parseCommand stray (trim cmd)) as [[[id c] p1] p2].
  destruct ((strlen id =? 0) || (strlen c =? 0)); [apply quiet_ret|].
  destruct (findDevice dm id) as [[i dev]|]; [|apply quiet_ret].
  apply quiet_bind; [apply quiet_Ethernet_processCommand|].
  intros [[r msg] dev']. apply quiet_ret.
Qed.

(** C3, as the code has it.  STATUS is answered with one [DATA: ] line.  A
    line without device id or command is answered with the [ERROR: ]
    invalid-format line, an unknown device with an [ERROR: ] line naming
    it.  For a device that is found, the handler prints (serial sketch) or
    returns and the client loop prints (Ethernet sketch) the prefix that
    belongs to the result of [processCommand], the device's message and a
    line terminator; nothing else is printed, except for the trace that the
    serial sketch writes to the same stream during a pump INIT.  HELP is
    one [OK: ] line in the Ethernet sketch and the seven lines of
    [help_text] in the serial sketch.  The loops hand a line to the handler
    when a terminator arrives and the buffer is not empty. *)
Theorem C3_responses (ff : FloatFormat) (stray : Stray) (line : string) (dm : DeviceManager)
    (w : World) :
  (* serial sketch *)
  (equalsIgnoreCase (trim line) "STATUS" = true ->
   let '(all, w1) := Serial.getAllStatus dm 512 w in
   Serial.processSerialCommand ff stray line dm w
   = (dm, printed (prefix CMD_DATA ++ all ++ CRLF) w1)
   /\ serial_out w1 = serial_out w)
  /\ (equalsIgnoreCase (trim line) "STATUS" = false ->
      equalsIgnoreCase (trim line) "HELP" = true ->
      Serial.processSerialCommand ff stray line dm w
      = (dm, printed (lines Serial.help_text) w))
  /\ (equalsIgnoreCase (trim line) "STATUS" = false ->
      equalsIgnoreCase (trim line) "HELP" = false ->
      let '(id, c, p1, p2) := Serial.parseCommand stray (trim line) in
      (id = "" \/ c = "" ->
       Serial.processSerialCommand ff stray line dm w
       = (dm, printed (invalid_format ++ CRLF) w))
      /\ (id <> "" -> c <> "" ->
          match findDevice dm id with
          | None =>
              Serial.processSerialCommand ff stray line dm w
              = (dm, printed (prefix CMD_ERROR ++ "Device not found: " ++ id ++ CRLF) w)
          | Some (i, dev) =>
              let '(r, msg, dev', w1) :=
                Serial.processCommand ff dev c (Some p1) (Some p2) 256 w in
              Serial.processSerialCommand ff stray line dm w
              = (mkManager (store i (Some dev') (devices dm)) (deviceCount dm),
                 printed (prefix r ++ msg ++ CRLF) w1)
              /\ (pump_INIT dev c = false -> serial_out w1 = serial_out w)
          end))
  (* Ethernet sketch *)
  /\ (equalsIgnoreCase (trim line) "STATUS" = true ->
      let '(all, w1) := Ethernet.allStatus dm 512 w in
      Ethernet.handleCommandString ff stray line dm w = (prefix CMD_DATA ++ all, dm, w1))
  /\ (equalsIgnoreCase (trim line) "STATUS" = false ->
      equalsIgnoreCase (trim line) "HELP" = true ->
      Ethernet.handleCommandString ff stray line dm w = (Ethernet.help_line, dm, w)
      /\ has_prefix (prefix CMD_OK) Ethernet.help_line = true)
  /\ (equalsIgnoreCase (trim line) "STATUS" = false ->
      equalsIgnoreCase (trim line) "HELP" = false ->
      let '(id, c, p1, p2) := Ethernet.parseCommand stray (trim line) in
      (id = "" \/ c = "" ->
       Ethernet.handleCommandString ff stray line dm w = (invalid_format, dm, w))
      /\ (id <> "" -> c <> "" ->
          match findDevice dm id with
          | None =>
              Ethernet.handleCommandString ff stray line dm w
              = (prefix CMD_ERROR ++ "Device not found: " ++ id, dm, w)
          | Some (i, dev) =>
              let '(r, msg, dev', w1) :=
                Ethernet.processCommand ff dev c (Some p1) (Some p2) 256 w in
              Ethernet.handleCommandString ff stray line dm w
              = (prefix r ++ msg,
                 mkManager (store i (Some dev') (devices dm)) (deviceCount dm), w1)
          end))
  /\ (forall c cmd,
        is_eol c = true -> 0 < strlen cmd ->
        let '(resp, dm', w1) := Ethernet.handleCommandString ff stray cmd dm w in
        Ethernet.client_char ff stray c cmd dm w
        = ("", dm',
           mkWorld (rs485_cfg w1) (rs485_rx w1) (rs485_tx w1) (gpio_mode w1)
             (gpio_level w1) (serial_out w1) (tcp_out w ++ resp ++ CRLF))
        /\ Ethernet.loop_char ff stray c cmd dm w = ("", dm', printed (resp ++ CRLF) w1)
        /\ Serial.loop_char ff stray c cmd dm w
           = ("", fst (Serial.processSerialCommand ff stray cmd dm w),
              snd (Serial.processSerialCommand ff stray cmd dm w))).
Proof.
  repeat apply conj.
  - intro Hs. destruct (Serial.getAllStatus dm 512 w) as [all w1] eqn:E.
    split.
    + unfold Serial.processSerialCommand. rewrite Hs.
      rewrite (bind_run _ _ _ _ _ E). apply print_println_ret.
    + pose proof (quiet_Serial_getAllStatus dm 512 w) as [H _].
      now rewrite E in H.
  - intros Hs Hh. unfold Serial.processSerialCommand. rewrite Hs, Hh.
    unfold bind. rewrite println_all_lines. reflexivity.
  - intros Hs Hh. unfold Serial.processSerialCommand. rewrite Hs, Hh.
    destruct (Serial.parseCommand stray (trim line)) as [[[id c] p1] p2]. split.
    + intros [-> | ->]; rewrite ?orb_true_r; reflexivity.
    + intros Hid Hc.
      destruct (N.eqb_spec (strlen id) 0) as [E|_];
        [apply strlen_nil_iff in E; contradiction|].
      destruct (N.eqb_spec (strlen c) 0) as [E|_];
        [apply strlen_nil_iff in E; contradiction|].
      cbv [orb]. destruct (findDevice dm id) as [[i dev]|].
      * destruct (Serial.processCommand ff dev c (Some p1) (Some p2) 256 w)
          as [[[r msg] dev'] w1] eqn:E.
        split.
        -- rewrite (bind_run _ _ _ _ _ E). apply print_println_ret.
        -- intro Hq.
           pose proof (quiet_Serial_processCommand ff dev c (Some p1) (Some p2) 256
                         Hq w) as [H _].
           now rewrite E in H.
      * apply (print_println_ret "ERROR: Device not found: " id dm w).
  - intro Hs. destruct (Ethernet.allStatus dm 512 w) as [all w1] eqn:E.
    unfold Ethernet.handleCommandString. rewrite Hs. unfold bind. rewrite E.
    reflexivity.
  - intros Hs Hh. unfold Ethernet.handleCommandString. rewrite Hs, Hh.
    split; reflexivity.
  - intros Hs Hh. unfold Ethernet.handleCommandString. rewrite Hs, Hh.
    destruct (Ethernet.parseCommand stray (trim line)) as [[[id c] p1] p2]. split.
    + intros [-> | ->]; simpl; rewrite ?orb_true_r; reflexivity.
    + intros Hid Hc.
      destruct (N.eqb_spec (strlen id) 0) as [E|_];
        [apply strlen_nil_iff in E; contradiction|].
      destruct (N.eqb_spec (strlen c) 0) as [E|_];
        [apply strlen_nil_iff in E; contradiction|].
      simpl. destruct (findDevice dm id) as [[i dev]|]; [|reflexivity].
      destruct (Ethernet.processCommand ff dev c (Some p1) (Some p2) 256 w)
        as [[[r msg] dev'] w1] eqn:E.
      unfold bind. rewrite E. reflexivity.
  - intros c cmd Hc Hl.
    destruct (Ethernet.handleCommandString ff stray cmd dm w) as [[resp dm'] w1] eqn:E.
    unfold Ethernet.client_char. rewrite Hc.
    destruct (N.ltb_spec 0 (strlen cmd)) as [_|Hge]; [|lia].
    repeat split.
    + rewrite (bind_run _ _ _ _ _ E). unfold bind, client_println, ret. simpl.
      pose proof (quiet_Ethernet_handleCommandString ff stray cmd dm w) as [_ Hq].
      rewrite E in Hq. simpl in Hq. now rewrite Hq.
    + unfold Ethernet.loop_char. rewrite Hc.
      destruct (N.ltb_spec 0 (strlen cmd)) as [_|Hge']; [|lia].
      rewrite (bind_run _ _ _ _ _ E). reflexivity.
    + unfold Serial.loop_char. rewrite Hc.
      destruct (N.ltb_spec 0 (strlen cmd)) as [_|Hge']; [|lia].
      unfold bind, ret.
      destruct (Serial.processSerialCommand ff stray cmd dm w) as [dm1 w2].
      reflexivity.
Qed.

Lemma C3_responses_witness :
  serial_out (snd (Serial.processSerialCommand echo_format no_stray "REL_01:ON" one_relay
                     (power_on [])))
  = "OK: Relay REL_01 ON" ++ CRLF
  /\ fst (fst (Ethernet.handleCommandString echo_format no_stray "REL_01" one_relay
                 (power_on [])))
     = invalid_format.
Proof.
  split.
  - pose proof (C3_responses echo_format no_stray "REL_01:ON" one_relay (power_on []))
      as (_ & _ & H & _).
    specialize (H eq_refl eq_refl).
    remember (Serial.processSerialCommand echo_format no_stray "REL_01:ON" one_relay
                (power_on [])) as X eqn:HX.
    vm_compute in H. destruct H as [_ H].
    destruct (H ltac:(discriminate) ltac:(discriminate)) as [E _].
    rewrite E. reflexivity.
  - pose proof (C3_responses echo_format no_stray "REL_01" one_relay (power_on []))
      as (_ & _ & _ & _ & _ & H & _).
    specialize (H eq_refl eq_refl).
    remember (Ethernet.handleCommandString echo_format no_stray "REL_01" one_relay
                (power_on [])) as X eqn:HX.
    vm_compute in H. destruct H as [H _].
    rewrite (H (or_intror eq_refl)). reflexivity.
Defined.

(** C3 as stated fails in the serial sketch: the answer to HELP has seven
    lines. *)
Lemma C3_counterexample : ~ one_line_per_command echo_format no_stray.
Proof.
  intro H.
  destruct (H "HELP" new_DeviceManager (power_on [])) as (text & Ht & r & msg & -> & Hm).
  assert (E : count_lf (serial_out (snd (Serial.processSerialCommand echo_format no_stray "HELP"
                                           new_DeviceManager (power_on []))))
              = 7%nat) by (vm_compute; reflexivity).
  rewrite Ht in E. change (serial_out (power_on [])) with "" in E.
  rewrite !count_lf_app, Hm in E.
  destruct r; vm_compute in E; discriminate E.
Qed.

(* ===================================================================== *)
(** ** Aggregate status                                                   *)
(* ===================================================================== *)

Lemma size_sub_small (a b : N) : b <= a -> a < 2 ^ 32 -> size_sub a b = a - b.
Proof.
  intros Hb Ha. unfold size_sub.
  rewrite (N.mod_small b) by lia.
  replace (a + 2 ^ 32 - b) with (a - b + 1 * 2 ^ 32) by lia.
  rewrite N.Div0.mod_add. apply N.mod_small. lia.
Qed.

Lemma strlen_take_le (n : N) (s : string) : strlen (take n s) <= n.
Proof. rewrite strlen_take. lia. Qed.

(** Appending with [strncat] and the bound the serial sketch computes
    keeps the buffer equal to the clipped concatenation. *)
Lemma strncat_take (B : N) (a b : string) :
  0 < B -> B < 2 ^ 32 ->
  strncat (take (B - 1) a) b (size_sub (size_sub B (strlen (take (B - 1) a))) 1)
  = take (B - 1) (a ++ b).
Proof.
  intros H0 H32. pose proof (strlen_take_le (B - 1) a) as Hl.
  rewrite (size_sub_small B) by lia. rewrite size_sub_small by lia.
  unfold strncat. rewrite take_app. do 2 f_equal. lia.
Qed.

(** The same for [strlcat]. *)
Lemma strlcat_take (B : N) (a b : string) :
  0 < B -> strlcat (take (B - 1) a) b B = take (B - 1) (a ++ b).
Proof.
  intros H0. pose proof (strlen_take_le (B - 1) a) as Hl. unfold strlcat.
  destruct (N.leb_spec B (strlen (take (B - 1) a))) as [Hle|_]; [lia|].
  rewrite take_app. do 2 f_equal. lia.
Qed.

Lemma join_snoc (sep : string) (l : list string) (s : string) :
  join sep (l ++ [s])
  = match l with
    | [] => s
    | _ => join sep l ++ sep ++ s
    end.
Proof.
  induction l as [|x l IH]; [reflexivity|].
  destruct l as [|y l]; [reflexivity|].
  change (join sep ((x :: y :: l) ++ [s])) with (x ++ sep ++ join sep ((y :: l) ++ [s])).
  rewrite IH. change (join sep (x :: y :: l)) with (x ++ sep ++ join sep (y :: l)).
  now rewrite !append_assoc.
Qed.

Lemma join_not_nil (sep : string) (l : list string) :
  l <> [] -> Forall (fun s => s <> "") l -> join sep l <> "".
Proof.
  intros Hl Hne. destruct l as [|x l]; [contradiction|].
  inversion Hne as [|? ? Hx _]; subst.
  destruct x as [|c x]; [contradiction|].
  simpl. destruct l; discriminate.
Qed.

(** One turn of the loop of [getAllStatus] on the buffer. *)
Lemma getAllStatus_step (B : N) (done : list string) (s : string) :
  0 < B -> B < 2 ^ 32 ->
  Forall (fun s => s <> "") done ->
  let sb := take (B - 1) (join ", " done) in
  let sb1 :=
    if 0 <? strlen sb
    then strncat sb ", " (size_sub (size_sub B (strlen sb)) 1)
    else sb in
  strncat sb1 s (size_sub (size_sub B (strlen sb1)) 1)
  = take (B - 1) (join ", " (done ++ [s])).
Proof.
  intros H0 H32 Hne sb sb1. rewrite join_snoc.
  destruct done as [|x done'].
  - subst sb sb1. simpl join. change (take (B - 1) "") with "".
    simpl. change "" with (take (B - 1) "") at 1. rewrite strncat_take by assumption.
    reflexivity.
  - subst sb1.
    destruct (N.ltb_spec 0 (strlen sb)) as [Hpos|Hz].
    + subst sb. rewrite strncat_take; [|assumption|assumption].
      rewrite strncat_take; [|assumption|assumption]. now rewrite append_assoc.
    + assert (Hsb : sb = "") by (apply strlen_nil_iff; lia).
      assert (HB : B - 1 = 0).
      { subst sb. rewrite strlen_take in Hz.
        assert (join ", " (x :: done') <> "")
          by (apply join_not_nil; [discriminate | assumption]).
        assert (strlen (join ", " (x :: done')) <> 0)
          by (rewrite strlen_nil_iff; assumption).
        lia. }
      rewrite Hsb. unfold strncat. simpl strlen.
      rewrite (size_sub_small B 0) by lia. rewrite size_sub_small by lia.
      rewrite N.sub_0_r, HB, !take_0. reflexivity.
Qed.

Lemma snprintf_not_nil (size : N) (s : string) :
  2 <= size -> s <> "" -> snprintf size s <> "".
Proof.
  intros Hs Hn E. apply strlen_nil_iff in E. unfold snprintf in E.
  rewrite strlen_take in E.
  assert (strlen s <> 0) by (rewrite strlen_nil_iff; assumption). lia.
Qed.

Lemma status_text_not_nil (id rest : string) : id ++ String ":" rest <> "".
Proof. destruct id; discriminate. Qed.

(** [getStatus] of the serial sketch always answers [true], with a text
    that is not empty. *)
Lemma Serial_getStatus_ok (d : Device) (size : N) (w : World) :
  2 <= size ->
  fst (fst (Serial.getStatus d size w)) = true
  /\ snd (fst (Serial.getStatus d size w)) <> "".
Proof.
  intro Hs. destruct d as [r|v|m]; simpl.
  - split; [reflexivity|]. apply snprintf_not_nil; [assumption|].
    apply status_text_not_nil.
  - unfold Vici.getStatus, bind.
    destruct (Vici.sendCommand v "CP" (Some 32) w) as [[ok pos] w1].
    destruct ok; simpl; (split; [reflexivity|]);
      (apply snprintf_not_nil; [assumption | apply status_text_not_nil]).
  - unfold Serial.Masterflex_getStatus.
    destruct (negb (initialized m)); simpl.
    + split; [reflexivity|].
      apply snprintf_not_nil; [assumption | apply status_text_not_nil].
    + unfold bind.
      destruct (setupMasterflexRS485 50 w) as [u w1].
      destruct (sendMasterflexFrame m "I" w1) as [u' w2].
      destruct (Serial.readMasterflexResponse 128 800 w2) as [[r s] w3].
      destruct (ResponseType_eqb r RESP_LINE); simpl; (split; [reflexivity|]);
        (apply snprintf_not_nil; [assumption | apply status_text_not_nil]).
Qed.

(** The loop of [getAllStatus] computes the clipped join of the status
    texts of the enabled devices it visits. *)
Lemma Serial_getAllStatus_loop_spec (B : N) (l : list (option Device)) :
  0 < B -> B < 2 ^ 32 ->
  forall (done : list string) (w : World),
    Forall (fun s => s <> "") done ->
    Serial.getAllStatus_loop l B (take (B - 1) (join ", " done)) w
    = (let '(sts, w') :=
         status_strings Serial.getStatus 64
           (filter Device_enabled (flat_map slot_device l)) w in
       (take (B - 1) (join ", " (done ++ sts)), w')).
Proof.
  intros H0 H32. induction l as [|s l IH]; intros done w Hne.
  - simpl. unfold ret. now rewrite app_nil_r.
  - destruct s as [d|]; [|apply IH; assumption].
    cbn [Serial.getAllStatus_loop flat_map slot_device filter app].
    destruct (Device_enabled d) eqn:Hen; [|apply IH; assumption].
    cbn [status_strings].
    pose proof (Serial_getStatus_ok d 64 w ltac:(lia)) as Hok.
    destruct (Serial.getStatus d 64 w) as [[ok st] w1] eqn:E. simpl in Hok.
    destruct Hok as [-> Hst].
    rewrite !(bind_run _ _ _ _ _ E).
    pose proof (getAllStatus_step B done st H0 H32 Hne) as Hstep.
    cbv zeta in Hstep. cbv zeta. rewrite Hstep.
    rewrite IH by (apply Forall_app; split; [assumption | now constructor]).
    unfold bind, ret.
    destruct (status_strings Serial.getStatus 64
                (filter Device_enabled (flat_map slot_device l)) w1) as [sts w'].
    now rewrite <- app_assoc.
Qed.

(** One turn of the loop of [allStatus] on the buffer. *)
Lemma allStatus_step (B : N) (done : list string) (s : string) :
  0 < B ->
  let out := take (B - 1) (join ", " done) in
  let out1 := if Nat.ltb 0 (List.length done) then strlcat out ", " B else out in
  strlcat out1 s B = take (B - 1) (join ", " (done ++ [s])).
Proof.
  intros H0 out out1. rewrite join_snoc. subst out out1.
  destruct done as [|x done'].
  - simpl. change "" with (take (B - 1) "") at 1. now rewrite strlcat_take.
  - change (Nat.ltb 0 (List.length (x :: done'))) with true. cbv iota.
    rewrite !strlcat_take by assumption. now rewrite append_assoc.
Qed.

Lemma Ethernet_allStatus_loop_spec (B : N) (l : list (option Device)) :
  0 < B ->
  forallb slot_ok l = true ->
  forall (done : list string) (w : World),
    Ethernet.allStatus_loop l (List.length done) B (take (B - 1) (join ", " done)) w
    = (let '(sts, w') :=
         status_strings Ethernet.getStatus 96
           (filter Device_enabled (flat_map slot_device l)) w in
       (take (B - 1) (join ", " (done ++ sts)), w')).
Proof.
  intros H0. induction l as [|s l IH]; intros Hok done w.
  - simpl. unfold ret. now rewrite app_nil_r.
  - simpl in Hok. apply andb_true_iff in Hok as [Hs Hl].
    destruct s as [d|]; [|discriminate]. simpl in Hs.
    cbn [Ethernet.allStatus_loop flat_map slot_device filter app].
    rewrite Hs. cbn [status_strings].
    destruct (Ethernet.getStatus d 96 w) as [[ok st] w1] eqn:E.
    rewrite !(bind_run _ _ _ _ _ E).
    pose proof (allStatus_step B done st H0) as Hstep.
    cbv zeta in Hstep. cbv zeta. rewrite Hstep.
    replace (S (List.length done)) with (List.length (done ++ [st]))
      by (rewrite List.length_app; simpl; lia).
    rewrite (IH Hl). unfold bind, ret.
    destruct (status_strings Ethernet.getStatus 96
                (filter Device_enabled (flat_map slot_device l)) w1) as [sts w'].
    now rewrite <- app_assoc.
Qed.

(** C5.  The aggregate status is the join, with a comma and a blank, of
    the status texts of the enabled devices in registration order, clipped
    so that text and terminator fit a buffer of the given size.  The size
    is at least 1; for the Ethernet sketch, whose loop does not look at
    [enabled], the manager is one the sketch can build ([manager_ok], see
    [manager_ok_addDevice] and [manager_ok_handleCommandString]). *)
Theorem C5_aggregate_status (dm : DeviceManager) (bufferSize : N) (w : World) :
  0 < bufferSize -> bufferSize < 2 ^ 32 ->
  (Serial.getAllStatus dm bufferSize w
   = aggregateStatus Serial.getStatus 64 dm bufferSize w
   /\ strlen (fst (Serial.getAllStatus dm bufferSize w)) < bufferSize)
  /\ (manager_ok dm ->
      Ethernet.allStatus dm bufferSize w
      = aggregateStatus Ethernet.getStatus 96 dm bufferSize w
      /\ strlen (fst (Ethernet.allStatus dm bufferSize w)) < bufferSize).
Proof.
  intros H0 H32.
  assert (Hs : Serial.getAllStatus dm bufferSize w
               = aggregateStatus Serial.getStatus 64 dm bufferSize w).
  { unfold Serial.getAllStatus, aggregateStatus, registered.
    change "" with (take (bufferSize - 1) (join ", " [])) at 1.
    rewrite Serial_getAllStatus_loop_spec by (try assumption; constructor).
    unfold bind, ret.
    destruct (status_strings Serial.getStatus 64
                (filter Device_enabled (flat_map slot_device (slots dm))) w).
    reflexivity. }
  split.
  - split; [exact Hs|]. rewrite Hs. unfold aggregateStatus, bind, ret.
    destruct (status_strings Serial.getStatus 64
                (filter Device_enabled (registered dm)) w) as [sts w'].
    simpl. pose proof (strlen_take_le (bufferSize - 1) (join ", " sts)). lia.
  - intros (_ & _ & Hok).
    assert (He : Ethernet.allStatus dm bufferSize w
                 = aggregateStatus Ethernet.getStatus 96 dm bufferSize w).
    { unfold Ethernet.allStatus, aggregateStatus, registered.
      change "" with (take (bufferSize - 1) (join ", " [])) at 1.
      change 0%nat with (List.length (@nil string)).
      rewrite Ethernet_allStatus_loop_spec by assumption.
      unfold bind, ret.
      destruct (status_strings Ethernet.getStatus 96
                  (filter Device_enabled (flat_map slot_device (slots dm))) w).
      reflexivity. }
    split; [exact He|]. rewrite He. unfold aggregateStatus, bind, ret.
    destruct (status_strings Ethernet.getStatus 96
                (filter Device_enabled (registered dm)) w) as [sts w'].
    simpl. pose proof (strlen_take_le (bufferSize - 1) (join ", " sts)). lia.
Qed.

(** *** The managers the sketches build *)

Lemma returns_ret {A : Type} (P : A -> Prop) (a : A) : P a -> returns P (ret a).
Proof. intros H w. exact H. Qed.

Lemma returns_bind {A B : Type} (P : B -> Prop) (m : M A) (k : A -> M B) :
  (forall a, returns P (k a)) -> returns P (bind m k).
Proof. intros H w. unfold bind. destruct (m w) as [a w1]. apply H. Qed.

Ltac returns_body :=
  repeat match goal with
  | |- returns _ (ret _) => apply returns_ret
  | |- returns _ (bind _ _) => apply returns_bind; intro
  | |- returns _ (match ?x with _ => _ end) => destruct x
  end.

Lemma returns_bind_with {A B : Type} (Q : A -> Prop) (P : B -> Prop) (m : M A)
    (k : A -> M B) :
  returns Q m -> (forall a, Q a -> returns P (k a)) -> returns P (bind m k).
Proof.
  intros Hm H w. unfold bind. pose proof (Hm w) as Hq.
  destruct (m w) as [a w1]. apply H. exact Hq.
Qed.

Lemma Relay_keeps_enabled (d : RelayDevice) (command : string)
    (p1 p2 : option string) (n : N) :
  returns (fun x => relay_enabled (snd x) = relay_enabled d)
    (Relay.processCommand d command p1 p2 n).
Proof. unfold Relay.processCommand. returns_body; reflexivity. Qed.

Lemma Serial_initializePump_keeps_enabled (d : MasterflexDevice) :
  returns (fun x => mflex_enabled (snd x) = mflex_enabled d) (Serial.initializePump d).
Proof. unfold Serial.initializePump. returns_body; reflexivity. Qed.

Lemma Serial_ack_command_keeps (d : MasterflexDevice) (core command success : string)
    (n : N) :
  returns (fun x => snd x = d) (Serial.ack_command d core command success n).
Proof. unfold Serial.ack_command. returns_body; reflexivity. Qed.

Lemma Ethernet_ack_command_keeps (d : MasterflexDevice) (core command success : string)
    (n : N) :
  returns (fun x => snd x = d) (Ethernet.ack_command d core command success n).
Proof. unfold Ethernet.ack_command. returns_body; reflexivity. Qed.

Lemma returns_weaken {A : Type} (P Q : A -> Prop) (m : M A) :
  (forall a, P a -> Q a) -> returns P m -> returns Q m.
Proof. intros H Hm w. apply H, Hm. Qed.

Ltac keeps_step d :=
  match goal with
  | |- returns _ (ret _) => apply returns_ret; reflexivity
  | |- returns _ (Serial.ack_command _ _ _ _ _) =>
      apply (returns_weaken (fun x => snd x = d));
      [intros ? ->; reflexivity | apply Serial_ack_command_keeps]
  | |- returns _ (Ethernet.ack_command _ _ _ _ _) =>
      apply (returns_weaken (fun x => snd x = d));
      [intros ? ->; reflexivity | apply Ethernet_ack_command_keeps]
  | |- returns _ (bind _ _) => apply returns_bind; intro
  | |- returns _ (match ?x with _ => _ end) => destruct x
  end.

Lemma Serial_Masterflex_keeps_enabled (ff : FloatFormat) (d : MasterflexDevice)
    (command : string) (p1 p2 : option string) (n : N) :
  returns (fun x => mflex_enabled (snd x) = mflex_enabled d)
    (Serial.Masterflex_processCommand ff d command p1 p2 n).
Proof.
  unfold Serial.Masterflex_processCommand.
  destruct (strcaseeq command "INIT").
  - apply (returns_bind_with _ _ _ _ (Serial_initializePump_keeps_enabled d)).
    intros [ok d'] Hd. simpl in Hd. destruct ok; apply returns_ret; exact Hd.
  - repeat keeps_step d.
Qed.

Lemma Ethernet_Masterflex_keeps_enabled (ff : FloatFormat) (d : MasterflexDevice)
    (command : string) (p1 p2 : option string) (n : N) :
  returns (fun x => mflex_enabled (snd x) = mflex_enabled d)
    (Ethernet.Masterflex_processCommand ff d command p1 p2 n).
Proof. unfold Ethernet.Masterflex_processCommand. repeat keeps_step d. Qed.

Lemma Serial_processCommand_keeps_enabled (ff : FloatFormat) (d : Device)
    (command : string) (p1 p2 : option string) (n : N) :
  returns (keeps_enabled d) (Serial.processCommand ff d command p1 p2 n).
Proof.
  destruct d as [r|v|m]; unfold Serial.processCommand.
  - apply (returns_bind_with _ _ _ _ (Relay_keeps_enabled r command p1 p2 n)).
    intros [[res msg] r'] H. apply returns_ret. exact H.
  - returns_body; reflexivity.
  - apply (returns_bind_with _ _ _ _
             (Serial_Masterflex_keeps_enabled ff m command p1 p2 n)).
    intros [[res msg] m'] H. apply returns_ret. exact H.
Qed.

Lemma Ethernet_processCommand_keeps_enabled (ff : FloatFormat) (d : Device)
    (command : string) (p1 p2 : option string) (n : N) :
  returns (keeps_enabled d) (Ethernet.processCommand ff d command p1 p2 n).
Proof.
  destruct d as [r|v|m]; unfold Ethernet.processCommand.
  - apply (returns_bind_with _ _ _ _ (Relay_keeps_enabled r command p1 p2 n)).
    intros [[res msg] r'] H. apply returns_ret. exact H.
  - returns_body; reflexivity.
  - apply (returns_bind_with _ _ _ _
             (Ethernet_Masterflex_keeps_enabled ff m command p1 p2 n)).
    intros [[res msg] m'] H. apply returns_ret. exact H.
Qed.

Lemma forallb_store (n i : nat) (x : option Device) (l : list (option Device)) :
  forallb slot_ok (firstn n l) = true ->
  slot_ok x = true ->
  forallb slot_ok (firstn n (store i x l)) = true.
Proof.
  revert n i. induction l as [|y l IH]; intros n i Hl Hx.
  - destruct i; simpl; assumption.
  - destruct n as [|n]; [reflexivity|].
    simpl in Hl. apply andb_true_iff in Hl as [Hy Hl].
    destruct i as [|i]; simpl.
    + now rewrite Hx, Hl.
    + rewrite Hy. now apply IH.
Qed.

Lemma find_loop_In (l : list (option Device)) (i0 : nat) (deviceId : string)
    (i : nat) (d : Device) :
  find_loop l i0 deviceId = Some (i, d) -> In (Some d) l.
Proof.
  revert i0. induction l as [|s l IH]; intros i0 H; simpl in H; [discriminate|].
  destruct s as [d0|].
  - destruct (strcaseeq (Device_id d0) deviceId).
    + injection H as _ <-. now left.
    + right. eauto.
  - right. eauto.
Qed.

Lemma manager_ok_new : manager_ok new_DeviceManager.
Proof. repeat split. unfold MAX_DEVICES. simpl. lia. Qed.

Lemma manager_ok_add (dm : DeviceManager) (d' : Device) :
  manager_ok dm ->
  (deviceCount dm < MAX_DEVICES)%nat ->
  Device_enabled d' = true ->
  manager_ok (mkManager (store (deviceCount dm) (Some d') (devices dm))
                (S (deviceCount dm))).
Proof.
  intros (Hl & Hc & Hok) Hroom Hen. repeat split.
  - simpl. now rewrite store_length.
  - simpl. lia.
  - rewrite slots_after_add by assumption.
    rewrite forallb_app, Hok. simpl. now rewrite Hen.
Qed.

Lemma manager_ok_store (dm : DeviceManager) (i : nat) (d' : Device) :
  manager_ok dm ->
  Device_enabled d' = true ->
  manager_ok (mkManager (store i (Some d') (devices dm)) (deviceCount dm)).
Proof.
  intros (Hl & Hc & Hok) Hen. repeat split.
  - simpl. now rewrite store_length.
  - exact Hc.
  - unfold slots. simpl. apply forallb_store; assumption.
Qed.

Lemma found_enabled (dm : DeviceManager) (deviceId : string) (i : nat) (d : Device) :
  manager_ok dm -> findDevice dm deviceId = Some (i, d) -> Device_enabled d = true.
Proof.
  intros (_ & _ & Hok) H. apply find_loop_In in H.
  rewrite forallb_forall in Hok. exact (Hok _ H).
Qed.

(** Registration keeps the manager well formed. *)
Lemma manager_ok_addDevice (dm : DeviceManager) (d : Device) :
  manager_ok dm ->
  returns (fun x => manager_ok (snd x)) (Serial.addDevice dm d)
  /\ returns (fun x => manager_ok (snd x)) (Ethernet.addDevice dm d).
Proof.
  intro Hok. split; intro w.
  - destruct (Nat.leb_spec MAX_DEVICES (deviceCount dm)) as [Hfull|Hroom].
    + now rewrite Serial_addDevice_full.
    + rewrite Serial_addDevice_room by assumption. simpl.
      apply manager_ok_add; try assumption. apply initialize_variants.
  - destruct (Nat.leb_spec MAX_DEVICES (deviceCount dm)) as [Hfull|Hroom].
    + now rewrite Ethernet_addDevice_full.
    + rewrite Ethernet_addDevice_room by assumption. simpl.
      apply manager_ok_add; try assumption. apply initialize_variants.
Qed.

(** So does every command. *)
Lemma manager_ok_processSerialCommand (ff : FloatFormat) (stray : Stray) (line : string)
    (dm : DeviceManager) :
  manager_ok dm -> returns manager_ok (Serial.processSerialCommand ff stray line dm).
Proof.
  intro Hok. unfold Serial.processSerialCommand.
  destruct (equalsIgnoreCase (trim line) "STATUS");
    [returns_body; exact Hok|].
  destruct (equalsIgnoreCase (trim line) "HELP");
    [returns_body; exact Hok|].
  destruct (Serial.parseCommand stray (trim line)) as [[[id c] p1] p2].
  destruct ((strlen id =? 0) || (strlen c =? 0)); [returns_body; exact Hok|].
  destruct (findDevice dm id) as [[i dev]|] eqn:Hf; [|returns_body; exact Hok].
  apply (returns_bind_with _ _ _ _
           (Serial_processCommand_keeps_enabled ff dev c (Some p1) (Some p2) 256)).
  intros [[r msg] dev'] Hk. unfold keeps_enabled in Hk. simpl in Hk.
  returns_body. apply manager_ok_store; [exact Hok|].
  rewrite Hk. eapply found_enabled; eassumption.
Qed.

Lemma manager_ok_handleCommandString (ff : FloatFormat) (stray : Stray) (line : string)
    (dm : DeviceManager) :
  manager_ok dm ->
  returns (fun x => manager_ok (snd x)) (Ethernet.handleCommandString ff stray line dm).
Proof.
  intro Hok. unfold Ethernet.handleCommandString.
  destruct (equalsIgnoreCase (trim line) "STATUS");
    [returns_body; exact Hok|].
  destruct (equalsIgnoreCase (trim line) "HELP");
    [returns_body; exact Hok|].
  destruct (Ethernet.parseCommand stray (trim line)) as [[[id c] p1] p2].
  destruct ((strlen id =? 0) || (strlen c =? 0)); [returns_body; exact Hok|].
  destruct (findDevice dm id) as [[i dev]|] eqn:Hf; [|returns_body; exact Hok].
  apply (returns_bind_with _ _ _ _
           (Ethernet_processCommand_keeps_enabled ff dev c (Some p1) (Some p2) 256)).
  intros [[r msg] dev'] Hk. unfold keeps_enabled in Hk. simpl in Hk.
  returns_body. simpl. apply manager_ok_store; [exact Hok|].
  rewrite Hk. eapply found_enabled; eassumption.
Qed.

(** [setup ()] of the Ethernet sketch builds such a manager. *)
Lemma manager_ok_setup_devices : returns manager_ok Ethernet.setup_devices.
Proof.
  unfold Ethernet.setup_devices.
  eapply returns_bind_with;
    [apply (manager_ok_addDevice _ _ manager_ok_new) | intros [? dm1] H1].
  eapply returns_bind_with;
    [apply (manager_ok_addDevice _ _ H1) | intros [? dm2] H2].
  eapply returns_bind_with;
    [apply (manager_ok_addDevice _ _ H2) | intros [? dm3] H3].
  eapply returns_bind_with;
    [apply (manager_ok_addDevice _ _ H3) | intros [? dm4] H4].
  eapply returns_bind_with;
    [apply (manager_ok_addDevice _ _ H4) | intros [? dm5] H5].
  eapply returns_bind_with;
    [apply (manager_ok_addDevice _ _ H5) | intros [? dm6] H6].
  apply returns_ret. exact H6.
Qed.

Lemma C5_aggregate_status_witness :
  0 < 512 /\ 512 < 2 ^ 32
  /\ manager_ok (fst (Ethernet.setup_devices (power_on [])))
  /\ fst (Serial.getAllStatus (fst (Ethernet.setup_devices (power_on []))) 512
            (power_on [[x42; x0d]]))
     = "REL_01:OFF, REL_02:OFF, REL_03:OFF, REL_04:OFF, VICI_01:POS_B, MFLEX_01:NOT_INIT"
  /\ fst (Ethernet.allStatus (fst (Ethernet.setup_devices (power_on []))) 18
            (power_on [[x42; x0d]]))
     = "REL_01:OFF, REL_0".
Proof.
  split; [reflexivity|]. split; [reflexivity|].
  split; [apply manager_ok_setup_devices|].
  split.
  - rewrite (proj1 (proj1 (C5_aggregate_status
                             (fst (Ethernet.setup_devices (power_on []))) 512
                             (power_on [[x42; x0d]]) eq_refl eq_refl))).
    vm_compute. reflexivity.
  - rewrite (proj1 (proj2 (C5_aggregate_status
                             (fst (Ethernet.setup_devices (power_on []))) 18
                             (power_on [[x42; x0d]]) eq_refl eq_refl)
                      (manager_ok_setup_devices (power_on [])))).
    vm_compute. reflexivity.
Defined.

(* ===================================================================== *)
(** ** Looking devices up                                                 *)
(* ===================================================================== *)

Lemma tolower_sym (x y : ascii) :
  Ascii.eqb (tolower x) (tolower y) = Ascii.eqb (tolower y) (tolower x).
Proof. apply Ascii.eqb_sym. Qed.

Lemma strcaseeq_sym (a b : string) : strcaseeq a b = strcaseeq b a.
Proof.
  revert b. induction a as [|x a IH]; intros [|y b]; simpl; try reflexivity.
  now rewrite tolower_sym, IH.
Qed.

Lemma strcaseeq_refl (a : string) : strcaseeq a a = true.
Proof.
  induction a as [|x a IH]; simpl; [reflexivity|].
  now rewrite Ascii.eqb_refl, IH.
Qed.

(** The loop of [findDevice] returns the first slot that answers to the
    name, counted from [i0]. *)
Lemma find_loop_some (l : list (option Device)) (i0 : nat) (deviceId : string)
    (i : nat) (d : Device) :
  find_loop l i0 deviceId = Some (i, d) ->
  (i0 <= i)%nat
  /\ nth_error l (i - i0) = Some (Some d)
  /\ strcaseeq (Device_id d) deviceId = true
  /\ forall j, (j < i - i0)%nat ->
       answers_to deviceId (nth j l None) = false.
Proof.
  revert i0. induction l as [|s l IH]; intros i0 H; simpl in H; [discriminate|].
  assert (Hrec : find_loop l (S i0) deviceId = Some (i, d) ->
                 answers_to deviceId s = false ->
                 (i0 <= i)%nat
                 /\ nth_error (s :: l) (i - i0) = Some (Some d)
                 /\ strcaseeq (Device_id d) deviceId = true
                 /\ forall j, (j < i - i0)%nat ->
                      answers_to deviceId (nth j (s :: l) None) = false).
  { intros Hf Hs. destruct (IH _ Hf) as (Hle & Hn & Hm & Hbefore).
    split; [lia|]. replace (i - i0)%nat with (S (i - S i0)) by lia.
    split; [exact Hn|]. split; [exact Hm|].
    intros [|j] Hj; simpl; [exact Hs | apply Hbefore; lia]. }
  destruct s as [d0|]; [|now apply Hrec].
  destruct (strcaseeq (Device_id d0) deviceId) eqn:E; [|now apply Hrec].
  injection H as <- <-. rewrite Nat.sub_diag. repeat split; try assumption.
  - apply Nat.le_refl.
  - intros j Hj. lia.
Qed.

Lemma find_loop_none (l : list (option Device)) (i0 : nat) (deviceId : string) :
  find_loop l i0 deviceId = None <-> forallb (fun s => negb (answers_to deviceId s)) l = true.
Proof.
  revert i0. induction l as [|s l IH]; intro i0; simpl; [tauto|].
  destruct s as [d0|]; simpl; [|apply IH].
  destruct (strcaseeq (Device_id d0) deviceId); simpl; [|apply IH].
  split; discriminate.
Qed.

Lemma slots_length (dm : DeviceManager) : (List.length (slots dm) <= deviceCount dm)%nat.
Proof. unfold slots. rewrite List.length_firstn. lia. Qed.

(** X1.  [findDevice] answers with the first registered device whose id
    equals the name up to case, together with its slot, which lies below
    [deviceCount]; it answers "not found" exactly when no registered
    device has such an id. *)
Theorem X1_findDevice_first_match (dm : DeviceManager) (deviceId : string) :
  (forall i d,
     findDevice dm deviceId = Some (i, d) ->
     (i < deviceCount dm)%nat
     /\ nth_error (devices dm) i = Some (Some d)
     /\ strcaseeq (Device_id d) deviceId = true
     /\ forall j, (j < i)%nat -> answers_to deviceId (nth j (devices dm) None) = false)
  /\ (findDevice dm deviceId = None <->
      forall d, In (Some d) (slots dm) -> strcaseeq (Device_id d) deviceId = false).
Proof.
  split.
  - intros i d H. unfold findDevice in H.
    destruct (find_loop_some _ _ _ _ _ H) as (_ & Hn & Hm & Hb).
    rewrite Nat.sub_0_r in Hn, Hb.
    assert (Hi : (i < List.length (slots dm))%nat)
      by (apply nth_error_Some; rewrite Hn; discriminate).
    pose proof (slots_length dm) as Hl.
    assert (Hfirst : forall j, (j < deviceCount dm)%nat ->
                       nth_error (slots dm) j = nth_error (devices dm) j).
    { intros j Hj. unfold slots. rewrite nth_error_firstn.
      destruct (Nat.ltb_spec j (deviceCount dm)); [reflexivity | lia]. }
    repeat split.
    + lia.
    + rewrite <- Hfirst by lia. exact Hn.
    + exact Hm.
    + intros j Hj. specialize (Hb j Hj).
      assert (Hj' : (j < deviceCount dm)%nat) by lia.
      specialize (Hfirst j Hj').
      assert (Hjl : (j < List.length (slots dm))%nat) by lia.
      destruct (nth_error (slots dm) j) as [s|] eqn:Es;
        [|apply nth_error_None in Es; lia].
      rewrite (nth_error_nth _ _ None Es) in Hb.
      symmetry in Hfirst. rewrite (nth_error_nth _ _ None Hfirst). exact Hb.
  - unfold findDevice. rewrite find_loop_none, forallb_forall. split.
    + intros H d Hin. specialize (H _ Hin). simpl in H.
      now apply negb_true_iff in H.
    + intros H [d|] Hin; [|reflexivity]. simpl. rewrite (H d Hin). reflexivity.
Qed.

Lemma answers_to_case (a b : string) (s : option Device) :
  strcaseeq a b = true -> answers_to a s = answers_to b s.
Proof.
  intro H. destruct s as [d|]; [|reflexivity]. simpl.
  rewrite (strcaseeq_sym (Device_id d) a), (strcaseeq_sym (Device_id d) b).
  now apply strcaseeq_same.
Qed.

Lemma find_loop_case (l : list (option Device)) (i0 : nat) (a b : string) :
  strcaseeq a b = true -> find_loop l i0 a = find_loop l i0 b.
Proof.
  intro H. revert i0. induction l as [|s l IH]; intro i0; simpl; [reflexivity|].
  destruct s as [d|]; [|apply IH].
  pose proof (answers_to_case a b (Some d) H) as Hd. simpl in Hd.
  rewrite Hd. destruct (strcaseeq (Device_id d) b); [reflexivity | apply IH].
Qed.

(** X2.  Device names are looked up without regard to case: two names that
    differ in case only find the same device in the same slot, or both
    none. *)
Theorem X2_findDevice_ignores_case (dm : DeviceManager) (a b : string) :
  strcaseeq a b = true -> findDevice dm a = findDevice dm b.
Proof. intro H. unfold findDevice. now apply find_loop_case. Qed.

Lemma X2_findDevice_ignores_case_witness :
  strcaseeq "rel_01" "REL_01" = true
  /\ findDevice one_relay "rel_01" = findDevice one_relay "REL_01".
Proof.
  split; [reflexivity|].
  exact (X2_findDevice_ignores_case one_relay "rel_01" "REL_01" eq_refl).
Defined.

Lemma find_loop_app (l1 l2 : list (option Device)) (i0 : nat) (deviceId : string) :
  find_loop (l1 ++ l2) i0 deviceId
  = match find_loop l1 i0 deviceId with
    | Some r => Some r
    | None => find_loop l2 (i0 + List.length l1) deviceId
    end.
Proof.
  revert i0. induction l1 as [|s l1 IH]; intro i0; simpl.
  - now rewrite Nat.add_0_r.
  - destruct s as [d|].
    + destruct (strcaseeq (Device_id d) deviceId); [reflexivity|].
      rewrite IH. now rewrite Nat.add_succ_r.
    + rewrite IH. now rewrite Nat.add_succ_r.
Qed.

(** X3.  Registering and looking up.  When there is room, registration
    keeps every earlier lookup as it was (so a device registered under a
    name that is already taken is never found), and a device registered
    under a new name is found under it, initialized, in the slot it was
    stored in.  This holds in both sketches. *)
Theorem X3_addDevice_then_findDevice (dm : DeviceManager) (d : Device) (w : World) :
  List.length (devices dm) = MAX_DEVICES ->
  (deviceCount dm < MAX_DEVICES)%nat ->
  (let '(_, dm', _) := Serial.addDevice dm d w in
   (forall deviceId r, findDevice dm deviceId = Some r ->
                       findDevice dm' deviceId = Some r)
   /\ (findDevice dm (Device_id d) = None ->
       findDevice dm' (Device_id d)
       = Some (deviceCount dm, snd (fst (Serial.initialize d w)))))
  /\ (let '(_, dm', _) := Ethernet.addDevice dm d w in
      (forall deviceId r, findDevice dm deviceId = Some r ->
                          findDevice dm' deviceId = Some r)
      /\ (findDevice dm (Device_id d) = None ->
          findDevice dm' (Device_id d)
          = Some (deviceCount dm, snd (fst (Ethernet.initialize d w))))).
Proof.
  intros Hl Hc.
  assert (Hlen : List.length (slots dm) = deviceCount dm).
  { unfold slots. rewrite List.length_firstn. unfold MAX_DEVICES in *. lia. }
  assert (Hgen : forall d',
            Device_id d' = Device_id d ->
            let dm' := mkManager (store (deviceCount dm) (Some d') (devices dm))
                         (S (deviceCount dm)) in
            (forall deviceId r, findDevice dm deviceId = Some r ->
                                findDevice dm' deviceId = Some r)
            /\ (findDevice dm (Device_id d) = None ->
                findDevice dm' (Device_id d) = Some (deviceCount dm, d'))).
  { intros d' Hid dm'. unfold findDevice. subst dm'.
    rewrite slots_after_add by assumption. split.
    - intros deviceId r H. rewrite find_loop_app, H. reflexivity.
    - intro H. rewrite find_loop_app, H. simpl.
      rewrite Hid, strcaseeq_refl, Hlen. reflexivity. }
  split.
  - rewrite Serial_addDevice_room by assumption.
    apply Hgen. apply initialize_variants.
  - rewrite Ethernet_addDevice_room by assumption.
    apply Hgen. apply initialize_variants.
Qed.

Lemma X3_addDevice_then_findDevice_witness :
  List.length (devices one_relay) = MAX_DEVICES
  /\ (deviceCount one_relay < MAX_DEVICES)%nat
  /\ findDevice (snd (fst (Serial.addDevice one_relay (DevVici VICI_01) (power_on []))))
       "vici_01"
     = Some (1%nat, DevVici (mkVici "VICI_01" true "3")).
Proof.
  assert (Hl : List.length (devices one_relay) = MAX_DEVICES) by reflexivity.
  assert (Hc : (deviceCount one_relay < MAX_DEVICES)%nat)
    by (unfold MAX_DEVICES; simpl; lia).
  split; [exact Hl|]. split; [exact Hc|].
  destruct (X3_addDevice_then_findDevice one_relay (DevVici VICI_01) (power_on [])
              Hl Hc) as [H _].
  destruct (Serial.addDevice one_relay (DevVici VICI_01) (power_on []))
    as [[ok dm'] w'].
  destruct H as [_ H]. simpl.
  unfold findDevice. rewrite (find_loop_case _ _ "vici_01" "VICI_01" eq_refl).
  exact (H eq_refl).
Defined.

Lemma X1_findDevice_first_match_witness :
  findDevice one_relay "rel_01"
  = Some (0%nat, DevRelay (mkRelay "REL_01" true D0 LED_D0 false))
  /\ strcaseeq "REL_01" "rel_01" = true
  /\ findDevice one_relay "REL_02" = None.
Proof.
  destruct (X1_findDevice_first_match one_relay "rel_01") as [H _].
  destruct (H _ _ eq_refl) as (_ & _ & Hm & _).
  destruct (X1_findDevice_first_match one_relay "REL_02") as [_ [_ H2]].
  split; [reflexivity|]. split; [exact Hm|].
  apply H2. intros d [Hd | []]. injection Hd as <-. reflexivity.
Defined.

(* ===================================================================== *)
(** ** Parsing a command line                                             *)
(* ===================================================================== *)

Lemma strtok_field (a rest acc : string) :
  no_colon a = true -> strtok (a ++ rest) acc = strtok rest (acc ++ a).
Proof.
  revert acc. induction a as [|c a IH]; intros acc H; simpl.
  - now rewrite append_nil_r.
  - simpl in H. apply andb_true_iff in H as [Hc Ha]. apply negb_true_iff in Hc.
    rewrite Hc, IH by assumption. now rewrite append_assoc.
Qed.

Lemma strtok_colon (rest acc : string) :
  acc <> "" -> strtok (String ":" rest) acc = acc :: strtok rest "".
Proof. intro H. simpl. destruct acc; [contradiction | reflexivity]. Qed.

Lemma strtok_join (fields : list string) :
  Forall is_field fields -> strtok (join ":" fields) "" = fields.
Proof.
  induction fields as [|f l IH]; intro H; [reflexivity|].
  inversion H as [|? ? [Hne Hnc] Hl]; subst.
  destruct l as [|g l].
  - simpl join. rewrite <- (append_nil_r f) at 1.
    rewrite strtok_field by assumption. simpl. destruct f; [contradiction | reflexivity].
  - change (join ":" (f :: g :: l)) with (f ++ String ":" (join ":" (g :: l))).
    rewrite strtok_field by assumption. simpl append at 1.
    rewrite strtok_colon by assumption. now rewrite IH.
Qed.

Lemma cut_eol_id (s : string) : no_eol s = true -> Ethernet.cut_eol s = s.
Proof.
  induction s as [|c s IH]; intro H; simpl in *; [reflexivity|].
  apply andb_true_iff in H as [Hc Hs]. apply negb_true_iff in Hc.
  now rewrite Hc, IH.
Qed.

Lemma strncpy_into_short (n : N) (token after : string) :
  strlen token < n -> strncpy_into n token after = token.
Proof.
  intro H. unfold strncpy_into.
  destruct (N.ltb_spec (strlen token) n); [reflexivity | lia].
Qed.

Lemma strncpy_into_long (n : N) (token after : string) :
  n <= strlen token -> strncpy_into n token after = take n token ++ after.
Proof.
  intro H. unfold strncpy_into.
  destruct (N.ltb_spec (strlen token) n); [lia | reflexivity].
Qed.

Lemma short_tokens_inv (tokens : list string) :
  short_tokens tokens = true ->
  strlen (nth_token 0 tokens) < 15 /\ strlen (nth_token 1 tokens) < 15
  /\ strlen (nth_token 2 tokens) < 31 /\ strlen (nth_token 3 tokens) < 31.
Proof.
  unfold short_tokens. intro H.
  apply andb_true_iff in H as [H H3]. apply andb_true_iff in H as [H H2].
  apply andb_true_iff in H as [H0 H1].
  apply N.ltb_lt in H0, H1, H2, H3. auto.
Qed.

Lemma parse_short (stray : Stray) (tokens : list string) :
  short_tokens tokens = true ->
  (strncpy_into 15 (nth_token 0 tokens) (stray_deviceId stray),
   strncpy_into 15 (nth_token 1 tokens) (stray_command stray),
   strncpy_into 31 (nth_token 2 tokens) (stray_param1 stray),
   strncpy_into 31 (nth_token 3 tokens) (stray_param2 stray))
  = parsed tokens.
Proof.
  intro H. destruct (short_tokens_inv _ H) as (H0 & H1 & H2 & H3).
  unfold parsed. now rewrite !strncpy_into_short by assumption.
Qed.

(** X4.  Writing fields with colons between them and parsing the line
    gives the fields back: the tokens are the fields, in order.  When the
    first four are shorter than the counts of the copies (15, 15, 31 and
    31 characters), [parseCommand] of either sketch hands them out as
    they are, whatever the memory held; fields beyond the fourth are
    dropped and missing ones are empty.  A device id of 15 characters or
    more arrives without a terminator: the handler reads its first 15
    characters and then the bytes that were in memory behind them. *)
Theorem X4_parseCommand_fields (stray : Stray) (fields : list string) :
  Forall is_field fields ->
  strtok (join ":" fields) "" = fields
  /\ (short_tokens fields = true ->
      Serial.parseCommand stray (join ":" fields) = parsed fields
      /\ (no_eol (join ":" fields) = true ->
          Ethernet.parseCommand stray (join ":" fields) = parsed fields))
  /\ (15 <= strlen (nth_token 0 fields) ->
      fst (fst (fst (Serial.parseCommand stray (join ":" fields))))
      = take 15 (nth_token 0 fields) ++ stray_deviceId stray)
  /\ (forall id c p1 p2,
        fields = [id; c; p1; p2] ->
        strlen id < 15 -> strlen c < 15 -> strlen p1 < 31 -> strlen p2 < 31 ->
        Serial.parseCommand stray (id ++ ":" ++ c ++ ":" ++ p1 ++ ":" ++ p2)
        = (id, c, p1, p2)).
Proof.
  intro H. pose proof (strtok_join fields H) as Ht.
  split; [exact Ht|]. split; [|split].
  - intro Hs. split.
    + unfold Serial.parseCommand. cbv zeta. rewrite Ht. now apply parse_short.
    + intro He. unfold Ethernet.parseCommand. cbv zeta.
      rewrite cut_eol_id by exact He. rewrite Ht. now apply parse_short.
  - intro Hl. unfold Serial.parseCommand. cbv zeta. rewrite Ht. cbn [fst].
    now apply strncpy_into_long.
  - intros id c p1 p2 -> H1 H2 H3 H4.
    change (id ++ ":" ++ c ++ ":" ++ p1 ++ ":" ++ p2) with (join ":" [id; c; p1; p2]).
    unfold Serial.parseCommand. cbv zeta. rewrite Ht. unfold nth_token. simpl nth.
    now rewrite !strncpy_into_short by assumption.
Qed.

Lemma X4_parseCommand_fields_witness :
  Forall is_field ["MFLEX_01"; "SPEED"; "100.0"; "+"]
  /\ Serial.parseCommand some_stray "MFLEX_01:SPEED:100.0:+"
     = ("MFLEX_01", "SPEED", "100.0", "+").
Proof.
  assert (H : Forall is_field ["MFLEX_01"; "SPEED"; "100.0"; "+"])
    by (repeat constructor; discriminate).
  split; [exact H|].
  destruct (X4_parseCommand_fields some_stray _ H) as (_ & _ & _ & H4).
  apply (H4 "MFLEX_01" "SPEED" "100.0" "+" eq_refl); reflexivity.
Defined.

Lemma strtok_double_colon (s1 s2 acc : string) :
  strtok (s1 ++ String ":" (String ":" s2)) acc = strtok (s1 ++ String ":" s2) acc.
Proof.
  revert acc. induction s1 as [|c s1 IH]; intro acc; simpl.
  - destruct acc; reflexivity.
  - destruct (Ascii.eqb c ":"); [destruct acc|]; now rewrite IH.
Qed.

Lemma strtok_trailing_colon (s acc : string) :
  strtok (s ++ ":") acc = strtok s acc.
Proof.
  revert acc. induction s as [|c s IH]; intro acc; simpl.
  - destruct acc; reflexivity.
  - destruct (Ascii.eqb c ":"); [destruct acc|]; now rewrite IH.
Qed.

Lemma cut_eol_colons (s1 s2 : string) :
  exists t1 t2,
    Ethernet.cut_eol (s1 ++ String ":" (String ":" s2)) = t1 ++ String ":" (String ":" t2)
    /\ Ethernet.cut_eol (s1 ++ String ":" s2) = t1 ++ String ":" t2
    \/ Ethernet.cut_eol (s1 ++ String ":" (String ":" s2)) = t1
       /\ Ethernet.cut_eol (s1 ++ String ":" s2) = t1.
Proof.
  induction s1 as [|c s1 IH]; simpl.
  - exists "", (Ethernet.cut_eol s2). left. split; reflexivity.
  - destruct (is_eol c).
    + exists "", "". right. split; reflexivity.
    + destruct IH as (t1 & t2 & [[E1 E2] | [E1 E2]]).
      * exists (String c t1), t2. left. now rewrite E1, E2.
      * exists (String c t1), t2. right. now rewrite E1, E2.
Qed.

(** X5.  An empty field cannot be written: [strtok] skips it, so a doubled
    colon parses like a single one, and a colon at the start or at the end
    of the line is ignored, in both sketches.  [REL_01::ON] is the command
    [ON] for [REL_01]. *)
Theorem X5_parseCommand_skips_empty_fields (stray : Stray) (s1 s2 : string) :
  Serial.parseCommand stray (s1 ++ "::" ++ s2) = Serial.parseCommand stray (s1 ++ ":" ++ s2)
  /\ Ethernet.parseCommand stray (s1 ++ "::" ++ s2) = Ethernet.parseCommand stray (s1 ++ ":" ++ s2)
  /\ Serial.parseCommand stray (":" ++ s2) = Serial.parseCommand stray s2
  /\ Serial.parseCommand stray (s1 ++ ":") = Serial.parseCommand stray s1.
Proof.
  unfold Serial.parseCommand, Ethernet.parseCommand. repeat split.
  - change (s1 ++ "::" ++ s2) with (s1 ++ String ":" (String ":" s2)).
    change (s1 ++ ":" ++ s2) with (s1 ++ String ":" s2).
    now rewrite strtok_double_colon.
  - change (s1 ++ "::" ++ s2) with (s1 ++ String ":" (String ":" s2)).
    change (s1 ++ ":" ++ s2) with (s1 ++ String ":" s2).
    destruct (cut_eol_colons s1 s2) as (t1 & t2 & [[-> ->] | [-> ->]]);
      [now rewrite strtok_double_colon | reflexivity].
  - now rewrite strtok_trailing_colon.
Qed.

(** *** Blanks around a line *)

Lemma ltrim_spaces (ws s : string) : all_space ws = true -> ltrim (ws ++ s) = ltrim s.
Proof.
  induction ws as [|c ws IH]; intro H; simpl in *; [reflexivity|].
  apply andb_true_iff in H as [Hc Hw]. rewrite Hc. now apply IH.
Qed.

Lemma rtrim_spaces (ws : string) : all_space ws = true -> rtrim ws = "".
Proof.
  induction ws as [|c ws IH]; intro H; simpl in *; [reflexivity|].
  apply andb_true_iff in H as [Hc Hw]. now rewrite IH, Hc.
Qed.

Lemma rtrim_app_spaces (s ws : string) : all_space ws = true -> rtrim (s ++ ws) = rtrim s.
Proof.
  intro H. induction s as [|c s IH]; simpl.
  - now apply rtrim_spaces.
  - now rewrite IH.
Qed.

Lemma ltrim_all_space (ws : string) : all_space ws = true -> ltrim ws = "".
Proof.
  induction ws as [|c ws IH]; intro H; simpl in *; [reflexivity|].
  apply andb_true_iff in H as [Hc Hw]. rewrite Hc. now apply IH.
Qed.

Lemma trim_spaces (ws1 s ws2 : string) :
  all_space ws1 = true -> all_space ws2 = true ->
  trim (ws1 ++ s ++ ws2) = trim s.
Proof.
  intros H1 H2. unfold trim. rewrite ltrim_spaces by assumption.
  induction s as [|c s IH]; simpl.
  - now rewrite ltrim_all_space.
  - destruct (isspace c); [exact IH|].
    change (String c (s ++ ws2)) with (String c s ++ ws2).
    now apply rtrim_app_spaces.
Qed.

(** X6.  Blanks, tabs and line ends before and after a command line do
    not matter: both handlers treat the padded line exactly like the bare
    one. *)
Theorem X6_handlers_ignore_padding (ff : FloatFormat) (stray : Stray) (ws1 line ws2 : string)
    (dm : DeviceManager) (w : World) :
  all_space ws1 = true -> all_space ws2 = true ->
  Serial.processSerialCommand ff stray (ws1 ++ line ++ ws2) dm w
  = Serial.processSerialCommand ff stray line dm w
  /\ Ethernet.handleCommandString ff stray (ws1 ++ line ++ ws2) dm w
     = Ethernet.handleCommandString ff stray line dm w.
Proof.
  intros H1 H2. unfold Serial.processSerialCommand, Ethernet.handleCommandString.
  rewrite (trim_spaces ws1 line ws2 H1 H2). split; reflexivity.
Qed.

Lemma X6_handlers_ignore_padding_witness :
  all_space "  " = true /\ all_space (String "009" "") = true
  /\ Ethernet.handleCommandString echo_format no_stray ("  " ++ "REL_01:ON" ++ String "009" "")
       one_relay (power_on [])
     = Ethernet.handleCommandString echo_format no_stray "REL_01:ON" one_relay (power_on []).
Proof.
  split; [reflexivity|]. split; [reflexivity|].
  exact (proj2 (X6_handlers_ignore_padding echo_format no_stray "  " "REL_01:ON"
                  (String "009" "") one_relay (power_on []) eq_refl eq_refl)).
Defined.

(* ===================================================================== *)
(** ** What a command leaves alone                                        *)
(* ===================================================================== *)

Lemma preserves_ret {X A : Type} (f : World -> X) (a : A) : preserves f (ret a).
Proof. intro w. reflexivity. Qed.

Lemma preserves_bind {X A B : Type} (f : World -> X) (m : M A) (k : A -> M B) :
  preserves f m -> (forall a, preserves f (k a)) -> preserves f (bind m k).
Proof.
  intros Hm Hk w. unfold bind. pose proof (Hm w) as H1.
  destruct (m w) as [a w1]. simpl in H1. rewrite <- H1. apply Hk.
Qed.

Create HintDb fw_ops.
#[local] Hint Unfold Vici.setupViciRS485 Vici.drainRx Vici.sendFrame Vici.readLine
  Vici.sendCommand Vici.getStatus Vici.processCommand Vici.failed
  setupMasterflexRS485 drainRS485 drain sendMasterflexFrame
  RS485_end RS485_begin RS485_receive RS485_noReceive RS485_beginTransmission
  RS485_endTransmission RS485_flush delay delayMicroseconds
  Serial.readMasterflexResponse Ethernet.readMasterflexResponse
  Serial.ack_command Ethernet.ack_command Serial.Masterflex_failed
  Ethernet.Masterflex_failed Serial.Masterflex_getStatus Ethernet.Masterflex_getStatus
  Relay.processCommand Relay.getStatus Relay.initialize
  Serial_println : fw_ops.

(** A primitive operation that does not write the part in question. *)
Ltac preserves_prim :=
  let w := fresh "w" in
  intro w; first [reflexivity | unfold rx_window; destruct (rs485_rx w); reflexivity].

Ltac preserves_step :=
  match goal with
  | |- preserves _ (ret _) => apply preserves_ret
  | |- preserves _ (bind _ _) => apply preserves_bind; [|intro]
  | |- preserves _ (match ?x with _ => _ end) => destruct x
  | |- preserves _ _ => solve [preserves_prim]
  end.

Ltac preserves_body := autounfold with fw_ops; repeat preserves_step.

Lemma Relay_leaves_bus (d : RelayDevice) (command : string) (p1 p2 : option string)
    (n : N) :
  preserves rs485_cfg (Relay.processCommand d command p1 p2 n)
  /\ preserves rs485_rx (Relay.processCommand d command p1 p2 n)
  /\ preserves rs485_tx (Relay.processCommand d command p1 p2 n)
  /\ preserves gpio_mode (Relay.processCommand d command p1 p2 n).
Proof. repeat split; preserves_body. Qed.

Lemma Relay_other_pins (d : RelayDevice) (command : string) (p1 p2 : option string)
    (n : N) (q : Pin) :
  Pin_eqb q (pin d) = false -> Pin_eqb q (ledPin d) = false ->
  preserves (fun w => gpio_level w q) (Relay.processCommand d command p1 p2 n).
Proof.
  intros H1 H2 w. unfold Relay.processCommand.
  destruct (strcaseeq command "ON"); [simpl; now rewrite H1, H2|].
  destruct (strcaseeq command "OFF"); [simpl; now rewrite H1, H2|].
  destruct (strcaseeq command "TOGGLE"); [simpl; now rewrite H1, H2|].
  reflexivity.
Qed.

Lemma Vici_leaves_gpio (d : ViciDevice) (command : string) (p1 p2 : option string)
    (n : N) :
  preserves gpio_level (Vici.processCommand d command p1 p2 n)
  /\ preserves gpio_mode (Vici.processCommand d command p1 p2 n).
Proof. split; preserves_body. Qed.

Lemma Serial_Masterflex_leaves_gpio (ff : FloatFormat) (d : MasterflexDevice)
    (command : string) (p1 p2 : option string) (n : N) :
  preserves gpio_level (Serial.Masterflex_processCommand ff d command p1 p2 n)
  /\ preserves gpio_mode (Serial.Masterflex_processCommand ff d command p1 p2 n).
Proof.
  unfold Serial.Masterflex_processCommand, Serial.initializePump.
  split; preserves_body.
Qed.

Lemma Ethernet_Masterflex_leaves_gpio (ff : FloatFormat) (d : MasterflexDevice)
    (command : string) (p1 p2 : option string) (n : N) :
  preserves gpio_level (Ethernet.Masterflex_processCommand ff d command p1 p2 n)
  /\ preserves gpio_mode (Ethernet.Masterflex_processCommand ff d command p1 p2 n).
Proof. unfold Ethernet.Masterflex_processCommand. split; preserves_body. Qed.

(** X8.  Commands keep to their own hardware, in both sketches.  A relay
    command never uses the bus (parameters, pending answers and
    transmitted frames stay as they are) and changes the level of no pin
    but the relay's own two; a valve or pump command changes no pin at
    all. *)
Theorem X8_commands_keep_to_their_hardware (ff : FloatFormat) (d : Device)
    (command : string) (p1 p2 : option string) (n : N) (w : World) :
  let ws := snd (Serial.processCommand ff d command p1 p2 n w) in
  let we := snd (Ethernet.processCommand ff d command p1 p2 n w) in
  match d with
  | DevRelay r =>
      rs485_cfg ws = rs485_cfg w /\ rs485_rx ws = rs485_rx w
      /\ rs485_tx ws = rs485_tx w /\ we = ws
      /\ forall q, Pin_eqb q (pin r) = false -> Pin_eqb q (ledPin r) = false ->
                   gpio_level ws q = gpio_level w q
  | _ =>
      gpio_level ws = gpio_level w /\ gpio_mode ws = gpio_mode w
      /\ gpio_level we = gpio_level w /\ gpio_mode we = gpio_mode w
  end.
Proof.
  destruct d as [r|v|m]; cbv zeta.
  - unfold Serial.processCommand, Ethernet.processCommand.
    destruct (Relay_leaves_bus r command p1 p2 n) as (Hc & Hr & Ht & _).
    unfold bind.
    pose proof (Hc w) as Hc'. pose proof (Hr w) as Hr'. pose proof (Ht w) as Ht'.
    pose proof (fun q H1 H2 => Relay_other_pins r command p1 p2 n q H1 H2 w) as Hq.
    destruct (Relay.processCommand r command p1 p2 n w) as [[[res msg] r'] w1].
    simpl in *. repeat split; assumption.
  - unfold Serial.processCommand, Ethernet.processCommand.
    destruct (Vici_leaves_gpio v command p1 p2 n) as (Hl & Hm).
    unfold bind. pose proof (Hl w) as Hl'. pose proof (Hm w) as Hm'.
    destruct (Vici.processCommand v command p1 p2 n w) as [[res msg] w1].
    simpl in *. repeat split; assumption.
  - unfold Serial.processCommand, Ethernet.processCommand.
    destruct (Serial_Masterflex_leaves_gpio ff m command p1 p2 n) as (Hl & Hm).
    destruct (Ethernet_Masterflex_leaves_gpio ff m command p1 p2 n) as (Hl2 & Hm2).
    unfold bind.
    pose proof (Hl w) as Hl'. pose proof (Hm w) as Hm'.
    pose proof (Hl2 w) as Hl2'. pose proof (Hm2 w) as Hm2'.
    destruct (Serial.Masterflex_processCommand ff m command p1 p2 n w)
      as [[[res msg] m1] w1].
    destruct (Ethernet.Masterflex_processCommand ff m command p1 p2 n w)
      as [[[res2 msg2] m2] w2].
    simpl in *. repeat split; assumption.
Qed.

Lemma X8_commands_keep_to_their_hardware_witness :
  gpio_level (snd (Serial.processCommand echo_format (DevRelay REL_01) "ON"
                     None None 256 (power_on []))) D1
  = gpio_level (power_on []) D1.
Proof.
  pose proof (X8_commands_keep_to_their_hardware echo_format (DevRelay REL_01) "ON"
                None None 256 (power_on [])) as H.
  cbv zeta in H. destruct H as (_ & _ & _ & _ & H).
  exact (H D1 eq_refl eq_refl).
Defined.

(* ===================================================================== *)
(** ** Relay: outputs and state                                           *)
(* ===================================================================== *)

(** X7.  The output pin and the indicator of a relay mirror its recorded
    state: [initialize ()] makes it so, every recognized command makes it
    so again, and an unknown command keeps it so.  Two TOGGLEs in a row
    give back the state the relay had. *)
Theorem X7_relay_outputs_mirror_state (d : RelayDevice) (command : string)
    (p1 p2 : option string) (n : N) (w : World) :
  (let '(_, d0, w0) := Relay.initialize d w in relay_mirrors d0 w0)
  /\ (let '(_, _, d', w') := Relay.processCommand d command p1 p2 n w in
      (relay_mirrors d w -> relay_mirrors d' w')
      /\ (strcaseeq command "ON" || strcaseeq command "OFF"
          || strcaseeq command "TOGGLE" = true -> relay_mirrors d' w'))
  /\ (let '(_, _, d1, w1) := Relay.processCommand d "TOGGLE" p1 p2 n w in
      let '(_, _, d2, _) := Relay.processCommand d1 "TOGGLE" p1 p2 n w1 in
      state d2 = state d).
Proof.
  split; [|split].
  - unfold relay_mirrors. simpl. rewrite !Pin_eqb_refl.
    destruct (Pin_eqb (pin d) (ledPin d)); split; reflexivity.
  - destruct (Relay.processCommand d command p1 p2 n w) as [[[res msg] d'] w'] eqn:E.
    assert (Hrec : strcaseeq command "ON" || strcaseeq command "OFF"
                   || strcaseeq command "TOGGLE" = true -> relay_mirrors d' w').
    { intro H. unfold Relay.processCommand in E.
      destruct (strcaseeq command "ON").
      { injection E as <- <- <- <-. destruct (relay_drive d HIGH w) as (A & B & _).
        split; assumption. }
      destruct (strcaseeq command "OFF").
      { injection E as <- <- <- <-. destruct (relay_drive d LOW w) as (A & B & _).
        split; assumption. }
      destruct (strcaseeq command "TOGGLE"); [|discriminate].
      injection E as <- <- <- <-.
      destruct (relay_drive d (negb (state d)) w) as (A & B & _).
      split; assumption. }
    split; [|exact Hrec].
    intro Hm.
    destruct (strcaseeq command "ON" || strcaseeq command "OFF"
              || strcaseeq command "TOGGLE") eqn:Hk; [now apply Hrec|].
    apply orb_false_iff in Hk as [Hk H3]. apply orb_false_iff in Hk as [H1 H2].
    rewrite (relay_unknown _ _ _ _ _ _ H1 H2 H3) in E.
    injection E as <- <- <- <-. exact Hm.
  - rewrite (relay_TOGGLE d "TOGGLE") by reflexivity.
    rewrite (relay_TOGGLE _ "TOGGLE") by reflexivity.
    simpl. apply negb_involutive.
Qed.

Lemma X7_relay_outputs_mirror_state_witness :
  relay_mirrors REL_01 (power_on [])
  /\ relay_mirrors (Relay.set_state REL_01 true)
       (snd (Relay.processCommand REL_01 "on" None None 256 (power_on []))).
Proof.
  split; [split; reflexivity|].
  pose proof (X7_relay_outputs_mirror_state REL_01 "on" None None 256 (power_on []))
    as (_ & H & _).
  remember (power_on []) as w0 eqn:Hw.
  rewrite (relay_ON REL_01 "on" None None 256 w0 eq_refl) in H |- *.
  exact (proj2 H eq_refl).
Defined.

Lemma uint8_wrap (n : N) : uint8 (n + 256) = uint8 n.
Proof.
  unfold uint8. replace (n + 256) with (n + 1 * 256) by lia.
  apply N.Div0.mod_add.
Qed.

(** X9.  Relay numbers 1 to 4 get four different output pins with four
    different indicators, none shared with another; any other number a
    [uint8_t] holds falls back to the pins of relay 1, so that such a
    relay drives the output of relay 1.  A larger number arrives modulo
    256: relay 258 is relay 2. *)
Theorem X9_relay_pins (deviceId : string) (a b : N) :
  (1 <= a <= 4 -> 1 <= b <= 4 -> a <> b ->
   Pin_eqb (pin (Relay.new deviceId a)) (pin (Relay.new deviceId b)) = false
   /\ Pin_eqb (ledPin (Relay.new deviceId a)) (ledPin (Relay.new deviceId b)) = false
   /\ Pin_eqb (pin (Relay.new deviceId a)) (ledPin (Relay.new deviceId b)) = false)
  /\ (a < 256 -> a = 0 \/ 4 < a ->
      pin (Relay.new deviceId a) = pin (Relay.new deviceId 1)
      /\ ledPin (Relay.new deviceId a) = ledPin (Relay.new deviceId 1))
  /\ Relay.new deviceId (a + 256) = Relay.new deviceId a.
Proof.
  split; [|split].
  - intros Ha Hb Hab.
    assert (Ea : a = 1 \/ a = 2 \/ a = 3 \/ a = 4) by lia.
    assert (Eb : b = 1 \/ b = 2 \/ b = 3 \/ b = 4) by lia.
    destruct Ea as [-> | [-> | [-> | ->]]]; destruct Eb as [-> | [-> | [-> | ->]]];
      try contradiction; repeat split; reflexivity.
  - intros Hu [-> | Ha]; [split; reflexivity|].
    unfold Relay.new, uint8. rewrite (N.mod_small a 256) by exact Hu.
    destruct a as [|p]; [lia|].
    destruct p as [[[|[]|]|[|[]|]|]|[[|[]|]|[|[]|]|]|]; try lia; split; reflexivity.
  - unfold Relay.new. now rewrite uint8_wrap.
Qed.

Lemma X9_relay_pins_witness :
  1 <= 2 <= 4 /\ 1 <= 3 <= 4 /\ 2 <> 3
  /\ Pin_eqb (pin (Relay.new "REL_02" 2)) (pin (Relay.new "REL_02" 3)) = false
  /\ 7 < 256 /\ 4 < 7
  /\ pin (Relay.new "REL_07" 7) = pin (Relay.new "REL_07" 1)
  /\ Relay.new "REL_258" (2 + 256) = Relay.new "REL_258" 2.
Proof.
  assert (H2 : 1 <= 2 <= 4) by (split; intro H; discriminate H).
  assert (H3 : 1 <= 3 <= 4) by (split; intro H; discriminate H).
  assert (Hn : 2 <> 3) by discriminate.
  split; [exact H2|]. split; [exact H3|]. split; [exact Hn|].
  split; [exact (proj1 (proj1 (X9_relay_pins "REL_02" 2 3) H2 H3 Hn))|].
  split; [reflexivity|]. split; [reflexivity|].
  split; [exact (proj1 (proj1 (proj2 (X9_relay_pins "REL_07" 7 1)) eq_refl
                          (or_intror eq_refl)))|].
  exact (proj2 (proj2 (X9_relay_pins "REL_258" 2 1))).
Defined.

(* ===================================================================== *)
(** ** Masterflex pump: the commands confirmed by an ACK                  *)
(* ===================================================================== *)

Lemma pump_frame_fits (d : MasterflexDevice) (core : string) :
  strlen (pumpId d) <= 3 -> strlen core <= 31 ->
  snprintf 64 (String STX ("P" ++ pumpId d ++ core ++ String CR ""))
  = String STX ("P" ++ pumpId d ++ core ++ String CR "").
Proof.
  intros H1 H2. apply snprintf_fits.
  change (String STX ("P" ++ pumpId d ++ core ++ String CR ""))
    with (String STX "P" ++ pumpId d ++ core ++ String CR "").
  rewrite !strlen_app. strlen_lit. lia.
Qed.

Lemma Serial_ack_command_run (d : MasterflexDevice) (core command success : string)
    (n : N) (w : World) :
  strlen (pumpId d) <= 3 -> strlen core <= 31 ->
  rs485_cfg w = Bus4800_7O1 ->
  Serial.ack_command d core command success n w
  = (if ResponseType_eqb (Serial_classify 128 (window 0 w)) RESP_ACK
     then (CMD_OK, snprintf n success)
     else Serial.Masterflex_failed command n,
     d, after_pump_transaction (pump_frame d core) w).
Proof.
  intros H1 H2 Hc. unfold Serial.ack_command, sendMasterflexFrame.
  rewrite pump_frame_fits by assumption.
  unfold Serial.readMasterflexResponse, Serial_classify, window, bind, rx_window,
    after_pump_transaction, pump_frame. simpl. rewrite Hc.
  destruct (rs485_rx w) as [|r rest]; simpl; [reflexivity|].
  destruct (Serial.readMasterflexResponse_scan r 128 []) as [t b]. simpl.
  destruct (ResponseType_eqb t RESP_ACK); reflexivity.
Qed.

Lemma Ethernet_ack_command_run (d : MasterflexDevice) (core command success : string)
    (n : N) (w : World) :
  strlen (pumpId d) <= 3 -> strlen core <= 31 ->
  rs485_cfg w = Bus4800_7O1 ->
  Ethernet.ack_command d core command success n w
  = (if ResponseType_eqb (Ethernet_classify 128 (window 0 w)) RESP_ACK
     then (CMD_OK, snprintf n success)
     else Ethernet.Masterflex_failed command n,
     d, after_pump_transaction (pump_frame d core) w).
Proof.
  intros H1 H2 Hc. unfold Ethernet.ack_command, sendMasterflexFrame.
  rewrite pump_frame_fits by assumption.
  unfold Ethernet.readMasterflexResponse, Ethernet_classify, window, bind, rx_window,
    after_pump_transaction, pump_frame. simpl. rewrite Hc.
  destruct (rs485_rx w) as [|r rest]; simpl; [reflexivity|].
  destruct (Ethernet.readMasterflexResponse_scan r 128 []) as [t b]. simpl.
  destruct (ResponseType_eqb t RESP_ACK); reflexivity.
Qed.

(** The literal an ACK-confirmed command is written with. *)
Lemma pump_ack_core_cases (command core : string) :
  pump_ack_core command = Some core ->
  (strcaseeq command "START" = true /\ core = "G")
  \/ (strcaseeq command "GO" = true /\ core = "G")
  \/ (strcaseeq command "STOP" = true /\ core = "H")
  \/ (strcaseeq command "HALT" = true /\ core = "H")
  \/ (strcaseeq command "REMOTE" = true /\ core = "R")
  \/ (strcaseeq command "LOCAL" = true /\ core = "L").
Proof.
  unfold pump_ack_core. intro H.
  destruct (strcaseeq command "START") eqn:E1; [injection H as <-; tauto|].
  destruct (strcaseeq command "GO") eqn:E2; [injection H as <-; tauto|].
  destruct (strcaseeq command "STOP") eqn:E3; [injection H as <-; tauto|].
  destruct (strcaseeq command "HALT") eqn:E4; [injection H as <-; tauto|].
  destruct (strcaseeq command "REMOTE") eqn:E5; [injection H as <-; tauto|].
  destruct (strcaseeq command "LOCAL") eqn:E6; [injection H as <-; tauto|].
  discriminate.
Qed.

Lemma setupMasterflexRS485_then {B : Type} (settle : N) (k : unit -> M B) (w : World) :
  bind (setupMasterflexRS485 settle) k w = k tt (with_cfg Bus4800_7O1 w).
Proof. reflexivity. Qed.

Lemma window_with_cfg (k : nat) (c : BusConfig) (w : World) :
  window k (with_cfg c w) = window k w.
Proof. reflexivity. Qed.

Ltac ack_case run E :=
  command_is E; cbv [orb negb];
  rewrite setupMasterflexRS485_then;
  rewrite run by (try assumption; try reflexivity; simpl; lia);
  rewrite window_with_cfg;
  match goal with
  | |- context [ResponseType_eqb ?c RESP_ACK] => destruct (ResponseType_eqb c RESP_ACK)
  end;
  (split; [reflexivity|]); (split; [intro; try reflexivity; discriminate|]);
  (split; [reflexivity|]); reflexivity.

(** X10.  START, GO, STOP, HALT, REMOTE and LOCAL on a pump (initialized,
    in the serial sketch) run one transaction: the bus is switched to the
    pump's parameters, the frame [<STX>P<id><core><CR>] goes out, one
    answer is read.  The command answers [CMD_OK] exactly when that answer
    is classified as ACK; a NAK, a data line or silence give [CMD_ERROR]
    with the command echoed.  The pump record is not changed. *)
Theorem X10_pump_ack_commands (ff : FloatFormat) (d : MasterflexDevice)
    (command core : string) (p1 p2 : option string) (n : N) (w : World) :
  pump_ack_core command = Some core ->
  strlen (pumpId d) <= 3 ->
  (initialized d = true ->
   let '(res, msg, d', w') := Serial.Masterflex_processCommand ff d command p1 p2 n w in
   res = (if ResponseType_eqb (Serial_classify 128 (window 0 w)) RESP_ACK
          then CMD_OK else CMD_ERROR)
   /\ (res = CMD_ERROR ->
       msg = snprintf n ("Masterflex command failed or unknown: " ++ command))
   /\ d' = d
   /\ w' = after_pump_transaction (pump_frame d core) w)
  /\ (let '(res, msg, d', w') :=
        Ethernet.Masterflex_processCommand ff d command p1 p2 n w in
      res = (if ResponseType_eqb (Ethernet_classify 128 (window 0 w)) RESP_ACK
             then CMD_OK else CMD_ERROR)
      /\ (res = CMD_ERROR ->
          msg = snprintf n ("Masterflex command failed or unknown: " ++ command))
      /\ d' = d
      /\ w' = after_pump_transaction (pump_frame d core) w).
Proof.
  intros Hcore Hid. apply pump_ack_core_cases in Hcore. split.
  - intro Hinit. unfold Serial.Masterflex_processCommand. rewrite Hinit.
    destruct Hcore as [[E ->] | [[E ->] | [[E ->] | [[E ->] | [[E ->] | [E ->]]]]]];
      ack_case Serial_ack_command_run E.
  - unfold Ethernet.Masterflex_processCommand.
    destruct Hcore as [[E ->] | [[E ->] | [[E ->] | [[E ->] | [[E ->] | [E ->]]]]]];
      rewrite setupMasterflexRS485_then;
      command_is E; cbv [orb];
      rewrite Ethernet_ack_command_run by (try assumption; try reflexivity; simpl; lia);
      rewrite window_with_cfg;
      destruct (ResponseType_eqb (Ethernet_classify 128 (window 0 w)) RESP_ACK);
      (split; [reflexivity|]); (split; [intro; try reflexivity; discriminate|]);
      (split; [reflexivity|]); reflexivity.
Qed.

Lemma X10_pump_ack_commands_witness :
  pump_ack_core "stop" = Some "H"
  /\ strlen (pumpId MFLEX_01) <= 3
  /\ fst (fst (fst (Ethernet.Masterflex_processCommand echo_format MFLEX_01 "stop"
                      None None 256 (power_on [[x15]]))))
     = CMD_ERROR.
Proof.
  assert (Hle : strlen (pumpId MFLEX_01) <= 3) by (intro H; discriminate H).
  split; [reflexivity|]. split; [exact Hle|].
  pose proof (X10_pump_ack_commands echo_format MFLEX_01 "stop" "H" None None 256
                (power_on [[x15]]) eq_refl Hle) as [_ H].
  destruct (Ethernet.Masterflex_processCommand echo_format MFLEX_01 "stop" None None
              256 (power_on [[x15]])) as [[[res msg] d'] w'].
  destruct H as [H _]. simpl. rewrite H. reflexivity.
Defined.

(* ===================================================================== *)
(** ** Masterflex pump: what a command does to the record                 *)
(* ===================================================================== *)

Ltac same_step :=
  match goal with
  | |- returns _ (ret _) => apply returns_ret; reflexivity
  | |- returns _ (Serial.ack_command _ _ _ _ _) => apply Serial_ack_command_keeps
  | |- returns _ (Ethernet.ack_command _ _ _ _ _) => apply Ethernet_ack_command_keeps
  | |- returns _ (bind _ _) => apply returns_bind; intro
  | |- returns _ (match ?x with _ => _ end) => destruct x
  end.

Lemma Serial_other_commands_keep_pump (ff : FloatFormat) (d : MasterflexDevice)
    (command : string) (p1 p2 : option string) (n : N) :
  strcaseeq command "INIT" = false ->
  returns (fun x => snd x = d) (Serial.Masterflex_processCommand ff d command p1 p2 n).
Proof.
  intro H. unfold Serial.Masterflex_processCommand. rewrite H. repeat same_step.
Qed.

Lemma Ethernet_other_commands_keep_pump (ff : FloatFormat) (d : MasterflexDevice)
    (command : string) (p1 p2 : option string) (n : N) :
  strcaseeq command "INIT" = false ->
  returns (fun x => snd x = d) (Ethernet.Masterflex_processCommand ff d command p1 p2 n).
Proof.
  intro H. unfold Ethernet.Masterflex_processCommand. rewrite H. repeat same_step.
Qed.

Lemma Serial_initializePump_step (d : MasterflexDevice) :
  returns (fun x => pump_step d (snd x)) (Serial.initializePump d).
Proof.
  unfold Serial.initializePump, pump_step. returns_body; simpl; auto.
Qed.

Lemma Serial_pump_step (ff : FloatFormat) (d : MasterflexDevice)
    (command : string) (p1 p2 : option string) (n : N) :
  returns (fun x => pump_step d (snd x))
    (Serial.Masterflex_processCommand ff d command p1 p2 n).
Proof.
  destruct (strcaseeq command "INIT") eqn:E.
  - unfold Serial.Masterflex_processCommand. rewrite E.
    apply (returns_bind_with _ _ _ _ (Serial_initializePump_step d)).
    intros [ok d'] Hd. simpl in Hd. destruct ok; apply returns_ret; exact Hd.
  - apply (returns_weaken (fun x => snd x = d)).
    + intros x ->. now left.
    + now apply Serial_other_commands_keep_pump.
Qed.

Lemma Ethernet_pump_step (ff : FloatFormat) (d : MasterflexDevice)
    (command : string) (p1 p2 : option string) (n : N) :
  returns (fun x => pump_step d (snd x))
    (Ethernet.Masterflex_processCommand ff d command p1 p2 n).
Proof.
  destruct (strcaseeq command "INIT") eqn:E.
  - unfold Ethernet.Masterflex_processCommand, pump_step. rewrite E.
    returns_body; simpl; auto.
  - apply (returns_weaken (fun x => snd x = d)).
    + intros x ->. now left.
    + now apply Ethernet_other_commands_keep_pump.
Qed.

(** X11.  Only INIT touches the pump record, and only to mark it
    initialized.  In both sketches every other command returns the record
    unchanged, whatever the bus answers; and whatever the command, the
    ids and the [enabled] flag stay as they are and a pump that is
    initialized stays initialized: nothing but a restart takes the mark
    away. *)
Theorem X11_pump_record (ff : FloatFormat) (d : MasterflexDevice)
    (command : string) (p1 p2 : option string) (n : N) (w : World) :
  let ds := snd (fst (Serial.Masterflex_processCommand ff d command p1 p2 n w)) in
  let de := snd (fst (Ethernet.Masterflex_processCommand ff d command p1 p2 n w)) in
  (strcaseeq command "INIT" = false -> ds = d /\ de = d)
  /\ mflex_id ds = mflex_id d /\ pumpId ds = pumpId d
  /\ mflex_enabled ds = mflex_enabled d
  /\ (initialized d = true -> initialized ds = true)
  /\ mflex_id de = mflex_id d /\ pumpId de = pumpId d
  /\ mflex_enabled de = mflex_enabled d
  /\ (initialized d = true -> initialized de = true).
Proof.
  cbv zeta.
  pose proof (Serial_pump_step ff d command p1 p2 n w) as Hs.
  pose proof (Ethernet_pump_step ff d command p1 p2 n w) as He.
  split.
  - intro H. split.
    + apply (Serial_other_commands_keep_pump ff d command p1 p2 n H w).
    + apply (Ethernet_other_commands_keep_pump ff d command p1 p2 n H w).
  - simpl in Hs, He. unfold pump_step in Hs, He.
    destruct Hs as [-> | ->]; destruct He as [-> | ->]; simpl; repeat split; auto.
Qed.

Lemma X11_pump_record_witness :
  strcaseeq "SPEED" "INIT" = false
  /\ snd (fst (Ethernet.Masterflex_processCommand echo_format MFLEX_01 "SPEED"
                 (Some "10") (Some "+") 256 (power_on [[x06]])))
     = MFLEX_01.
Proof.
  split; [reflexivity|].
  pose proof (X11_pump_record echo_format MFLEX_01 "SPEED" (Some "10") (Some "+") 256
                (power_on [[x06]])) as H.
  cbv zeta in H. destruct H as [H _]. exact (proj2 (H eq_refl)).
Defined.

(* ===================================================================== *)
(** ** Commands a device does not know                                    *)
(* ===================================================================== *)

(** X12.  A command the device has no branch for sends nothing.  The valve
    answers [CMD_ERROR] with the command echoed and leaves the hardware
    untouched (so does GOTO without a parameter pointer).  The pump
    answers likewise; before it looks at the command it has switched the
    bus to its own parameters, and that is all that changes (in the serial
    sketch it does so only once it is initialized). *)
Theorem X12_unknown_commands (ff : FloatFormat) (command : string)
    (p1 p2 : option string) (n : N) (w : World) :
  (forall v,
     vici_motion v command p1 = None -> vici_query command = None ->
     Vici.processCommand v command p1 p2 n w
     = (CMD_ERROR, snprintf n ("VICI command failed or unknown: " ++ command), w))
  /\ (forall d,
     pump_known command p1 = false ->
     (initialized d = true ->
      Serial.Masterflex_processCommand ff d command p1 p2 n w
      = (CMD_ERROR, snprintf n ("Masterflex command failed or unknown: " ++ command),
         d, with_cfg Bus4800_7O1 w))
     /\ Ethernet.Masterflex_processCommand ff d command p1 p2 n w
        = (CMD_ERROR, snprintf n ("Masterflex command failed or unknown: " ++ command),
           d, with_cfg Bus4800_7O1 w)).
Proof.
  split.
  - intros v Hm Hq. unfold vici_motion in Hm. unfold vici_query in Hq.
    unfold Vici.processCommand.
    destruct (strcaseeq command "GOTO") eqn:E.
    { destruct p1; [discriminate|]. clear Hm Hq. command_is E. reflexivity. }
    destruct (strcaseeq command "TOGGLE"); [discriminate|].
    destruct (strcaseeq command "HOME"); [discriminate|].
    destruct (strcaseeq command "POSITION"); [discriminate|].
    destruct (strcaseeq command "STATUS"); [discriminate|].
    destruct (strcaseeq command "CW"); [discriminate|].
    destruct (strcaseeq command "CCW"); [discriminate|].
    reflexivity.
  - intros d Hk. unfold pump_known in Hk.
    repeat match type of Hk with
           | _ || _ = false => apply orb_false_iff in Hk; destruct Hk as [Hk ?]
           end.
    assert (Hsp : (if strcaseeq command "SPEED" then p1 else None) = None).
    { destruct (strcaseeq command "SPEED"); [|reflexivity].
      destruct p1; [discriminate | reflexivity]. }
    assert (Hrv : (if strcaseeq command "REV" then p1 else None) = None).
    { destruct (strcaseeq command "REV"); [|reflexivity].
      destruct p1; [discriminate | reflexivity]. }
    split.
    + intro Hi. unfold Serial.Masterflex_processCommand.
      rewrite Hk, Hi. cbv [negb]. rewrite setupMasterflexRS485_then, Hsp, Hrv.
      repeat match goal with
             | H : strcaseeq command _ = false |- _ => rewrite H; clear H
             end.
      reflexivity.
    + unfold Ethernet.Masterflex_processCommand.
      rewrite setupMasterflexRS485_then, Hk, Hsp, Hrv.
      repeat match goal with
             | H : strcaseeq command _ = false |- _ => rewrite H; clear H
             end.
      reflexivity.
Qed.

Lemma X12_unknown_commands_witness :
  Vici.processCommand VICI_01 "GOTO" None None 256 (power_on [])
  = (CMD_ERROR, "VICI command failed or unknown: GOTO", power_on [])
  /\ fst (fst (fst (Ethernet.Masterflex_processCommand echo_format MFLEX_01 "PRIME"
                      (Some "") (Some "") 256 (power_on []))))
     = CMD_ERROR.
Proof.
  destruct (X12_unknown_commands echo_format "GOTO" None None 256 (power_on []))
    as [Hv _].
  destruct (X12_unknown_commands echo_format "PRIME" (Some "") (Some "") 256
              (power_on [])) as [_ Hp].
  split.
  - rewrite (Hv VICI_01 eq_refl eq_refl). reflexivity.
  - rewrite (proj2 (Hp MFLEX_01 eq_refl)). reflexivity.
Defined.

(* ===================================================================== *)
(** ** The bus parameters of every frame                                  *)
(* ===================================================================== *)

Lemma sent_since_refl (P : BusConfig * list byte -> Prop) (w w' : World) :
  rs485_tx w' = rs485_tx w -> sent_since P w w'.
Proof. intro H. exists []. rewrite app_nil_r. split; [exact H | constructor]. Qed.

Lemma sent_since_trans (P : BusConfig * list byte -> Prop) (w1 w2 w3 : World) :
  sent_since P w1 w2 -> sent_since P w2 w3 -> sent_since P w1 w3.
Proof.
  intros (n1 & E1 & F1) (n2 & E2 & F2). exists (n1 ++ n2)%list. split.
  - now rewrite E2, E1, app_assoc.
  - apply Forall_app. split; assumption.
Qed.

Lemma sent_since_weaken (P Q : BusConfig * list byte -> Prop) (w w' : World) :
  (forall e, P e -> Q e) -> sent_since P w w' -> sent_since Q w w'.
Proof.
  intros H (n & E & F). exists n. split; [exact E|].
  eapply Forall_impl; [exact H | exact F].
Qed.

Lemma emits_ret {A : Type} (P : BusConfig * list byte -> Prop) (a : A) :
  emits P (ret a).
Proof. intro w. now apply sent_since_refl. Qed.

Lemma emits_bind {A B : Type} (P : BusConfig * list byte -> Prop) (m : M A)
    (k : A -> M B) :
  emits P m -> (forall a, emits P (k a)) -> emits P (bind m k).
Proof.
  intros Hm Hk w. unfold bind. pose proof (Hm w) as H1.
  destruct (m w) as [a w1]. simpl in H1.
  eapply sent_since_trans; [exact H1 | apply Hk].
Qed.

Lemma emits_weaken {A : Type} (P Q : BusConfig * list byte -> Prop) (m : M A) :
  (forall e, P e -> Q e) -> emits P m -> emits Q m.
Proof. intros H Hm w. eapply sent_since_weaken; [exact H | apply Hm]. Qed.

Lemma emits_silent {A : Type} (P : BusConfig * list byte -> Prop) (m : M A) :
  preserves rs485_tx m -> emits P m.
Proof. intros H w. apply sent_since_refl, H. Qed.

Lemma emits_on_ret {A : Type} (c : BusConfig) (P : BusConfig * list byte -> Prop)
    (a : A) :
  emits_on c P (ret a).
Proof. intros w H. split; [exact H | now apply sent_since_refl]. Qed.

Lemma emits_on_bind {A B : Type} (c : BusConfig) (P : BusConfig * list byte -> Prop)
    (m : M A) (k : A -> M B) :
  emits_on c P m -> (forall a, emits_on c P (k a)) -> emits_on c P (bind m k).
Proof.
  intros Hm Hk w Hc. unfold bind. destruct (Hm w Hc) as [H1 H2].
  destruct (m w) as [a w1]. simpl in H1, H2.
  destruct (Hk a w1 H1) as [H3 H4]. split; [exact H3|].
  eapply sent_since_trans; eassumption.
Qed.

Lemma emits_on_silent {A : Type} (c : BusConfig) (P : BusConfig * list byte -> Prop)
    (m : M A) :
  preserves rs485_tx m -> preserves rs485_cfg m -> emits_on c P m.
Proof.
  intros Ht Hc w H. split; [now rewrite Hc | apply sent_since_refl, Ht].
Qed.

Lemma emits_on_write (c : BusConfig) (P : BusConfig * list byte -> Prop)
    (frame : list byte) :
  P (c, frame) -> emits_on c P (RS485_write frame).
Proof.
  intros HP w Hc. split; [exact Hc|]. exists [(c, frame)]. simpl. rewrite Hc.
  split; [reflexivity | now constructor].
Qed.

(** Once the bus was set up for [c], what follows may rely on it. *)
Lemma emits_after_setup {A B : Type} (c : BusConfig)
    (P : BusConfig * list byte -> Prop) (s : M A) (k : A -> M B) :
  (forall w, rs485_cfg (snd (s w)) = c /\ rs485_tx (snd (s w)) = rs485_tx w) ->
  (forall a, emits_on c P (k a)) ->
  emits P (bind s k).
Proof.
  intros Hs Hk w. unfold bind. destruct (Hs w) as [H1 H2].
  destruct (s w) as [a w1]. simpl in H1, H2.
  destruct (Hk a w1 H1) as [_ H3].
  eapply sent_since_trans; [apply sent_since_refl; exact H2 | exact H3].
Qed.

Lemma setupViciRS485_sets (w : World) :
  rs485_cfg (snd (Vici.setupViciRS485 w)) = Bus9600_8N1
  /\ rs485_tx (snd (Vici.setupViciRS485 w)) = rs485_tx w.
Proof. split; reflexivity. Qed.

Lemma setupMasterflexRS485_sets (settle : N) (w : World) :
  rs485_cfg (snd (setupMasterflexRS485 settle w)) = Bus4800_7O1
  /\ rs485_tx (snd (setupMasterflexRS485 settle w)) = rs485_tx w.
Proof. split; reflexivity. Qed.

Lemma bytes_head (c : ascii) (s : string) (size : N) :
  2 <= size -> hd_error (bytes (snprintf size (String c s))) = Some (byte_of_ascii c).
Proof.
  intro H. unfold snprintf. simpl.
  destruct (N.eqb_spec (size - 1) 0) as [E|_]; [lia|]. reflexivity.
Qed.

Ltac emits_on_step :=
  match goal with
  | |- emits_on _ _ (ret _) => apply emits_on_ret
  | |- emits_on _ _ (bind _ _) => apply emits_on_bind; [|intro]
  | |- emits_on _ _ (match ?x with _ => _ end) => destruct x
  | |- emits_on _ _ (RS485_write _) => apply emits_on_write
  | |- emits_on _ _ _ => apply emits_on_silent; solve [preserves_prim]
  end.

Ltac emits_on_body := autounfold with fw_ops; repeat emits_on_step.

Lemma valve_frame_entry (d : ViciDevice) (core : string) :
  valve_entry
    (Bus9600_8N1, bytes (snprintf 64 ("/" ++ String (viciId d) core ++ String CR ""))).
Proof. split; [reflexivity|]. apply bytes_head. lia. Qed.

Lemma pump_frame_entry (size : N) (s : string) :
  2 <= size -> pump_entry (Bus4800_7O1, bytes (snprintf size (String STX s))).
Proof. intro H. split; [reflexivity|]. left. now apply bytes_head. Qed.

Lemma enq_entry : pump_entry (Bus4800_7O1, [x05]).
Proof. split; [reflexivity | now right]. Qed.

Lemma Vici_sendCommand_emits (d : ViciDevice) (core : string) (resp : option N) :
  emits valve_entry (Vici.sendCommand d core resp).
Proof.
  unfold Vici.sendCommand.
  apply (emits_after_setup Bus9600_8N1); [apply setupViciRS485_sets | intro].
  emits_on_body. apply valve_frame_entry.
Qed.

Ltac emits_step :=
  match goal with
  | |- emits _ (ret _) => apply emits_ret
  | |- emits _ (Vici.sendCommand _ _ _) => apply Vici_sendCommand_emits
  | |- emits _ (bind (setupMasterflexRS485 _) _) =>
      apply (emits_after_setup Bus4800_7O1); [apply setupMasterflexRS485_sets | intro];
      emits_on_body
  | |- emits _ (bind _ _) => apply emits_bind; [|intro]
  | |- emits _ (match ?x with _ => _ end) => destruct x
  | |- emits _ _ => apply emits_silent; solve [preserves_prim]
  end.

Ltac pump_entries :=
  first [ apply enq_entry | apply pump_frame_entry; lia ].

Lemma Vici_processCommand_emits (d : ViciDevice) (command : string)
    (p1 p2 : option string) (n : N) :
  emits valve_entry (Vici.processCommand d command p1 p2 n).
Proof. unfold Vici.processCommand, Vici.failed. repeat emits_step. Qed.

Lemma Vici_getStatus_emits (d : ViciDevice) (n : N) :
  emits valve_entry (Vici.getStatus d n).
Proof. unfold Vici.getStatus. repeat emits_step. Qed.

Lemma Serial_Masterflex_emits (ff : FloatFormat) (d : MasterflexDevice)
    (command : string) (p1 p2 : option string) (n : N) :
  emits pump_entry (Serial.Masterflex_processCommand ff d command p1 p2 n).
Proof.
  unfold Serial.Masterflex_processCommand, Serial.initializePump, Serial_println.
  repeat emits_step; pump_entries.
Qed.

Lemma Ethernet_Masterflex_emits (ff : FloatFormat) (d : MasterflexDevice)
    (command : string) (p1 p2 : option string) (n : N) :
  emits pump_entry (Ethernet.Masterflex_processCommand ff d command p1 p2 n).
Proof.
  unfold Ethernet.Masterflex_processCommand. repeat emits_step; pump_entries.
Qed.

Lemma Serial_Masterflex_getStatus_emits (d : MasterflexDevice) (n : N) :
  emits pump_entry (Serial.Masterflex_getStatus d n).
Proof. unfold Serial.Masterflex_getStatus. repeat emits_step; pump_entries. Qed.

Lemma Ethernet_Masterflex_getStatus_emits (d : MasterflexDevice) (n : N) :
  emits pump_entry (Ethernet.Masterflex_getStatus d n).
Proof. unfold Ethernet.Masterflex_getStatus. repeat emits_step; pump_entries. Qed.

Lemma Relay_processCommand_emits (P : BusConfig * list byte -> Prop)
    (d : RelayDevice) (command : string) (p1 p2 : option string) (n : N) :
  emits P (Relay.processCommand d command p1 p2 n).
Proof. unfold Relay.processCommand. autounfold with fw_ops. repeat emits_step. Qed.

Lemma Relay_getStatus_emits (P : BusConfig * list byte -> Prop)
    (d : RelayDevice) (n : N) :
  emits P (Relay.getStatus d n).
Proof. unfold Relay.getStatus. repeat emits_step. Qed.

Lemma device_entry_bus (d : Device) (e : BusConfig * list byte) :
  device_entry d e -> bus_entry e.
Proof. destruct d; simpl; intro H; [contradiction | now left | now right]. Qed.

Lemma Serial_processCommand_emits (ff : FloatFormat) (d : Device)
    (command : string) (p1 p2 : option string) (n : N) :
  emits (device_entry d) (Serial.processCommand ff d command p1 p2 n).
Proof.
  destruct d as [r|v|m]; simpl; apply emits_bind;
    try (intros [[? ?] ?] || intros [? ?]; apply emits_ret).
  - apply Relay_processCommand_emits.
  - apply Vici_processCommand_emits.
  - apply Serial_Masterflex_emits.
Qed.

Lemma Ethernet_processCommand_emits (ff : FloatFormat) (d : Device)
    (command : string) (p1 p2 : option string) (n : N) :
  emits (device_entry d) (Ethernet.processCommand ff d command p1 p2 n).
Proof.
  destruct d as [r|v|m]; simpl; apply emits_bind;
    try (intros [[? ?] ?] || intros [? ?]; apply emits_ret).
  - apply Relay_processCommand_emits.
  - apply Vici_processCommand_emits.
  - apply Ethernet_Masterflex_emits.
Qed.

Lemma Serial_getStatus_emits (d : Device) (n : N) :
  emits (device_entry d) (Serial.getStatus d n).
Proof.
  destruct d as [r|v|m]; simpl.
  - apply Relay_getStatus_emits.
  - apply Vici_getStatus_emits.
  - apply Serial_Masterflex_getStatus_emits.
Qed.

Lemma Ethernet_getStatus_emits (d : Device) (n : N) :
  emits (device_entry d) (Ethernet.getStatus d n).
Proof.
  destruct d as [r|v|m]; simpl.
  - apply Relay_getStatus_emits.
  - apply Vici_getStatus_emits.
  - apply Ethernet_Masterflex_getStatus_emits.
Qed.

Lemma Serial_getAllStatus_loop_emits (l : list (option Device)) (n : N) :
  forall sb, emits bus_entry (Serial.getAllStatus_loop l n sb).
Proof.
  induction l as [|[d|] l IH]; intro sb; simpl.
  - apply emits_ret.
  - destruct (Device_enabled d); [|apply IH].
    apply emits_bind.
    + eapply emits_weaken; [apply (device_entry_bus d) | apply Serial_getStatus_emits].
    + intros [ok st]. destruct ok; apply IH.
  - apply IH.
Qed.

Lemma Ethernet_allStatus_loop_emits (l : list (option Device)) (max : N) :
  forall i out, emits bus_entry (Ethernet.allStatus_loop l i max out).
Proof.
  induction l as [|[d|] l IH]; intros i out; simpl.
  - apply emits_ret.
  - apply emits_bind.
    + eapply emits_weaken; [apply (device_entry_bus d) | apply Ethernet_getStatus_emits].
    + intros [ok st]. apply IH.
  - apply IH.
Qed.

Lemma println_all_emits (P : BusConfig * list byte -> Prop) (l : list string) :
  emits P (Serial.println_all l).
Proof.
  induction l as [|s l IH]; simpl; [apply emits_ret|].
  apply emits_bind; [|intro; exact IH].
  apply emits_silent. unfold Serial_println. preserves_prim.
Qed.

Lemma Serial_processSerialCommand_emits (ff : FloatFormat) (stray : Stray) (line : string)
    (dm : DeviceManager) :
  emits bus_entry (Serial.processSerialCommand ff stray line dm).
Proof.
  unfold Serial.processSerialCommand.
  destruct (equalsIgnoreCase (trim line) "STATUS").
  { apply emits_bind; [apply Serial_getAllStatus_loop_emits | intro].
    unfold Serial_println. repeat emits_step. }
  destruct (equalsIgnoreCase (trim line) "HELP").
  { apply emits_bind; [apply println_all_emits | intro; apply emits_ret]. }
  destruct (Serial.parseCommand stray (trim line)) as [[[deviceId command] param1] param2].
  destruct ((strlen deviceId =? 0) || (strlen command =? 0)).
  { unfold Serial_println. repeat emits_step. }
  destruct (findDevice dm deviceId) as [[i device]|].
  - apply emits_bind.
    + eapply emits_weaken; [apply (device_entry_bus device)
                           | apply Serial_processCommand_emits].
    + intros [[res msg] d']. unfold Serial_println. repeat emits_step.
  - unfold Serial_println. repeat emits_step.
Qed.

Lemma Ethernet_handleCommandString_emits (ff : FloatFormat) (stray : Stray) (line : string)
    (dm : DeviceManager) :
  emits bus_entry (Ethernet.handleCommandString ff stray line dm).
Proof.
  unfold Ethernet.handleCommandString.
  destruct (equalsIgnoreCase (trim line) "STATUS").
  { apply emits_bind; [apply Ethernet_allStatus_loop_emits | intro; apply emits_ret]. }
  destruct (equalsIgnoreCase (trim line) "HELP"); [apply emits_ret|].
  destruct (Ethernet.parseCommand stray (trim line)) as [[[deviceId command] param1] param2].
  destruct ((strlen deviceId =? 0) || (strlen command =? 0)); [apply emits_ret|].
  destruct (findDevice dm deviceId) as [[i device]|]; [|apply emits_ret].
  apply emits_bind.
  - eapply emits_weaken; [apply (device_entry_bus device)
                         | apply Ethernet_processCommand_emits].
  - intros [[res msg] d']. apply emits_ret.
Qed.

(** X13. Every frame goes out under the bus parameters of the device it
    is meant for, whatever state an earlier command left the shared bus
    in: a relay sends nothing, a valve only frames that start with a slash
    at 9600 8N1, a pump only STX frames or the ENQ byte at 4800 7O1.  This
    holds for the commands and the status queries of the devices, and so
    for every line either sketch handles; nothing already in the transmit
    log is changed. *)
Theorem X13_frames_use_device_bus (ff : FloatFormat) (stray : Stray) :
  (forall d command p1 p2 n,
      emits (device_entry d) (Serial.processCommand ff d command p1 p2 n)
      /\ emits (device_entry d) (Ethernet.processCommand ff d command p1 p2 n))
  /\ (forall d n,
         emits (device_entry d) (Serial.getStatus d n)
         /\ emits (device_entry d) (Ethernet.getStatus d n))
  /\ (forall line dm,
         emits bus_entry (Serial.processSerialCommand ff stray line dm)
         /\ emits bus_entry (Ethernet.handleCommandString ff stray line dm)).
Proof.
  split; [|split].
  - intros. split; [apply Serial_processCommand_emits
                   | apply Ethernet_processCommand_emits].
  - intros. split; [apply Serial_getStatus_emits | apply Ethernet_getStatus_emits].
  - intros. split; [apply Serial_processSerialCommand_emits
                   | apply Ethernet_handleCommandString_emits].
Qed.

(* ===================================================================== *)
(** ** The transport loops                                                *)
(* ===================================================================== *)

Lemma String_add_plain (s : string) (c : ascii) :
  Ascii.eqb c zero = false -> String_add s c = s ++ String c "".
Proof. intro H. unfold String_add. now rewrite H. Qed.

Lemma strlen_pos (s : string) : s <> "" -> (0 <? strlen s) = true.
Proof.
  intro H. apply N.ltb_lt.
  assert (strlen s <> 0) by (rewrite strlen_nil_iff; exact H). lia.
Qed.

Lemma Serial_read_plain (ff : FloatFormat) (stray : Stray) (line : string) :
  no_eol line = true -> no_nul line = true ->
  forall rest sb dm w,
    Serial_read_all ff stray (line ++ rest) sb dm w
    = Serial_read_all ff stray rest (sb ++ line) dm w.
Proof.
  induction line as [|c line IH]; intros He Hn rest sb dm w.
  - now rewrite append_nil_r.
  - simpl in He, Hn. apply andb_true_iff in He as [Hc He].
    apply andb_true_iff in Hn as [Hz Hn].
    apply negb_true_iff in Hc. apply negb_true_iff in Hz.
    cbn [append Serial_read_all]. unfold Serial.loop_char. rewrite Hc.
    rewrite (bind_run _ _ w (String_add sb c, dm) w) by reflexivity.
    rewrite IH by assumption. rewrite String_add_plain by assumption.
    now rewrite append_assoc.
Qed.

Lemma client_read_plain (ff : FloatFormat) (stray : Stray) (line : string) :
  no_eol line = true -> no_nul line = true ->
  forall rest cmd dm w,
    client_read_all ff stray (line ++ rest) cmd dm w
    = client_read_all ff stray rest (cmd ++ line) dm w.
Proof.
  induction line as [|c line IH]; intros He Hn rest cmd dm w.
  - now rewrite append_nil_r.
  - simpl in He, Hn. apply andb_true_iff in He as [Hc He].
    apply andb_true_iff in Hn as [Hz Hn].
    apply negb_true_iff in Hc. apply negb_true_iff in Hz.
    cbn [append client_read_all]. unfold Ethernet.client_char. rewrite Hc.
    rewrite (bind_run _ _ w (String_add cmd c, dm) w) by reflexivity.
    rewrite IH by assumption. rewrite String_add_plain by assumption.
    now rewrite append_assoc.
Qed.

Lemma Serial_read_eol (ff : FloatFormat) (stray : Stray) (c : ascii) (line rest : string)
    (dm : DeviceManager) (w : World) :
  is_eol c = true -> line <> "" ->
  Serial_read_all ff stray (String c rest) line dm w
  = Serial_read_all ff stray rest "" (fst (Serial.processSerialCommand ff stray line dm w))
      (snd (Serial.processSerialCommand ff stray line dm w)).
Proof.
  intros Hc Hl. cbn [Serial_read_all]. unfold Serial.loop_char.
  rewrite Hc, (strlen_pos _ Hl). unfold bind at 1 2.
  destruct (Serial.processSerialCommand ff stray line dm w) as [dm' w']. reflexivity.
Qed.

Lemma client_read_eol (ff : FloatFormat) (stray : Stray) (c : ascii) (line rest : string)
    (dm : DeviceManager) (w : World) :
  is_eol c = true -> line <> "" ->
  client_read_all ff stray (String c rest) line dm w
  = client_read_all ff stray rest ""
      (snd (fst (Ethernet.handleCommandString ff stray line dm w)))
      (snd (client_println (fst (fst (Ethernet.handleCommandString ff stray line dm w)))
              (snd (Ethernet.handleCommandString ff stray line dm w)))).
Proof.
  intros Hc Hl. cbn [client_read_all]. unfold Ethernet.client_char.
  rewrite Hc, (strlen_pos _ Hl). unfold bind at 1 2.
  destruct (Ethernet.handleCommandString ff stray line dm w) as [[resp dm'] w'].
  reflexivity.
Qed.

Lemma Serial_read_blank (ff : FloatFormat) (stray : Stray) (blank : string) :
  only_eol blank = true ->
  forall rest dm w,
    Serial_read_all ff stray (blank ++ rest) "" dm w = Serial_read_all ff stray rest "" dm w.
Proof.
  induction blank as [|c blank IH]; intros Hb rest dm w; [reflexivity|].
  simpl in Hb. apply andb_true_iff in Hb as [Hc Hb].
  cbn [append Serial_read_all]. unfold Serial.loop_char. rewrite Hc.
  change (0 <? strlen "") with false. cbv iota.
  rewrite (bind_run _ _ w ("", dm) w) by reflexivity. now apply IH.
Qed.

Lemma client_read_blank (ff : FloatFormat) (stray : Stray) (blank : string) :
  only_eol blank = true ->
  forall rest dm w,
    client_read_all ff stray (blank ++ rest) "" dm w = client_read_all ff stray rest "" dm w.
Proof.
  induction blank as [|c blank IH]; intros Hb rest dm w; [reflexivity|].
  simpl in Hb. apply andb_true_iff in Hb as [Hc Hb].
  cbn [append client_read_all]. unfold Ethernet.client_char. rewrite Hc.
  change (0 <? strlen "") with false. cbv iota.
  rewrite (bind_run _ _ w ("", dm) w) by reflexivity. now apply IH.
Qed.

(** X14. Framing of command lines by the two transports.  A line without
    NUL, carriage return or line feed, followed by any run of line ends
    (CR LF, a single LF, ...), is handed to the command handler exactly
    once and the buffer is left empty; the TCP client gets the answer as
    one line.  Until a line end arrives the serial sketch only buffers
    the text, across calls of [loop ()]; the Ethernet sketch drops an
    unterminated line when the client disconnects.  Blank lines do
    nothing. *)
Theorem X14_line_framing (ff : FloatFormat) (stray : Stray) (line ends : string)
    (dm : DeviceManager) (w : World)
    (Hplain : no_eol line = true) (Hnul : no_nul line = true)
    (Hline : line <> "") (Hends : only_eol ends = true) (Hend : ends <> "") :
  Serial_loop ff stray (line ++ ends) "" dm w
  = (("", fst (Serial.processSerialCommand ff stray line dm w)),
     snd (Serial.processSerialCommand ff stray line dm w))
  /\ Serial_loop ff stray line "" dm w = ((line, dm), w)
  /\ Serial_loop ff stray ends line dm w = Serial_loop ff stray (line ++ ends) "" dm w
  /\ Serial_loop ff stray ends "" dm w = (("", dm), w)
  /\ handleEthernetClient ff stray (line ++ ends) dm w
     = (snd (fst (Ethernet.handleCommandString ff stray line dm w)),
        snd (client_println (fst (fst (Ethernet.handleCommandString ff stray line dm w)))
               (snd (Ethernet.handleCommandString ff stray line dm w))))
  /\ handleEthernetClient ff stray line dm w = (dm, w)
  /\ handleEthernetClient ff stray ends dm w = (dm, w).
Proof.
  destruct ends as [|c ends]; [contradiction|].
  simpl in Hends. apply andb_true_iff in Hends as [Hc Hends].
  assert (Hs : forall dm0 w0, Serial_read_all ff stray ends "" dm0 w0 = (("", dm0), w0)).
  { intros. rewrite <- (append_nil_r ends).
    now rewrite Serial_read_blank. }
  assert (Ht : forall dm0 w0, client_read_all ff stray ends "" dm0 w0 = (("", dm0), w0)).
  { intros. rewrite <- (append_nil_r ends).
    now rewrite client_read_blank. }
  assert (H1 : Serial_read_all ff stray (line ++ String c ends) "" dm w
               = (("", fst (Serial.processSerialCommand ff stray line dm w)),
                  snd (Serial.processSerialCommand ff stray line dm w))).
  { rewrite Serial_read_plain by assumption. cbn [append].
    rewrite Serial_read_eol by assumption. apply Hs. }
  assert (H2 : Serial_read_all ff stray (String c ends) line dm w
               = Serial_read_all ff stray (line ++ String c ends) "" dm w).
  { now rewrite Serial_read_plain by assumption. }
  split; [|split; [|split; [|split; [|split; [|split]]]]].
  - unfold Serial_loop, bind. now rewrite H1.
  - unfold Serial_loop, bind. rewrite <- (append_nil_r line) at 1.
    now rewrite Serial_read_plain by assumption.
  - unfold Serial_loop, bind. now rewrite H2.
  - unfold Serial_loop, bind.
    change (String c ends) with (String c "" ++ ends).
    rewrite Serial_read_blank; [now rewrite Hs|].
    simpl. now rewrite Hc.
  - unfold handleEthernetClient, bind.
    rewrite client_read_plain by assumption. cbn [append].
    rewrite client_read_eol by assumption. now rewrite Ht.
  - unfold handleEthernetClient, bind. rewrite <- (append_nil_r line) at 1.
    now rewrite client_read_plain by assumption.
  - unfold handleEthernetClient, bind.
    change (String c ends) with (String c "" ++ ends).
    rewrite client_read_blank; [now rewrite Ht|].
    simpl. now rewrite Hc.
Qed.

Lemma X14_line_framing_witness :
  no_eol "REL_01:ON" = true /\ no_nul "REL_01:ON" = true
  /\ only_eol CRLF = true
  /\ Serial_loop echo_format no_stray CRLF "REL_01:ON" one_relay (power_on [])
     = Serial_loop echo_format no_stray ("REL_01:ON" ++ CRLF) "" one_relay (power_on [])
  /\ handleEthernetClient echo_format no_stray "REL_01:ON" one_relay (power_on [])
     = (one_relay, power_on []).
Proof.
  split; [reflexivity|]. split; [reflexivity|]. split; [reflexivity|].
  pose proof (X14_line_framing echo_format no_stray "REL_01:ON" CRLF one_relay (power_on [])
                eq_refl eq_refl ltac:(discriminate) eq_refl ltac:(discriminate))
    as (_ & _ & H3 & _ & _ & H6 & _).
  split; [exact H3 | exact H6].
Defined.

(* ===================================================================== *)
(** ** The registry under commands                                        *)
(* ===================================================================== *)

Lemma findDevice_slot (dm : DeviceManager) (deviceId : string) (i : nat) (d : Device) :
  findDevice dm deviceId = Some (i, d) -> nth_error (devices dm) i = Some (Some d).
Proof.
  intro H. unfold findDevice in H.
  destruct (find_loop_some _ _ _ _ _ H) as (_ & Hn & _).
  rewrite Nat.sub_0_r in Hn. unfold slots in Hn.
  rewrite nth_error_firstn in Hn.
  destruct (Nat.ltb_spec i (deviceCount dm)); [exact Hn | discriminate].
Qed.

Lemma store_same_identity (l : list (option Device)) (i : nat) (d d' : Device) :
  nth_error l i = Some (Some d) ->
  identity d' = identity d ->
  map (option_map identity) (store i (Some d') l) = map (option_map identity) l.
Proof.
  revert i. induction l as [|y l IH]; intros [|i] Hn Hi; simpl in *;
    try discriminate.
  - injection Hn as ->. simpl. now rewrite Hi.
  - f_equal. now apply IH.
Qed.

Lemma registry_store (dm : DeviceManager) (deviceId : string) (i : nat)
    (d d' : Device) :
  findDevice dm deviceId = Some (i, d) ->
  identity d' = identity d ->
  registry (mkManager (store i (Some d') (devices dm)) (deviceCount dm)) = registry dm.
Proof.
  intros Hf Hi. unfold registry. simpl. f_equal.
  eapply store_same_identity; [eapply findDevice_slot; exact Hf | exact Hi].
Qed.

Lemma find_loop_registry (l1 l2 : list (option Device)) (deviceId : string) :
  map (option_map identity) l1 = map (option_map identity) l2 ->
  forall i0,
    option_map (fun r => (fst r, identity (snd r))) (find_loop l1 i0 deviceId)
    = option_map (fun r => (fst r, identity (snd r))) (find_loop l2 i0 deviceId).
Proof.
  revert l2. induction l1 as [|s1 l1 IH]; intros [|s2 l2] H i0; simpl in H;
    try discriminate; [reflexivity|].
  injection H as Hs Hl. simpl.
  destruct s1 as [d1|], s2 as [d2|]; simpl in Hs; try discriminate.
  - injection Hs as Ht Hid Hen. rewrite Hid.
    destruct (strcaseeq (Device_id d2) deviceId); [|now apply IH].
    simpl. unfold identity. now rewrite Ht, Hid, Hen.
  - now apply IH.
Qed.

Lemma findDevice_registry (dm dm' : DeviceManager) (deviceId : string) :
  registry dm' = registry dm ->
  option_map (fun r => (fst r, identity (snd r))) (findDevice dm' deviceId)
  = option_map (fun r => (fst r, identity (snd r))) (findDevice dm deviceId).
Proof.
  unfold registry. intro H. injection H as Hd Hc.
  unfold findDevice, slots. apply find_loop_registry.
  rewrite <- !firstn_map, Hd, Hc. reflexivity.
Qed.

Lemma Relay_processCommand_identity (d : RelayDevice) (command : string)
    (p1 p2 : option string) (n : N) :
  returns (fun x => identity (DevRelay (snd x)) = identity (DevRelay d))
    (Relay.processCommand d command p1 p2 n).
Proof. unfold Relay.processCommand. returns_body; reflexivity. Qed.

Lemma pump_step_identity (d d' : MasterflexDevice) :
  pump_step d d' -> identity (DevMflex d') = identity (DevMflex d).
Proof. intros [->| ->]; reflexivity. Qed.

Lemma Serial_processCommand_identity (ff : FloatFormat) (d : Device)
    (command : string) (p1 p2 : option string) (n : N) :
  returns (fun x => identity (snd x) = identity d)
    (Serial.processCommand ff d command p1 p2 n).
Proof.
  destruct d as [r|v|m]; unfold Serial.processCommand.
  - apply (returns_bind_with _ _ _ _ (Relay_processCommand_identity r command p1 p2 n)).
    intros [[res msg] r'] H. apply returns_ret. exact H.
  - returns_body; reflexivity.
  - apply (returns_bind_with _ _ _ _ (Serial_pump_step ff m command p1 p2 n)).
    intros [[res msg] m'] H. apply returns_ret. now apply pump_step_identity.
Qed.

Lemma Ethernet_processCommand_identity (ff : FloatFormat) (d : Device)
    (command : string) (p1 p2 : option string) (n : N) :
  returns (fun x => identity (snd x) = identity d)
    (Ethernet.processCommand ff d command p1 p2 n).
Proof.
  destruct d as [r|v|m]; unfold Ethernet.processCommand.
  - apply (returns_bind_with _ _ _ _ (Relay_processCommand_identity r command p1 p2 n)).
    intros [[res msg] r'] H. apply returns_ret. exact H.
  - returns_body; reflexivity.
  - apply (returns_bind_with _ _ _ _ (Ethernet_pump_step ff m command p1 p2 n)).
    intros [[res msg] m'] H. apply returns_ret. now apply pump_step_identity.
Qed.

Lemma registry_processSerialCommand (ff : FloatFormat) (stray : Stray) (line : string)
    (dm : DeviceManager) :
  returns (fun dm' => registry dm' = registry dm)
    (Serial.processSerialCommand ff stray line dm).
Proof.
  unfold Serial.processSerialCommand.
  destruct (equalsIgnoreCase (trim line) "STATUS"); [returns_body; reflexivity|].
  destruct (equalsIgnoreCase (trim line) "HELP"); [returns_body; reflexivity|].
  destruct (Serial.parseCommand stray (trim line)) as [[[id c] p1] p2].
  destruct ((strlen id =? 0) || (strlen c =? 0)); [returns_body; reflexivity|].
  destruct (findDevice dm id) as [[i dev]|] eqn:Hf; [|returns_body; reflexivity].
  apply (returns_bind_with _ _ _ _
           (Serial_processCommand_identity ff dev c (Some p1) (Some p2) 256)).
  intros [[r msg] dev'] Hk. simpl in Hk.
  returns_body. eapply registry_store; eassumption.
Qed.

Lemma registry_handleCommandString (ff : FloatFormat) (stray : Stray) (line : string)
    (dm : DeviceManager) :
  returns (fun x => registry (snd x) = registry dm)
    (Ethernet.handleCommandString ff stray line dm).
Proof.
  unfold Ethernet.handleCommandString.
  destruct (equalsIgnoreCase (trim line) "STATUS"); [returns_body; reflexivity|].
  destruct (equalsIgnoreCase (trim line) "HELP"); [returns_body; reflexivity|].
  destruct (Ethernet.parseCommand stray (trim line)) as [[[id c] p1] p2].
  destruct ((strlen id =? 0) || (strlen c =? 0)); [returns_body; reflexivity|].
  destruct (findDevice dm id) as [[i dev]|] eqn:Hf; [|returns_body; reflexivity].
  apply (returns_bind_with _ _ _ _
           (Ethernet_processCommand_identity ff dev c (Some p1) (Some p2) 256)).
  intros [[r msg] dev'] Hk. simpl in Hk.
  returns_body. simpl. eapply registry_store; eassumption.
Qed.

Lemma registry_Serial_read_all (ff : FloatFormat) (stray : Stray) (input : string) :
  forall sb dm,
    returns (fun x => registry (snd x) = registry dm) (Serial_read_all ff stray input sb dm).
Proof.
  induction input as [|c input IH]; intros sb dm; cbn [Serial_read_all].
  - apply returns_ret. reflexivity.
  - apply (returns_bind_with (fun x => registry (snd x) = registry dm)).
    + unfold Serial.loop_char.
      destruct (is_eol c); [|apply returns_ret; reflexivity].
      destruct (0 <? strlen sb); [|apply returns_ret; reflexivity].
      apply (returns_bind_with _ _ _ _ (registry_processSerialCommand ff stray sb dm)).
      intros dm' H. apply returns_ret. exact H.
    + intros [sb' dm'] H. simpl in H. rewrite <- H. apply IH.
Qed.

Lemma registry_client_read_all (ff : FloatFormat) (stray : Stray) (input : string) :
  forall cmd dm,
    returns (fun x => registry (snd x) = registry dm) (client_read_all ff stray input cmd dm).
Proof.
  induction input as [|c input IH]; intros cmd dm; cbn [client_read_all].
  - apply returns_ret. reflexivity.
  - apply (returns_bind_with (fun x => registry (snd x) = registry dm)).
    + unfold Ethernet.client_char.
      destruct (is_eol c); [|apply returns_ret; reflexivity].
      destruct (0 <? strlen cmd); [|apply returns_ret; reflexivity].
      apply (returns_bind_with _ _ _ _ (registry_handleCommandString ff stray cmd dm)).
      intros [resp dm'] H. returns_body. exact H.
    + intros [cmd' dm'] H. simpl in H. rewrite <- H. apply IH.
Qed.

(** X15.  Commands never rearrange the registry.  Whatever line either
    handler is given, and whatever the devices answer, afterwards every
    slot holds a device of the same class, with the same id and the same
    [enabled] flag as before, and the number of devices is the same; this
    carries over to any stream of characters the transports read.  So a
    name finds its device in the same slot after the commands as before
    them. *)
Theorem X15_commands_keep_registry (ff : FloatFormat) (stray : Stray) (dm : DeviceManager) :
  (forall line,
      returns (fun dm' => registry dm' = registry dm)
        (Serial.processSerialCommand ff stray line dm)
      /\ returns (fun x => registry (snd x) = registry dm)
           (Ethernet.handleCommandString ff stray line dm))
  /\ (forall input buffer,
         returns (fun x => registry (snd x) = registry dm)
           (Serial_read_all ff stray input buffer dm)
         /\ returns (fun x => registry (snd x) = registry dm)
              (client_read_all ff stray input buffer dm))
  /\ (forall dm' deviceId,
         registry dm' = registry dm ->
         option_map (fun r => (fst r, identity (snd r))) (findDevice dm' deviceId)
         = option_map (fun r => (fst r, identity (snd r))) (findDevice dm deviceId)).
Proof.
  split; [|split].
  - intro line. split; [apply registry_processSerialCommand
                       | apply registry_handleCommandString].
  - intros input buffer. split; [apply registry_Serial_read_all
                                | apply registry_client_read_all].
  - intros dm' deviceId. apply findDevice_registry.
Qed.

(* ===================================================================== *)
(** ** The two sketches side by side                                      *)
(* ===================================================================== *)

Lemma bind_bind_run {A B C : Type} (m : M A) (k : A -> M B) (h : B -> M C)
    (w : World) :
  bind (bind m k) h w = bind m (fun a => bind (k a) h) w.
Proof. unfold bind. destruct (m w). reflexivity. Qed.

Lemma bind_ret_run {A B : Type} (a : A) (k : A -> M B) (w : World) :
  bind (ret a) k w = k a w.
Proof. reflexivity. Qed.

(** X16.  Apart from STATUS, HELP and the pump, the two sketches are the
    same controller behind two transports.  For a line without an inner
    line end whose tokens fit the arrays they are copied to (fewer than
    15 characters for the device id and the command, fewer than 31 for
    the parameters) and whose first token does not name a pump, the
    serial sketch prints exactly the answer the Ethernet sketch returns,
    followed by CR LF, and both leave the same registry and do the same
    to the outputs and to the bus, whatever the memory of either
    held. *)
Theorem X16_sketches_agree (ff : FloatFormat) (stray_s stray_e : Stray)
    (line : string) (dm : DeviceManager) (w : World)
    (Hkey : is_keyword line = false)
    (Hplain : no_eol (trim line) = true)
    (Hshort : short_tokens (strtok (trim line) "") = true)
    (Hpump : addresses_pump dm line = false) :
  Serial.processSerialCommand ff stray_s line dm w
  = (snd (fst (Ethernet.handleCommandString ff stray_e line dm w)),
     printed (fst (fst (Ethernet.handleCommandString ff stray_e line dm w)) ++ CRLF)
       (snd (Ethernet.handleCommandString ff stray_e line dm w))).
Proof.
  unfold is_keyword in Hkey. apply orb_false_iff in Hkey as [Hs Hh].
  unfold addresses_pump in Hpump.
  unfold Serial.processSerialCommand, Ethernet.handleCommandString.
  rewrite Hs, Hh.
  unfold Serial.parseCommand, Ethernet.parseCommand. cbv zeta.
  destruct (short_tokens_inv _ Hshort) as (H0 & H1 & H2 & H3).
  rewrite (cut_eol_id _ Hplain), !strncpy_into_short by assumption.
  destruct ((strlen (nth_token 0 (strtok (trim line) "")) =? 0)
            || (strlen (nth_token 1 (strtok (trim line) "")) =? 0)); [reflexivity|].
  destruct (findDevice dm (nth_token 0 (strtok (trim line) ""))) as [[i dev]|].
  - destruct dev as [r|v|m]; [| |discriminate].
    + unfold Serial.processCommand, Ethernet.processCommand.
      destruct (Relay.processCommand r (nth_token 1 (strtok (trim line) ""))
                  (Some (nth_token 2 (strtok (trim line) "")))
                  (Some (nth_token 3 (strtok (trim line) ""))) 256 w)
        as [[[res msg] r'] w1] eqn:E.
      rewrite !bind_bind_run, !(bind_run _ _ _ _ _ E), !bind_ret_run.
      cbv beta iota. rewrite print_println_ret. cbn [fst snd ret].
      now rewrite append_assoc.
    + unfold Serial.processCommand, Ethernet.processCommand.
      destruct (Vici.processCommand v (nth_token 1 (strtok (trim line) ""))
                  (Some (nth_token 2 (strtok (trim line) "")))
                  (Some (nth_token 3 (strtok (trim line) ""))) 256 w)
        as [[res msg] w1] eqn:E.
      rewrite !bind_bind_run, !(bind_run _ _ _ _ _ E), !bind_ret_run.
      cbv beta iota. rewrite print_println_ret. cbn [fst snd ret].
      now rewrite append_assoc.
  - rewrite print_println_ret. cbn [fst snd ret]. now rewrite append_assoc.
Qed.

Lemma X16_sketches_agree_witness :
  is_keyword "rel_01:toggle" = false
  /\ no_eol (trim "rel_01:toggle") = true
  /\ short_tokens (strtok (trim "rel_01:toggle") "") = true
  /\ addresses_pump one_relay "rel_01:toggle" = false
  /\ Serial.processSerialCommand echo_format some_stray "rel_01:toggle" one_relay
       (power_on [])
     = (snd (fst (Ethernet.handleCommandString echo_format no_stray "rel_01:toggle"
                    one_relay (power_on []))),
        printed (fst (fst (Ethernet.handleCommandString echo_format no_stray
                             "rel_01:toggle" one_relay (power_on []))) ++ CRLF)
          (snd (Ethernet.handleCommandString echo_format no_stray "rel_01:toggle"
                  one_relay (power_on [])))).
Proof.
  split; [reflexivity|]. split; [reflexivity|]. split; [reflexivity|].
  split; [reflexivity|].
  exact (X16_sketches_agree echo_format some_stray no_stray "rel_01:toggle" one_relay
           (power_on []) eq_refl eq_refl eq_refl eq_refl).
Defined.

(* ===================================================================== *)
(** ** Masterflex pump: asking for the status                             *)
(* ===================================================================== *)

Lemma Serial_query_run {B : Type} (d : MasterflexDevice) (core : string)
    (maxLen timeout : N) (k : ResponseType * string -> M B) (w : World) :
  strlen (pumpId d) <= 3 -> strlen core <= 31 ->
  rs485_cfg w = Bus4800_7O1 ->
  bind (sendMasterflexFrame d core)
    (fun _ => bind (Serial.readMasterflexResponse maxLen timeout) k) w
  = k (Serial_classify maxLen (window 0 w), Serial_payload maxLen (window 0 w))
      (after_pump_transaction (pump_frame d core) w).
Proof.
  intros H1 H2 Hc. unfold sendMasterflexFrame.
  rewrite pump_frame_fits by assumption.
  unfold Serial.readMasterflexResponse, Serial_classify, Serial_payload, window, bind,
    rx_window, after_pump_transaction, pump_frame. simpl. rewrite Hc.
  destruct (rs485_rx w) as [|r rest]; simpl; [reflexivity|].
  destruct (Serial.readMasterflexResponse_scan r maxLen []) as [t b]. reflexivity.
Qed.

Lemma Ethernet_query_run {B : Type} (d : MasterflexDevice) (core : string)
    (maxLen timeout : N) (k : ResponseType * string -> M B) (w : World) :
  strlen (pumpId d) <= 3 -> strlen core <= 31 ->
  rs485_cfg w = Bus4800_7O1 ->
  bind (sendMasterflexFrame d core)
    (fun _ => bind (Ethernet.readMasterflexResponse maxLen timeout) k) w
  = k (Ethernet_classify maxLen (window 0 w), Ethernet_payload maxLen (window 0 w))
      (after_pump_transaction (pump_frame d core) w).
Proof.
  intros H1 H2 Hc. unfold sendMasterflexFrame.
  rewrite pump_frame_fits by assumption.
  unfold Ethernet.readMasterflexResponse, Ethernet_classify, Ethernet_payload, window,
    bind, rx_window, after_pump_transaction, pump_frame. simpl. rewrite Hc.
  destruct (rs485_rx w) as [|r rest]; simpl; [reflexivity|].
  destruct (Ethernet.readMasterflexResponse_scan r maxLen []) as [t b]. reflexivity.
Qed.

(** With room for one character or more, the size of the buffer does not
    change how the Ethernet reader classifies an answer. *)
Lemma Ethernet_scan_size (rx : list byte) (m1 m2 : N) :
  2 <= m1 -> 2 <= m2 ->
  forall b1 b2,
    blen b1 < m1 -> blen b2 < m2 ->
    ((0 <? blen b1) = (0 <? blen b2)) ->
    fst (Ethernet.readMasterflexResponse_scan rx m1 b1)
    = fst (Ethernet.readMasterflexResponse_scan rx m2 b2).
Proof.
  intros H1 H2. induction rx as [|b rx IH]; intros b1 b2 L1 L2 Hb; simpl;
    [reflexivity|].
  destruct (Byte.eqb b x06); [reflexivity|].
  destruct (Byte.eqb b x15); [reflexivity|].
  destruct (Byte.eqb b x0d); [simpl; now rewrite Hb|].
  destruct (Byte.eqb b x0a); [now apply IH|].
  assert (Hs : forall l : list byte, blen (l ++ [b]) = blen l + 1).
  { intro l. rewrite blen_app. reflexivity. }
  assert (Hp : forall l : list byte, (0 <? blen (l ++ [b])) = true).
  { intro l. rewrite Hs. apply N.ltb_lt. lia. }
  destruct (N.ltb_spec (blen b1 + 1) m1), (N.ltb_spec (blen b2 + 1) m2).
  - apply IH; [rewrite Hs; lia | rewrite Hs; lia | now rewrite !Hp].
  - apply IH; [rewrite Hs; lia | lia |].
    rewrite Hp. symmetry. apply N.ltb_lt. lia.
  - apply IH; [lia | rewrite Hs; lia |].
    rewrite Hp. apply N.ltb_lt. lia.
  - now apply IH.
Qed.

Lemma Ethernet_classify_size (rx : list byte) (m1 m2 : N) :
  2 <= m1 -> 2 <= m2 -> Ethernet_classify m1 rx = Ethernet_classify m2 rx.
Proof.
  intros H1 H2. unfold Ethernet_classify.
  apply Ethernet_scan_size; try assumption; try reflexivity;
    change (blen []) with 0; lia.
Qed.

(** X17.  Asking a pump for its status.  A pump that is not initialized
    is reported as NOT_INIT by [getStatus] without any use of the bus.
    For an initialized pump both the STATUS command and [getStatus] run
    one transaction with the frame [<STX>P<id>I<CR>], and they agree: the
    command answers [CMD_DATA], with the text received, exactly when
    [getStatus] reports ACTIVE, that is when the answer is classified as
    a line; otherwise the command fails and [getStatus] reports
    UNKNOWN. *)
Theorem X17_pump_status (ff : FloatFormat) (d : MasterflexDevice)
    (command : string) (p1 p2 : option string) (n : N) (w : World)
    (Hcmd : strcaseeq command "STATUS" = true)
    (Hid : strlen (pumpId d) <= 3) :
  (initialized d = false ->
   Serial.Masterflex_getStatus d n w
   = (true, snprintf n (mflex_id d ++ ":NOT_INIT"), w)
   /\ Ethernet.Masterflex_getStatus d n w
      = (true, snprintf n (mflex_id d ++ ":NOT_INIT"), w))
  /\ (initialized d = true ->
      let line_s := ResponseType_eqb (Serial_classify 128 (window 0 w)) RESP_LINE in
      let line_e := ResponseType_eqb (Ethernet_classify 128 (window 0 w)) RESP_LINE in
      let w' := after_pump_transaction (pump_frame d "I") w in
      Serial.Masterflex_getStatus d n w
      = (true,
         snprintf n (mflex_id d ++ (if line_s then ":ACTIVE" else ":UNKNOWN")), w')
      /\ Serial.Masterflex_processCommand ff d command p1 p2 n w
         = (if line_s
            then (CMD_DATA,
                  snprintf n ("Masterflex " ++ mflex_id d ++ " status: "
                              ++ Serial_payload 128 (window 0 w)))
            else Serial.Masterflex_failed command n,
            d, w')
      /\ Ethernet.Masterflex_getStatus d n w
         = (true,
            snprintf n (mflex_id d ++ (if line_e then ":ACTIVE" else ":UNKNOWN")), w')
      /\ Ethernet.Masterflex_processCommand ff d command p1 p2 n w
         = (if line_e
            then (CMD_DATA,
                  snprintf n ("Masterflex " ++ mflex_id d ++ " status: "
                              ++ Ethernet_payload 128 (window 0 w)))
            else Ethernet.Masterflex_failed command n,
            d, w')).
Proof.
  split.
  - intro Hi. unfold Serial.Masterflex_getStatus, Ethernet.Masterflex_getStatus.
    rewrite Hi. split; reflexivity.
  - intro Hi. cbv zeta. split; [|split; [|split]].
    + unfold Serial.Masterflex_getStatus. rewrite Hi. cbv [negb].
      rewrite setupMasterflexRS485_then.
      rewrite Serial_query_run by (try assumption; try reflexivity; simpl; lia).
      rewrite window_with_cfg.
      destruct (ResponseType_eqb (Serial_classify 128 (window 0 w)) RESP_LINE);
        reflexivity.
    + unfold Serial.Masterflex_processCommand. rewrite Hi.
      command_is Hcmd. cbv [orb negb].
      rewrite setupMasterflexRS485_then.
      rewrite Serial_query_run by (try assumption; try reflexivity; simpl; lia).
      rewrite !window_with_cfg.
      destruct (ResponseType_eqb (Serial_classify 128 (window 0 w)) RESP_LINE);
        reflexivity.
    + unfold Ethernet.Masterflex_getStatus. rewrite Hi. cbv [negb].
      rewrite setupMasterflexRS485_then.
      rewrite Ethernet_query_run by (try assumption; try reflexivity; simpl; lia).
      rewrite window_with_cfg.
      rewrite (Ethernet_classify_size _ 64 128) by lia.
      destruct (ResponseType_eqb (Ethernet_classify 128 (window 0 w)) RESP_LINE);
        reflexivity.
    + unfold Ethernet.Masterflex_processCommand.
      rewrite setupMasterflexRS485_then.
      command_is Hcmd. cbv [orb].
      rewrite Ethernet_query_run by (try assumption; try reflexivity; simpl; lia).
      rewrite !window_with_cfg.
      destruct (ResponseType_eqb (Ethernet_classify 128 (window 0 w)) RESP_LINE);
        reflexivity.
Qed.

Lemma X17_pump_status_witness :
  strcaseeq "status" "STATUS" = true
  /\ strlen (pumpId MFLEX_01) <= 3
  /\ Ethernet.Masterflex_getStatus MFLEX_01 64 (power_on [[x06]])
     = (true, snprintf 64 (mflex_id MFLEX_01 ++ ":NOT_INIT"), power_on [[x06]]).
Proof.
  assert (Hle : strlen (pumpId MFLEX_01) <= 3) by (intro H; discriminate H).
  split; [reflexivity|]. split; [exact Hle|].
  exact (proj2 (proj1 (X17_pump_status echo_format MFLEX_01 "status" None None 64
                         (power_on [[x06]]) eq_refl Hle) eq_refl)).
Defined.

(* ===================================================================== *)
(** ** VICI valve: reading an answer                                      *)
(* ===================================================================== *)

Lemma blen_pos_not_nil (l : list byte) : (0 <? blen l) = negb (is_nil l).
Proof. destruct l; reflexivity. Qed.

Lemma readLine_scan_spec (rx : list byte) (max : N) :
  forall out,
    Vici.readLine_scan rx max out
    = (0 <? blen (out ++ firstn (N.to_nat (max - 1) - List.length out)
                          (drop_lf (before_cr rx))),
       (out ++ firstn (N.to_nat (max - 1) - List.length out)
                 (drop_lf (before_cr rx)))%list).
Proof.
  induction rx as [|b rx IH]; intro out; simpl.
  - now rewrite firstn_nil, app_nil_r.
  - destruct (Byte.eqb b x0d) eqn:Ecr.
    + simpl. now rewrite firstn_nil, app_nil_r.
    + simpl. destruct (Byte.eqb b x0a) eqn:Elf; simpl; [apply IH|].
      unfold blen at 1. destruct (N.ltb_spec (N.of_nat (List.length out) + 1) max).
      * rewrite IH. rewrite length_app. simpl.
        replace (N.to_nat (max - 1) - List.length out)%nat
          with (S (N.to_nat (max - 1) - (List.length out + 1)))%nat by lia.
        simpl. now rewrite <- !app_assoc.
      * rewrite IH.
        replace (N.to_nat (max - 1) - List.length out)%nat with 0%nat by lia.
        reflexivity.
Qed.

Lemma drop_lf_only_lf (l : list byte) : forallb is_lf l = true -> drop_lf l = [].
Proof.
  induction l as [|b l IH]; intro Hl; [reflexivity|].
  simpl in Hl. apply andb_true_iff in Hl as [Hb Hl]. unfold is_lf in Hb.
  simpl. rewrite Hb. simpl. now apply IH.
Qed.

(** X18.  What the valve reader makes of an answer, whatever bytes
    arrive: the text is what came before the first carriage return, with
    the line feeds left out, clipped to what the buffer holds; the call
    succeeds exactly when that text is not empty.  So bytes after the
    carriage return never matter, an answer that is too long is clipped
    rather than refused, and an answer of line ends only, or any answer
    into a buffer of one byte, counts as no answer.  The window is used
    up in every case. *)
Theorem X18_valve_readLine (max totalTO gapTO : N) (w : World) :
  Vici.readLine max totalTO gapTO w
  = (negb (is_nil (clip max (drop_lf (before_cr (window 0 w))))),
     cstr (clip max (drop_lf (before_cr (window 0 w)))),
     snd (rx_window w))
  /\ (forall payload tail,
        before_cr (payload ++ x0d :: tail) = before_cr payload)
  /\ (max <= 1 -> fst (fst (Vici.readLine max totalTO gapTO w)) = false)
  /\ (forallb is_lf (before_cr (window 0 w)) = true ->
      fst (fst (Vici.readLine max totalTO gapTO w)) = false).
Proof.
  assert (H : Vici.readLine max totalTO gapTO w
              = (negb (is_nil (clip max (drop_lf (before_cr (window 0 w))))),
                 cstr (clip max (drop_lf (before_cr (window 0 w)))),
                 snd (rx_window w))).
  { unfold Vici.readLine, bind, rx_window, window, clip.
    destruct (rs485_rx w) as [|r rest]; simpl.
    - rewrite firstn_nil. reflexivity.
    - rewrite readLine_scan_spec. simpl. rewrite Nat.sub_0_r.
      now rewrite blen_pos_not_nil. }
  split; [exact H|]. split; [|split].
  - intros payload tail. induction payload as [|b l IH]; simpl.
    + reflexivity.
    + destruct (Byte.eqb b x0d); [reflexivity | now rewrite IH].
  - intro Hm. rewrite H. cbn [fst]. unfold clip.
    replace (N.to_nat (max - 1)) with 0%nat by lia. reflexivity.
  - intro Hl. rewrite H. cbn [fst].
    rewrite (drop_lf_only_lf _ Hl). unfold clip. now rewrite firstn_nil.
Qed.

Lemma X18_valve_readLine_witness :
  1 <= 1
  /\ fst (fst (Vici.readLine 1 600 80 (power_on [[x41; x0d]]))) = false.
Proof.
  split; [apply N.le_refl|].
  exact (proj1 (proj2 (proj2 (X18_valve_readLine 1 600 80 (power_on [[x41; x0d]]))))
           (N.le_refl 1)).
Defined.

(* ===================================================================== *)
(** ** After [setup ()]                                                   *)
(* ===================================================================== *)

(** X19.  What [setup ()] leaves behind, whatever the state of the board
    before ([setup ()] of the serial sketch, the registrations of
    [setup ()] in the Ethernet sketch).  Both register the same six devices, REL_01 to
    REL_04, VICI_01 and MFLEX_01, in this order and all enabled, with
    every relay off and the pump not initialized; the registry is well
    formed.  Every relay pin and indicator is an output and low.  The bus
    has not been used: its parameters, the pending answers and the
    transmit log are as they were. *)
Theorem X19_setup (w : World) :
  let dm := fst (Serial.setup w) in
  let ws := snd (Serial.setup w) in
  let we := snd (Ethernet.setup_devices w) in
  fst (Ethernet.setup_devices w) = dm
  /\ deviceCount dm = 6%nat
  /\ map (option_map identity) (slots dm) = map Some boot_identities
  /\ forallb (fun s => match s with Some d => at_rest d | None => false end)
       (slots dm) = true
  /\ manager_ok dm
  /\ (forall q, gpio_mode ws q = OUTPUT /\ gpio_level ws q = LOW
                /\ gpio_mode we q = OUTPUT /\ gpio_level we q = LOW)
  /\ rs485_cfg ws = rs485_cfg w /\ rs485_rx ws = rs485_rx w
  /\ rs485_tx ws = rs485_tx w
  /\ rs485_cfg we = rs485_cfg w /\ rs485_rx we = rs485_rx w
  /\ rs485_tx we = rs485_tx w.
Proof.
  cbv zeta.
  split; [reflexivity|]. split; [reflexivity|]. split; [reflexivity|].
  split; [reflexivity|].
  split.
  { split; [reflexivity|]. split; [|reflexivity].
    change (deviceCount (fst (Serial.setup w))) with 6%nat.
    unfold MAX_DEVICES. lia. }
  split.
  { intro q. destruct q; repeat split; reflexivity. }
  repeat split; reflexivity.
Qed.

Lemma X15_commands_keep_registry_witness :
  registry (fst (Serial.processSerialCommand echo_format no_stray "REL_01:TOGGLE" one_relay
                   (power_on [])))
  = registry one_relay
  /\ option_map (fun r => (fst r, identity (snd r)))
       (findDevice (fst (Serial.processSerialCommand echo_format no_stray "REL_01:TOGGLE"
                           one_relay (power_on []))) "rel_01")
     = option_map (fun r => (fst r, identity (snd r))) (findDevice one_relay "rel_01").
Proof.
  split; [reflexivity|].
  exact (proj2 (proj2 (X15_commands_keep_registry echo_format no_stray one_relay)) _ "rel_01"
           eq_refl).
Defined.

(* ===================================================================== *)
(** ** Device names and the 12 bytes of [id]                              *)
(* ===================================================================== *)

Lemma Relay_new_id (name : string) (relayNum : N) :
  relay_id (Relay.new name relayNum) = copy_id name.
Proof.
  unfold Relay.new.
  match goal with
  | |- context [let '(_, _) := ?x in _] => destruct x
  end.
  reflexivity.
Qed.

Lemma constructed_id (name : string) (d : Device) :
  constructed name d -> Device_id d = take 11 name.
Proof.
  intros [[k ->] | [[v ->] | [pid ->]]]; simpl;
    [apply Relay_new_id | reflexivity | reflexivity].
Qed.

(** X20.  A device is known by the first 11 characters of the name it was
    constructed with.  It answers to that name, in any case, when the name
    has at most 11 characters; a longer name is cut, so the device answers
    to the first 11 characters of it and never to the name itself.  No
    constructed device answers to a name of more than 11 characters, and
    a manager of such devices finds none under it. *)
Theorem X20_device_names (name : string) (d : Device) (Hd : constructed name d) :
  Device_id d = take 11 name
  /\ answers_to (take 11 name) (Some d) = true
  /\ (strlen name <= 11 -> answers_to name (Some d) = true)
  /\ (forall token, 11 < strlen token -> answers_to token (Some d) = false)
  /\ (forall dm token,
        11 < strlen token ->
        (forall d', In (Some d') (slots dm) -> exists name', constructed name' d') ->
        findDevice dm token = None).
Proof.
  pose proof (constructed_id _ _ Hd) as Hid.
  assert (Hlong : forall name' d' token,
             constructed name' d' -> 11 < strlen token ->
             strcaseeq (Device_id d') token = false).
  { intros name' d' token Hd' Ht.
    destruct (strcaseeq (Device_id d') token) eqn:E; [|reflexivity].
    apply strcaseeq_len in E. rewrite (constructed_id _ _ Hd') in E.
    pose proof (strlen_take_le 11 name'). lia. }
  split; [exact Hid|]. split; [|split; [|split]].
  - simpl. rewrite Hid. apply strcaseeq_refl.
  - intro Hn. simpl. rewrite Hid, take_all by assumption. apply strcaseeq_refl.
  - intros token Ht. simpl. eapply Hlong; eassumption.
  - intros dm token Ht Hall. unfold findDevice. apply find_loop_none.
    apply forallb_forall. intros [d'|] Hin; [|reflexivity].
    destruct (Hall d' Hin) as [name' Hd']. simpl.
    now rewrite (Hlong name' d' token Hd' Ht).
Qed.

Lemma X20_device_names_witness :
  constructed "PUMP_STATION_1" (DevMflex (new_Masterflex "PUMP_STATION_1" "02"))
  /\ 11 < strlen "PUMP_STATION_1"
  /\ answers_to "PUMP_STATION_1" (Some (DevMflex (new_Masterflex "PUMP_STATION_1" "02")))
     = false
  /\ answers_to "pump_statio" (Some (DevMflex (new_Masterflex "PUMP_STATION_1" "02")))
     = true.
Proof.
  assert (Hc : constructed "PUMP_STATION_1"
                 (DevMflex (new_Masterflex "PUMP_STATION_1" "02")))
    by (right; right; exists "02"; reflexivity).
  split; [exact Hc|]. split; [reflexivity|].
  pose proof (X20_device_names "PUMP_STATION_1" _ Hc) as (_ & _ & _ & H & _).
  split; [apply H; reflexivity | reflexivity].
Defined.

(* ===================================================================== *)
(** ** Masterflex pump: SPEED                                             *)
(* ===================================================================== *)

Lemma Serial_speed_run (ff : FloatFormat) (d : MasterflexDevice) (command p : string)
    (p2 : option string) (n : N) (w : World) :
  strcaseeq command "SPEED" = true -> initialized d = true ->
  strlen (pumpId d) <= 3 ->
  Serial.Masterflex_processCommand ff d command (Some p) p2 n w
  = let sign := match p2 with
                | Some (String c _) => if Ascii.eqb c "-" then "-"%char else "+"%char
                | _ => "+"%char
                end in
    (if ResponseType_eqb (Serial_classify 128 (window 0 w)) RESP_ACK
     then (CMD_OK,
           snprintf n ("Masterflex " ++ mflex_id d ++ " speed set to "
                       ++ String sign (fmt_1f ff p) ++ " RPM"))
     else Serial.Masterflex_failed command n,
     d,
     after_pump_transaction
       (pump_frame d
          (snprintf 32 ("S" ++ String sign
                          (if ge_1000 ff p then fmt_04d ff p else fmt_06_1f ff p))))
       w).
Proof.
  intros Hcmd Hi Hid. unfold Serial.Masterflex_processCommand. rewrite Hi.
  command_is Hcmd. cbv [negb]. rewrite setupMasterflexRS485_then. cbv zeta.
  destruct (ge_1000 ff p);
    (rewrite Serial_ack_command_run;
     [ rewrite window_with_cfg; reflexivity
     | assumption
     | match goal with
       | |- strlen (snprintf 32 ?s) <= 31 =>
           pose proof (strlen_snprintf_le 32 s); lia
       end
     | reflexivity ]).
Qed.

Lemma Ethernet_speed_run (ff : FloatFormat) (d : MasterflexDevice) (command p : string)
    (p2 : option string) (n : N) (w : World) :
  strcaseeq command "SPEED" = true ->
  strlen (pumpId d) <= 3 ->
  Ethernet.Masterflex_processCommand ff d command (Some p) p2 n w
  = let sign := match p2 with
                | Some (String c _) => c
                | _ => "+"%char
                end in
    (if ResponseType_eqb (Ethernet_classify 128 (window 0 w)) RESP_ACK
     then (CMD_OK,
           snprintf n ("Masterflex " ++ mflex_id d ++ " speed set to "
                       ++ String sign (fmt_1f ff p) ++ " RPM"))
     else Ethernet.Masterflex_failed command n,
     d,
     after_pump_transaction
       (pump_frame d
          (snprintf 32 ("S" ++ String sign
                          (if ge_1000 ff p then fmt_04d ff p else fmt_06_1f ff p))))
       w).
Proof.
  intros Hcmd Hid. unfold Ethernet.Masterflex_processCommand.
  rewrite setupMasterflexRS485_then. command_is Hcmd. cbv zeta.
  destruct (ge_1000 ff p);
    (rewrite Ethernet_ack_command_run;
     [ rewrite window_with_cfg; reflexivity
     | assumption
     | match goal with
       | |- strlen (snprintf 32 ?s) <= 31 =>
           pose proof (strlen_snprintf_le 32 s); lia
       end
     | reflexivity ]).
Qed.

(** X21.  SPEED with a value runs one transaction with the frame
    [<STX>P<id>S<sign><digits><CR>] and answers [CMD_OK], naming the sign
    and the speed, exactly when the pump answers with an ACK.  In the
    serial sketch (where the pump must be initialized) the sign is always
    a plus or a minus: a minus when the second parameter starts with one,
    a plus in every other case.  The Ethernet sketch sends the first
    character of the second parameter as it is, whatever it is, and a
    plus when there is none. *)
Theorem X21_pump_speed (ff : FloatFormat) (d : MasterflexDevice) (command p : string)
    (p2 : option string) (n : N) (w : World)
    (Hcmd : strcaseeq command "SPEED" = true)
    (Hid : strlen (pumpId d) <= 3) :
  let digits := if ge_1000 ff p then fmt_04d ff p else fmt_06_1f ff p in
  let answer (ack : bool) (failed : CommandResult * string) (sign : ascii) :=
    if ack
    then (CMD_OK,
          snprintf n ("Masterflex " ++ mflex_id d ++ " speed set to "
                      ++ String sign (fmt_1f ff p) ++ " RPM"))
    else failed in
  (initialized d = true ->
   exists sign,
     (sign = "+"%char \/ sign = "-"%char)
     /\ (sign = "-"%char <-> exists rest, p2 = Some (String "-" rest))
     /\ Serial.Masterflex_processCommand ff d command (Some p) p2 n w
        = (answer (ResponseType_eqb (Serial_classify 128 (window 0 w)) RESP_ACK)
             (Serial.Masterflex_failed command n) sign,
           d,
           after_pump_transaction
             (pump_frame d (snprintf 32 ("S" ++ String sign digits))) w))
  /\ (exists sign,
        (forall c rest, p2 = Some (String c rest) -> sign = c)
        /\ (p2 = None \/ p2 = Some "" -> sign = "+"%char)
        /\ Ethernet.Masterflex_processCommand ff d command (Some p) p2 n w
           = (answer (ResponseType_eqb (Ethernet_classify 128 (window 0 w)) RESP_ACK)
                (Ethernet.Masterflex_failed command n) sign,
              d,
              after_pump_transaction
                (pump_frame d (snprintf 32 ("S" ++ String sign digits))) w)).
Proof.
  cbv zeta. split.
  - intro Hi. rewrite (Serial_speed_run ff d command p p2 n w Hcmd Hi Hid). cbv zeta.
    destruct p2 as [[|c rest]|].
    + exists "+"%char. split; [now left|]. split; [|reflexivity].
      split; [discriminate | intros [r Hr]; discriminate].
    + destruct (Ascii.eqb c "-") eqn:E.
      * apply Ascii.eqb_eq in E. subst c. exists "-"%char.
        split; [now right|]. split; [|reflexivity].
        split; [intros _; now exists rest | reflexivity].
      * exists "+"%char. split; [now left|]. split; [|reflexivity].
        split; [discriminate|]. intros [r Hr]. injection Hr as Hc _. subst c.
        discriminate E.
    + exists "+"%char. split; [now left|]. split; [|reflexivity].
      split; [discriminate | intros [r Hr]; discriminate].
  - rewrite (Ethernet_speed_run ff d command p p2 n w Hcmd Hid). cbv zeta.
    destruct p2 as [[|c rest]|].
    + exists "+"%char. split; [intros ? ? H; discriminate|]. split; reflexivity.
    + exists c. split; [now intros ? ? [= -> _]|].
      split; [intros [H|H]; discriminate | reflexivity].
    + exists "+"%char. split; [intros ? ? H; discriminate|]. split; reflexivity.
Qed.

Lemma X21_pump_speed_witness :
  strcaseeq "speed" "SPEED" = true
  /\ strlen (pumpId MFLEX_01) <= 3
  /\ fst (fst (fst (Ethernet.Masterflex_processCommand echo_format MFLEX_01 "speed"
                      (Some "100.0") (Some "-") 256 (power_on [[x06]]))))
     = CMD_OK.
Proof.
  assert (Hle : strlen (pumpId MFLEX_01) <= 3) by (intro H; discriminate H).
  split; [reflexivity|]. split; [exact Hle|].
  pose proof (X21_pump_speed echo_format MFLEX_01 "speed" "100.0" (Some "-") 256
                (power_on [[x06]]) eq_refl Hle) as [_ (sign & _ & _ & H)].
  rewrite H. reflexivity.
Defined.

(* ===================================================================== *)
(** ** Masterflex pump: the text of an answer                             *)
(* ===================================================================== *)

Lemma firstn_step (cap : nat) (out : list byte) (b : byte) (l : list byte) :
  (List.length out < cap)%nat ->
  (out ++ firstn (cap - List.length out) (b :: l))%list
  = ((out ++ [b]) ++ firstn (cap - List.length (out ++ [b])) l)%list.
Proof.
  intro H. rewrite length_app. simpl.
  replace (cap - List.length out)%nat
    with (S (cap - (List.length out + 1)))%nat by lia.
  simpl. now rewrite <- app_assoc.
Qed.

Lemma firstn_full (cap : nat) (out : list byte) (l l' : list byte) :
  (cap <= List.length out)%nat ->
  (out ++ firstn (cap - List.length out) l)%list
  = (out ++ firstn (cap - List.length out) l')%list.
Proof.
  intro H. replace (cap - List.length out)%nat with 0%nat by lia. reflexivity.
Qed.

Lemma Serial_scan_stores (maxLen : N) (pre rest : list byte) :
  forallb plain pre = true ->
  forall buffer,
    Serial.readMasterflexResponse_scan (pre ++ rest) maxLen buffer
    = Serial.readMasterflexResponse_scan rest maxLen
        (buffer ++ firstn (N.to_nat (maxLen - 1) - List.length buffer) pre).
Proof.
  induction pre as [|b pre IH]; intros Hp buffer.
  - now rewrite firstn_nil, app_nil_r.
  - simpl in Hp. apply andb_true_iff in Hp as [Hb Hp].
    destruct (plain_inv b Hb) as (E1 & E2 & E3).
    cbn [app Serial.readMasterflexResponse_scan]. rewrite E1, E2, E3.
    unfold blen at 1.
    destruct (N.ltb_spec (N.of_nat (List.length buffer) + 1) maxLen).
    + rewrite (IH Hp). f_equal. symmetry. apply firstn_step. lia.
    + rewrite (IH Hp). f_equal. apply firstn_full. lia.
Qed.

Lemma Ethernet_scan_stores (maxLen : N) (pre rest : list byte) :
  forallb plain pre = true ->
  forall buffer,
    Ethernet.readMasterflexResponse_scan (pre ++ rest) maxLen buffer
    = Ethernet.readMasterflexResponse_scan rest maxLen
        (buffer ++ firstn (N.to_nat (maxLen - 1) - List.length buffer) (drop_lf pre)).
Proof.
  induction pre as [|b pre IH]; intros Hp buffer.
  - simpl. now rewrite firstn_nil, app_nil_r.
  - simpl in Hp. apply andb_true_iff in Hp as [Hb Hp].
    destruct (plain_inv b Hb) as (E1 & E2 & E3).
    cbn [app Ethernet.readMasterflexResponse_scan]. rewrite E1, E2, E3.
    unfold drop_lf. cbn [filter]. fold (drop_lf pre).
    destruct (Byte.eqb b x0a); cbn [negb]; [apply (IH Hp)|].
    unfold blen at 1.
    destruct (N.ltb_spec (N.of_nat (List.length buffer) + 1) maxLen).
    + rewrite (IH Hp). f_equal. symmetry. apply firstn_step. lia.
    + rewrite (IH Hp). f_equal. apply firstn_full. lia.
Qed.

(** X22.  The text the pump reader hands back for a data line: the bytes
    before the carriage return (none of them an ACK or a NAK), clipped to
    what the buffer holds and read up to the first NUL; the Ethernet
    sketch leaves out the line feeds among them.  Bytes after the
    carriage return never matter.  The serial sketch hands back the same
    text when the line falls silent without a carriage return. *)
Theorem X22_pump_payload (maxLen : N) (pre post : list byte)
    (Hplain : forallb plain pre = true) :
  Serial_payload maxLen (pre ++ x0d :: post) = cstr (clip maxLen pre)
  /\ Serial_payload maxLen pre = cstr (clip maxLen pre)
  /\ Ethernet_payload maxLen (pre ++ x0d :: post) = cstr (clip maxLen (drop_lf pre)).
Proof.
  unfold Serial_payload, Ethernet_payload, clip. split; [|split].
  - rewrite (Serial_scan_stores maxLen pre (x0d :: post) Hplain). simpl.
    now rewrite Nat.sub_0_r.
  - rewrite <- (app_nil_r pre) at 1.
    rewrite (Serial_scan_stores maxLen pre [] Hplain). simpl.
    now rewrite Nat.sub_0_r.
  - rewrite (Ethernet_scan_stores maxLen pre (x0d :: post) Hplain). simpl.
    now rewrite Nat.sub_0_r.
Qed.

Lemma X22_pump_payload_witness :
  forallb plain [x52; x0a; x31] = true
  /\ Ethernet_payload 128 ([x52; x0a; x31] ++ x0d :: [x06])
     = cstr (clip 128 (drop_lf [x52; x0a; x31])).
Proof.
  split; [reflexivity|].
  exact (proj2 (proj2 (X22_pump_payload 128 [x52; x0a; x31] [x06] eq_refl))).
Defined.

(* ===================================================================== *)
(** ** Messages and their buffers                                         *)
(* ===================================================================== *)

Ltac fits_body :=
  returns_body; cbn [fst snd]; apply strlen_snprintf_le.

Lemma Relay_processCommand_fits (d : RelayDevice) (command : string)
    (p1 p2 : option string) (n : N) :
  returns (fun x => strlen (snd (fst x)) <= n - 1)
    (Relay.processCommand d command p1 p2 n).
Proof. unfold Relay.processCommand. fits_body. Qed.

Lemma Vici_processCommand_fits (d : ViciDevice) (command : string)
    (p1 p2 : option string) (n : N) :
  returns (fun x => strlen (snd x) <= n - 1)
    (Vici.processCommand d command p1 p2 n).
Proof. unfold Vici.processCommand, Vici.failed. fits_body. Qed.

Lemma Serial_Masterflex_fits (ff : FloatFormat) (d : MasterflexDevice)
    (command : string) (p1 p2 : option string) (n : N) :
  returns (fun x => strlen (snd (fst x)) <= n - 1)
    (Serial.Masterflex_processCommand ff d command p1 p2 n).
Proof.
  unfold Serial.Masterflex_processCommand, Serial.ack_command,
    Serial.Masterflex_failed.
  fits_body.
Qed.

Lemma Ethernet_Masterflex_fits (ff : FloatFormat) (d : MasterflexDevice)
    (command : string) (p1 p2 : option string) (n : N) :
  returns (fun x => strlen (snd (fst x)) <= n - 1)
    (Ethernet.Masterflex_processCommand ff d command p1 p2 n).
Proof.
  unfold Ethernet.Masterflex_processCommand, Ethernet.ack_command,
    Ethernet.Masterflex_failed.
  fits_body.
Qed.

Lemma Serial_processCommand_fits (ff : FloatFormat) (d : Device) (command : string)
    (p1 p2 : option string) (n : N) :
  returns (fun x => strlen (snd (fst x)) <= n - 1)
    (Serial.processCommand ff d command p1 p2 n).
Proof.
  destruct d as [r|v|m]; unfold Serial.processCommand.
  - apply (returns_bind_with _ _ _ _ (Relay_processCommand_fits r command p1 p2 n)).
    intros [[res msg] r'] H. apply returns_ret. exact H.
  - apply (returns_bind_with _ _ _ _ (Vici_processCommand_fits v command p1 p2 n)).
    intros [res msg] H. apply returns_ret. exact H.
  - apply (returns_bind_with _ _ _ _ (Serial_Masterflex_fits ff m command p1 p2 n)).
    intros [[res msg] m'] H. apply returns_ret. exact H.
Qed.

Lemma Ethernet_processCommand_fits (ff : FloatFormat) (d : Device) (command : string)
    (p1 p2 : option string) (n : N) :
  returns (fun x => strlen (snd (fst x)) <= n - 1)
    (Ethernet.processCommand ff d command p1 p2 n).
Proof.
  destruct d as [r|v|m]; unfold Ethernet.processCommand.
  - apply (returns_bind_with _ _ _ _ (Relay_processCommand_fits r command p1 p2 n)).
    intros [[res msg] r'] H. apply returns_ret. exact H.
  - apply (returns_bind_with _ _ _ _ (Vici_processCommand_fits v command p1 p2 n)).
    intros [res msg] H. apply returns_ret. exact H.
  - apply (returns_bind_with _ _ _ _ (Ethernet_Masterflex_fits ff m command p1 p2 n)).
    intros [[res msg] m'] H. apply returns_ret. exact H.
Qed.

Lemma getStatus_fits (d : Device) (n : N) :
  returns (fun x => strlen (snd x) <= n - 1) (Serial.getStatus d n)
  /\ returns (fun x => strlen (snd x) <= n - 1) (Ethernet.getStatus d n).
Proof.
  split; destruct d;
    unfold Serial.getStatus, Ethernet.getStatus, Relay.getStatus, Vici.getStatus,
      Serial.Masterflex_getStatus, Ethernet.Masterflex_getStatus;
    fits_body.
Qed.

(** X23.  No message outgrows its buffer.  Whatever the command, its
    parameters and the answers on the bus, the message a device writes
    into [response] has at most [responseSize - 1] characters, and the
    status text it writes into [status] at most [statusSize - 1]: texts
    that are too long, an echoed command or a long answer of the valve
    among them, are clipped.  This holds for the three device classes of
    both sketches. *)
Theorem X23_messages_fit (ff : FloatFormat) (d : Device) (command : string)
    (p1 p2 : option string) (n : N) :
  returns (fun x => strlen (snd (fst x)) <= n - 1)
    (Serial.processCommand ff d command p1 p2 n)
  /\ returns (fun x => strlen (snd (fst x)) <= n - 1)
       (Ethernet.processCommand ff d command p1 p2 n)
  /\ returns (fun x => strlen (snd x) <= n - 1) (Serial.getStatus d n)
  /\ returns (fun x => strlen (snd x) <= n - 1) (Ethernet.getStatus d n).
Proof.
  split; [apply Serial_processCommand_fits|].
  split; [apply Ethernet_processCommand_fits|].
  apply getStatus_fits.
Qed.
